(** * gwaihir: the config writer, the metadata log, the data loader and the
      volume viewer, embedded from the Python source.

    Sources embedded here:
    - [src/gwaihir/plot.py]: [Plotter.get_data_array],
      [ThreeDViewer.on_update_plot], [plot_2d_image], [plot_3d_slices] and
      the 3-D branch of [plot_data];
    - [src/gwaihir/controller/control_preprocess.py]: [create_yaml_file],
      [extract_metadata].

    Conventions.  A Python call that may raise returns a [result]; a method
    that mutates its object returns the new object next to the outcome and
    the text it printed.  Floating-point quantities that are computed with
    are modelled by the rationals they denote ([Q], exact arithmetic); a
    float that is only printed is given by its shortest decimal digits, as
    [repr] prints them.  The routines of the scientific libraries are not
    computed here: [np.sqrt], surface extraction and colour mapping are
    section variables, and [pd.read_csv], [DataFrame.to_csv], [np.mean]
    and [np.round] are fields of the world in which [extract_metadata]
    runs. *)

From Stdlib Require Import List String Ascii ZArith QArith Qabs Bool Lia Arith Lqa.
From Stdlib Require Import Qround DecimalString DecimalPos DecimalZ.
Import ListNotations.
Open Scope string_scope.
Open Scope list_scope.

(* ================================================================== *)
(** * Part I: definitions *)
(* ================================================================== *)

(** ** Python exceptions and outcomes *)

(** The exception classes that the embedded functions raise or catch.  All
    of them derive from [Exception].  [NameError] is what the evaluation
    of a name that is bound nowhere raises: [FileError] in
    [create_yaml_file] and [hash_print] in [extract_metadata] are such
    names (control_preprocess.py neither defines nor imports them). *)
Inductive exn : Type :=
| FileNotFoundError
| FileExistsError
| PermissionError
| NotADirectoryError
| IsADirectoryError
| ValueError
| IndexError
| AxisError
| AttributeError
| KeyError
| TypeError
| RuntimeError
| TraitError
| NoSuchNodeError
| NameError.

(** The classes of the enumeration that derive from [ValueError]
    ([numpy.AxisError] derives from [ValueError] and [IndexError]). *)
Definition is_ValueError (e : exn) : bool :=
  match e with
  | ValueError | AxisError => true
  | _ => false
  end.

Inductive result (A : Type) : Type :=
| Ok (a : A)
| Raise (e : exn).
Arguments Ok {A} a.
Arguments Raise {A} e.

(** ** Strings as Python uses them *)

Fixpoint prefixb (p l : list ascii) : bool :=
  match p, l with
  | [], _ => true
  | _ :: _, [] => false
  | a :: p', b :: l' => Ascii.eqb a b && prefixb p' l'
  end.

(** [s.endswith(suffix)]: the reversed suffix starts the reversed string. *)
Definition endswith (s suffix : string) : bool :=
  prefixb (rev (list_ascii_of_string suffix)) (rev (list_ascii_of_string s)).

(** ** numpy arrays *)

(** An array is its shape and its items: [item a [i; j; k]] is [a[i, j, k]].
    Only the items at in-range indices are meaningful.  Arrays of size zero
    (a zero in the shape) exist, as in numpy. *)
Record ndarray (A : Type) : Type := mk_ndarray {
  shape : list nat;
  item : list nat -> A
}.
Arguments mk_ndarray {A} shape item.
Arguments shape {A} _.
Arguments item {A} _ _.

Definition ndim {A} (a : ndarray A) : nat := List.length (shape a).

(** [a[0]]: the first sub-array along axis 0.  numpy raises [IndexError]
    on a 0-d array and on an axis of length 0. *)
Definition getitem0 {A} (a : ndarray A) : result (ndarray A) :=
  match shape a with
  | [] => Raise IndexError
  | O :: _ => Raise IndexError
  | S _ :: rest => Ok (mk_ndarray rest (fun idx => item a (O :: idx)))
  end.

(** Exchange positions [i] and [j] of a list; [d] pads out-of-range reads. *)
Definition swap_positions {B} (d : B) (i j : nat) (l : list B) : list B :=
  map (fun k => nth (if (k =? i)%nat then j
                     else if (k =? j)%nat then i else k) l d)
      (seq 0 (List.length l)).

(** [np.swapaxes(a, i, j)]: [AxisError] when an axis is out of range. *)
Definition swapaxes {A} (a : ndarray A) (i j : nat) : result (ndarray A) :=
  if (i <? ndim a)%nat && (j <? ndim a)%nat then
    Ok (mk_ndarray (swap_positions O i j (shape a))
                   (fun idx => item a (swap_positions O i j idx)))
  else Raise AxisError.

(** ** The data loader: [Plotter.get_data_array] (plot.py) *)

Section Loader.

(** The samples of the arrays; the loader never looks at them. *)
Variable sample : Type.
Definition array : Type := ndarray sample.

(** The [plot] argument: ['2D'], ['3D'], ['slices'] or [False]. *)
Inductive plot_flag : Type :=
| PlotFalse
| PlotStr (s : string).

Definition plot_is (f : plot_flag) (s : string) : bool :=
  match f with
  | PlotFalse => false
  | PlotStr t => String.eqb t s
  end.

(** The attributes of a [Plotter] the loader reads and writes.
    [data_array] is unbound ([None]) until a read succeeds. *)
Record Plotter : Type := mk_Plotter {
  filename : string;
  plot : plot_flag;
  log : bool;
  data_array : option array
}.

Definition set_data_array (p : Plotter) (a : array) : Plotter :=
  mk_Plotter (filename p) (plot p) (log p) (Some a).

(** What the loader shows or hands over, in order. *)
Inductive event : Type :=
| Print (s : string)
| PrintLoaded (fname : string)
| PrintNdim (n : nat)
| PrintShape (sh : list nat)
| CallPlotData (a : array)
| CallPlot3dSlices (a : array) (log : bool)
| CallThreeDViewer (a : array)
| Interact (files : list string)
| ShowTraceback (e : exn).

(** The files and the rendering routines the loader calls. *)
Record loader_env : Type := mk_loader_env {
  (** [np.load(filename)] on a raw array file *)
  np_load : string -> result array;
  (** [np.load(filename)] on an archive: the named members, each read
      when it is picked *)
  np_load_npz : string -> result (list (string * result array));
  (** [h5.File(filename, mode='r')['entry_1/data_1/data'][()]] *)
  h5_read : string -> result array;
  (** whether a rendering call raises *)
  render : event -> option exn
}.

Definition msg_npy : string := "Could not load data ... ".

(** The message of the two HDF5 branches (layout whitespace dropped). *)
Definition msg_hdf5 : string :=
  "The file could not be loaded, verify that you are loading a file with an hdf5 architecture (.nxs, .cxi, .h5, ...) and that the file exists. Otherwise, verify that the data is saved in f.root.entry_1.data_1.data[:], as it should be following csi conventions.".

Definition rule : string :=
  "#################################################################################################################".

(** The textual summary of the last [else] branch.  Reading
    [self.data_array] raises [AttributeError] while it is unbound, after
    the first two lines went out. *)
Definition print_summary (p : Plotter) : list event * option exn :=
  match data_array p with
  | None => ([Print rule; PrintLoaded (filename p)], Some AttributeError)
  | Some a =>
      ([Print rule; PrintLoaded (filename p); PrintNdim (ndim a);
        PrintShape (shape a); Print rule], None)
  end.

(** The "Plot data" block shared by the two branches. *)
Definition dispatch (env : loader_env) (p : Plotter)
  : list event * option exn :=
  if plot_is (plot p) "2D" then
    match data_array p with
    | None => ([], Some AttributeError)
    | Some a => ([CallPlotData a], render env (CallPlotData a))
    end
  else if plot_is (plot p) "slices" then
    match data_array p with
    | None => ([], Some AttributeError)
    | Some a => ([CallPlot3dSlices a (log p)],
                 render env (CallPlot3dSlices a (log p)))
    end
  else if plot_is (plot p) "3D" then
    match data_array p with
    | None => ([], Some AttributeError)
    | Some a =>
        if (ndim a =? 3)%nat
        then ([CallThreeDViewer a], render env (CallThreeDViewer a))
        else print_summary p
    end
  else print_summary p.

(** The [.h5] branch: bind the raw array, collapse a 4-D one with [[0]],
    swap axes 0 and 2; any exception on the way prints the message and
    leaves [data_array] as the last assignment made it. *)
Definition load_h5 (env : loader_env) (p : Plotter)
  : Plotter * list event :=
  match h5_read env (filename p) with
  | Raise _ => (p, [Print msg_hdf5])
  | Ok a =>
      match (if (ndim a =? 4)%nat then getitem0 a else Ok a) with
      | Raise _ => (set_data_array p a, [Print msg_hdf5])
      | Ok b =>
          match swapaxes b 0 2 with
          | Raise _ => (set_data_array p b, [Print msg_hdf5])
          | Ok c => (set_data_array p c, [])
          end
      end
  end.

Definition load_cxi (env : loader_env) (p : Plotter)
  : Plotter * list event :=
  match h5_read env (filename p) with
  | Raise _ => (p, [Print msg_hdf5])
  | Ok a => (set_data_array p a, [])
  end.

Definition load_npy (env : loader_env) (p : Plotter)
  : Plotter * list event :=
  match np_load env (filename p) with
  | Raise _ => (p, [Print msg_npy])
  | Ok a => (set_data_array p a, [])
  end.

(** [open_npz(file)], the callback handed to [interact]: an exception in
    it stays with the widget runtime, which shows the traceback. *)
Definition open_npz (env : loader_env) (p : Plotter)
           (member : result array) : Plotter * list event :=
  match member with
  | Raise e => (p, [ShowTraceback e])
  | Ok a =>
      let p' := set_data_array p a in
      match dispatch env p' with
      | (tr, None) => (p', tr)
      | (tr, Some e) => (p', tr ++ [ShowTraceback e])
      end
  end.

(** The loader.  The outcome is [Some e] when [e] leaves the method. *)
Definition get_data_array (env : loader_env) (p : Plotter)
  : Plotter * list event * option exn :=
  let f := filename p in
  if endswith f ".npy" || endswith f ".h5" || endswith f ".cxi" then
    let '(p1, tr1) :=
      if endswith f ".npy" then load_npy env p
      else if endswith f ".cxi" then load_cxi env p
      else if endswith f ".h5" then load_h5 env p
      else (p, [])
    in
    let '(tr2, out) := dispatch env p1 in
    (p1, tr1 ++ tr2, out)
  else if endswith f ".npz" then
    match np_load_npz env f with
    | Raise e => (p, [], Some e)               (* except ...: raise E *)
    | Ok members =>
        match members with
        | [] => (p, [], Some IndexError)       (* rawdata.files[0] *)
        | (_, first) :: _ =>
            let '(p1, tr) := open_npz env p first in
            (p1, Interact (map fst members) :: tr, None)
        end
    end
  else (p, [], None).

End Loader.

Arguments mk_Plotter {sample} _ _ _ _.
Arguments filename {sample} _.
Arguments plot {sample} _.
Arguments data_array {sample} _.
Arguments Print {sample} _.
Arguments mk_loader_env {sample} _ _ _ _.
Arguments get_data_array {sample} _ _.
Arguments load_h5 {sample} _ _.
Arguments dispatch {sample} _ _.
Arguments set_data_array {sample} _ _.
Arguments np_load {sample} _ _.
Arguments np_load_npz {sample} _ _.
Arguments h5_read {sample} _ _.
Arguments render {sample} _ _.

(** ** The volume viewer: [ThreeDViewer.on_update_plot] (plot.py) *)

(** The 3-D volume [self.d], indexed [(z, y, x)].  A complex volume enters
    [on_update_plot] only through [abs(self.d)] outside the colouring
    routines, so [vox] holds real samples and [abs] is [Qabs]. *)
Record volume : Type := mk_volume {
  nz : nat;
  ny : nat;
  nx : nat;
  vox : nat -> nat -> nat -> Q
}.

(** All grid points in C order, as [np.where] and [np.meshgrid(...,
    indexing='ij')] enumerate them. *)
Definition grid (v : volume) : list (nat * nat * nat) :=
  flat_map (fun z =>
    flat_map (fun y => map (fun x => (z, y, x)) (seq 0 (nx v)))
             (seq 0 (ny v)))
    (seq 0 (nz v)).

Definition Qgeb (a b : Q) : bool := Qle_bool b a.
Definition Qgtb (a b : Q) : bool := negb (Qle_bool a b).
Definition Qltb (a b : Q) : bool := negb (Qle_bool b a).

Definition qmin (a b : Q) : Q := if Qle_bool a b then a else b.
Definition qmax (a b : Q) : Q := if Qle_bool a b then b else a.

(** [arr.min()] and [arr.max()]: [ValueError] on an array of size zero. *)
Definition array_min (l : list Q) : result Q :=
  match l with
  | [] => Raise ValueError
  | a :: r => Ok (fold_left qmin r a)
  end.

Definition array_max (l : list Q) : result Q :=
  match l with
  | [] => Raise ValueError
  | a :: r => Ok (fold_left qmax r a)
  end.

(** [np.isclose(a, b)] with numpy's defaults [rtol=1e-05], [atol=1e-08]. *)
Definition rtol : Q := 1 # 100000.
Definition atol : Q := 1 # 100000000.
Definition isclose (a b : Q) : bool :=
  Qle_bool (Qabs (a - b)) (atol + rtol * Qabs b).

(** A [FloatRangeSlider]: its bounds and its value, a pair. *)
Record FloatRangeSlider : Type := mk_slider {
  r_min : Q;
  r_max : Q;
  r_lower : Q;
  r_upper : Q
}.

(** Assigning [slider.max]: the widget library refuses a maximum under the
    minimum ([TraitError], "setting max < min") and otherwise clamps the
    value under the new maximum. *)
Definition set_max (s : FloatRangeSlider) (new : Q) : result FloatRangeSlider :=
  if Qltb new (r_min s) then Raise TraitError
  else Ok (mk_slider (r_min s) new (qmin new (r_lower s)) (qmin new (r_upper s))).

(** Assigning [slider.min]: refused over the maximum, otherwise the value
    is clamped over the new minimum. *)
Definition set_min (s : FloatRangeSlider) (new : Q) : result FloatRangeSlider :=
  if Qgtb new (r_max s) then Raise TraitError
  else Ok (mk_slider new (r_max s) (qmax new (r_lower s)) (qmax new (r_upper s))).

(** The two ordered assignments of [on_update_plot]; the slider after the
    first assignment is returned next to the final one. *)
Definition fit_clipdist (s : FloatRangeSlider) (tmpmin tmpmax : Q)
  : result (FloatRangeSlider * FloatRangeSlider) :=
  if Qgtb tmpmax (r_min s) then
    match set_max s tmpmax with
    | Raise e => Raise e
    | Ok s1 =>
        match set_min s1 tmpmin with
        | Raise e => Raise e
        | Ok s2 => Ok (s1, s2)
        end
    end
  else
    match set_min s tmpmin with
    | Raise e => Raise e
    | Ok s1 =>
        match set_max s1 tmpmax with
        | Raise e => Raise e
        | Ok s2 => Ok (s1, s2)
        end
    end.

(** The clip vector and its norm as the projections use them. *)
Record clip_vector : Type := mk_clip {
  c_ux : Q;
  c_uy : Q;
  c_uz : Q;
  c_u : Q
}.

(** The text of [plane_text]: the two distances and the unit normal. *)
Record plane_equation : Type := mk_plane {
  pl_lower : Q;
  pl_x : Q;
  pl_y : Q;
  pl_z : Q;
  pl_upper : Q
}.

(** How the surface is coloured. *)
Inductive paint_mode : Type :=
| PaintPhase
| PaintAbs (cmap : string) (vmin vmax : Q).

Section Viewer.

(** [np.sqrt]. *)
Variable np_sqrt : Q -> Q.

(** The triangulated surface and the mesh object drawn from it. *)
Variable surface : Type.
Variable trisurf : Type.

(** The surface extraction of [marching_cubes] once its arguments passed
    the checks, on the masked magnitudes and the level. *)
Variable extract_surface : volume -> Q -> result surface.

(** Interpolation of the data on the vertices, colour mapping and
    [ipv.plot_trisurf]. *)
Variable paint : paint_mode -> volume -> surface -> result trisurf.

(** The widgets and attributes of the viewer that [on_update_plot] reads
    or writes. *)
Record ThreeDViewer : Type := mk_viewer {
  d : volume;
  threshold : Q;
  toggle_plane : bool;
  clipx : Q;
  clipy : Q;
  clipz : Q;
  clipdist : FloatRangeSlider;
  clip_disabled : bool;
  plane_text : option plane_equation;
  toggle_phase : string;
  colormap : string;
  colormap_disabled : bool;
  colormap_range : Q * Q;
  mesh : option trisurf;
  progress : Z
}.

Definition with_progress (w : ThreeDViewer) (n : Z) : ThreeDViewer :=
  mk_viewer (d w) (threshold w) (toggle_plane w) (clipx w) (clipy w) (clipz w)
    (clipdist w) (clip_disabled w) (plane_text w) (toggle_phase w)
    (colormap w) (colormap_disabled w) (colormap_range w) (mesh w) n.

Definition with_clip_disabled (w : ThreeDViewer) (b : bool) : ThreeDViewer :=
  mk_viewer (d w) (threshold w) (toggle_plane w) (clipx w) (clipy w) (clipz w)
    (clipdist w) b (plane_text w) (toggle_phase w)
    (colormap w) (colormap_disabled w) (colormap_range w) (mesh w) (progress w).

Definition with_clipdist (w : ThreeDViewer) (s : FloatRangeSlider) : ThreeDViewer :=
  mk_viewer (d w) (threshold w) (toggle_plane w) (clipx w) (clipy w) (clipz w)
    s (clip_disabled w) (plane_text w) (toggle_phase w)
    (colormap w) (colormap_disabled w) (colormap_range w) (mesh w) (progress w).

Definition with_plane_text (w : ThreeDViewer) (t : option plane_equation)
  : ThreeDViewer :=
  mk_viewer (d w) (threshold w) (toggle_plane w) (clipx w) (clipy w) (clipz w)
    (clipdist w) (clip_disabled w) t (toggle_phase w)
    (colormap w) (colormap_disabled w) (colormap_range w) (mesh w) (progress w).

Definition with_colormap_disabled (w : ThreeDViewer) (b : bool) : ThreeDViewer :=
  mk_viewer (d w) (threshold w) (toggle_plane w) (clipx w) (clipy w) (clipz w)
    (clipdist w) (clip_disabled w) (plane_text w) (toggle_phase w)
    (colormap w) b (colormap_range w) (mesh w) (progress w).

Definition with_mesh (w : ThreeDViewer) (m : trisurf) : ThreeDViewer :=
  mk_viewer (d w) (threshold w) (toggle_plane w) (clipx w) (clipy w) (clipz w)
    (clipdist w) (clip_disabled w) (plane_text w) (toggle_phase w)
    (colormap w) (colormap_disabled w) (colormap_range w) (Some m) (progress w).

(** [uz, uy, ux = ...; u = np.sqrt(ux ** 2 + uy ** 2 + uz ** 2)] and the
    replacement of a vanishing normal by [ux = 1], [u = 1]. *)
Definition clip_normal (w : ThreeDViewer) : clip_vector :=
  let ux := clipx w in
  let uy := clipy w in
  let uz := clipz w in
  let u := np_sqrt (ux * ux + uy * uy + uz * uz) in
  if isclose u 0 then mk_clip 1 uy uz 1 else mk_clip ux uy uz u.

(** [(x * ux + y * uy + z * uz) / u] at a grid point. *)
Definition projection (c : clip_vector) (p : nat * nat * nat) : Q :=
  let '(z, y, x) := p in
  (inject_Z (Z.of_nat x) * c_ux c + inject_Z (Z.of_nat y) * c_uy c
   + inject_Z (Z.of_nat z) * c_uz c) / c_u c.

(** [np.where(abs(self.d) >= self.threshold.value)]. *)
Definition above_threshold (w : ThreeDViewer) : list (nat * nat * nat) :=
  filter (fun p => let '(z, y, x) := p in
                   Qgeb (Qabs (vox (d w) z y x)) (threshold w))
         (grid (d w)).

(** [tmp], the projections of the points at or above the threshold. *)
Definition clip_projections (w : ThreeDViewer) : list Q :=
  map (projection (clip_normal w)) (above_threshold w).

(** [abs(self.d) * c] for the clipping mask of the interval [(lo, hi)],
    or for [c = 1] when there is none. *)
Definition masked_magnitude (w : ThreeDViewer)
           (clip : option (clip_vector * Q * Q)) : volume :=
  mk_volume (nz (d w)) (ny (d w)) (nx (d w))
    (fun z y x =>
       match clip with
       | None => Qabs (vox (d w) z y x) * 1
       | Some (c, lo, hi) =>
           Qabs (vox (d w) z y x)
           * (if Qgtb (projection c (z, y, x)) lo
                 && Qltb (projection c (z, y, x)) hi
              then 1 else 0)
       end).

(** [marching_cubes(volume, level=...)] of scikit-image: the volume must be
    at least 2x2x2 and the level within the range of its values. *)
Definition marching_cubes (v : volume) (level : Q) : result surface :=
  if (nz v <? 2)%nat || (ny v <? 2)%nat || (nx v <? 2)%nat then Raise ValueError
  else
    let values := map (fun p => let '(z, y, x) := p in vox v z y x) (grid v) in
    match array_min values, array_max values with
    | Ok lo, Ok hi =>
        if Qltb level lo || Qgtb level hi then Raise ValueError
        else extract_surface v level
    | _, _ => Raise ValueError
    end.

(** The body of the [try] block: surface, colours, mesh.  The colour map
    is switched off or on before the colours are computed; the gradient
    branch reads [self.rgi_gx], which is never bound. *)
Definition recompute_mesh (w : ThreeDViewer) (masked : volume)
  : ThreeDViewer * result trisurf :=
  match marching_cubes masked (threshold w) with
  | Raise e => (w, Raise e)
  | Ok srf =>
      if String.eqb (toggle_phase w) "Phase" then
        (with_colormap_disabled w true, paint PaintPhase (d w) srf)
      else if String.eqb (toggle_phase w) "Abs"
              || String.eqb (toggle_phase w) "log10(Abs)" then
        (with_colormap_disabled w false,
         paint (PaintAbs (colormap w) (fst (colormap_range w))
                         (snd (colormap_range w))) (d w) srf)
      else (w, Raise AttributeError)
  end.

(** [try: ... except Exception as ex: print(ex)], then the progress bar. *)
Definition draw (w : ThreeDViewer) (masked : volume)
  : ThreeDViewer * list exn * option exn :=
  match recompute_mesh w masked with
  | (w1, Ok m) => (with_progress (with_mesh w1 m) 10, [], None)
  | (w1, Raise e) => (with_progress w1 10, [e], None)
  end.

(** [if v is not None: if v['name'] != 'value': return]. *)
Definition ignored_change (v : option string) : bool :=
  match v with
  | Some name => negb (String.eqb name "value")
  | None => false
  end.

(** [on_update_plot(v)]: [v] is the name of the changed trait, if any.
    The result is the viewer, what the handler printed, and the exception
    that leaves the method, if one does.  Unregistering and registering
    the observers of the clip sliders (each inside [try ... except: pass])
    changes nothing that is kept here. *)
Definition on_update_plot (w : ThreeDViewer) (v : option string)
  : ThreeDViewer * list exn * option exn :=
  match ignored_change v with
  | true => (w, [], None)
  | false =>
      let w := with_progress w 7 in
      if toggle_plane w then
        let w := with_clip_disabled w false in
        let c := clip_normal w in
        let tmp := clip_projections w in
        match array_min tmp, array_max tmp with
        | Raise e, _ => (w, [], Some e)
        | _, Raise e => (w, [], Some e)
        | Ok lo, Ok hi =>
            let tmpmin := lo - 1 in
            let tmpmax := hi + 1 in
            match fit_clipdist (clipdist w) tmpmin tmpmax with
            | Raise e =>
                (* the first assignment may have gone through *)
                let w' :=
                  match (if Qgtb tmpmax (r_min (clipdist w))
                         then set_max (clipdist w) tmpmax
                         else set_min (clipdist w) tmpmin) with
                  | Ok s1 => with_clipdist w s1
                  | Raise _ => w
                  end in
                (w', [], Some e)
            | Ok (_, s2) =>
                let w := with_clipdist w s2 in
                let masked :=
                  masked_magnitude w (Some (c, r_lower s2, r_upper s2)) in
                let w := with_plane_text w
                           (Some (mk_plane (r_lower s2) (c_ux c / c_u c)
                                           (c_uy c / c_u c) (c_uz c / c_u c)
                                           (r_upper s2))) in
                draw w masked
            end
        end
      else
        let w := with_clip_disabled w true in
        let w := with_plane_text w None in
        draw w (masked_magnitude w None)
  end.

End Viewer.

Arguments mk_viewer {trisurf} _ _ _ _ _ _ _ _ _ _ _ _ _ _ _.
Arguments d {trisurf} _.
Arguments threshold {trisurf} _.
Arguments toggle_plane {trisurf} _.
Arguments clipx {trisurf} _.
Arguments clipy {trisurf} _.
Arguments clipz {trisurf} _.
Arguments clipdist {trisurf} _.
Arguments plane_text {trisurf} _.
Arguments mesh {trisurf} _.
Arguments progress {trisurf} _.
Arguments clip_normal np_sqrt {trisurf} _.
Arguments above_threshold {trisurf} _.
Arguments clip_projections np_sqrt {trisurf} _.
Arguments masked_magnitude {trisurf} _ _.
Arguments marching_cubes {surface} _ _ _.
Arguments recompute_mesh {surface trisurf} _ _ _ _.
Arguments draw {surface trisurf} _ _ _ _.
Arguments on_update_plot np_sqrt {surface trisurf} _ _ _ _.

(** The widget library's invariant of a range slider: the bounds are
    ordered and both ends of the value lie within them. *)
Definition slider_valid (s : FloatRangeSlider) : Prop :=
  r_min s <= r_max s /\
  (r_min s <= r_lower s /\ r_lower s <= r_max s) /\
  (r_min s <= r_upper s /\ r_upper s <= r_max s).

(** ** Concrete inputs for the viewer *)

(** Square root on the rationals that are squares (rounded down on the
    others); it stands for [np.sqrt] on the concrete inputs below, whose
    norms are rational. *)
Definition rational_sqrt (q : Q) : Q :=
  Z.sqrt (Qnum q) # Pos.sqrt (Qden q).

(** The cube of side [n] with every sample equal to [q]. *)
Definition constant_volume (n : nat) (q : Q) : volume :=
  mk_volume n n n (fun _ _ _ => q).

(** A viewer on the 2x2x2 volume of ones, clip normal [(ux, uy, uz)],
    clip slider at its initial bounds [0, 100], and a mesh already drawn. *)
Definition example_viewer (thr : Q) (plane : bool) (ux uy uz : Q)
  : ThreeDViewer unit :=
  mk_viewer (constant_volume 2 1) thr plane ux uy uz
            (mk_slider 0 100 0 100) (negb plane) None "Abs" "Jet" false
            (0, 1) (Some tt) 10.

Definition example_extract (v : volume) (level : Q) : result unit := Ok tt.
Definition example_paint (m : paint_mode) (v : volume) (s : unit)
  : result unit := Ok tt.

(** ** The metadata log: [extract_metadata] (control_preprocess.py) *)

(** *** Python strings with their identity *)

(** A [str] object: where it lives and what it holds.  [a is b] compares
    the objects, [a == b] the texts. *)
Record pystr : Type := mk_pystr {
  obj_id : nat;
  text : string
}.

Definition py_is (a b : pystr) : bool := Nat.eqb (obj_id a) (obj_id b).
Definition py_eq (a b : pystr) : bool := String.eqb (text a) (text b).

(** The constant ["SIXS_2019"] of the code object of [extract_metadata]
    (an interned string; its address is fixed while the program runs). *)
Definition SIXS_2019_literal : pystr := mk_pystr 0 "SIXS_2019".

(** *** Values of the result file and cells of the log *)

(** What [node[...]] returns: a 0-d array (a scalar, possibly nan) or a
    1-d array. *)
Inductive h5value : Type :=
| HScalar (q : Q)
| HNaN
| HArray (l : list Q).

(** The group [f.root.output]: its nodes by name. *)
Definition h5group : Type := list (string * h5value).

Fixpoint assoc {B : Type} (k : string) (l : list (string * B)) : option B :=
  match l with
  | [] => None
  | (k', v) :: r => if String.eqb k k' then Some v else assoc k r
  end.

(** [f.root.output.<name>[...]]. *)
Definition node (g : h5group) (name : string) : result h5value :=
  match assoc name g with
  | Some v => Ok v
  | None => Raise NoSuchNodeError
  end.

(** [v[i]] on what a node returned. *)
Definition h5_getitem (v : h5value) (i : nat) : result Q :=
  match v with
  | HArray l =>
      match nth_error l i with
      | Some q => Ok q
      | None => Raise IndexError
      end
  | _ => Raise IndexError
  end.

(** A cell of the table: an integer (an element of an integer column, or a
    Python [int]), a float, a text, an array or a missing value. *)
Inductive cell : Type :=
| CInt (z : Z)
| CNum (q : Q)
| CTxt (s : string)
| CArr (l : list Q)
| CNaN.

(** An element of the row handed to [pd.DataFrame]. *)
Definition cell_of (v : h5value) : cell :=
  match v with
  | HScalar q => CNum q
  | HNaN => CNaN
  | HArray l => CArr l
  end.

(** The value of [temp_df[name] = v] in a frame of one row: a scalar is
    broadcast, an array must have length one. *)
Definition column_value (v : h5value) : result cell :=
  match v with
  | HScalar q => Ok (CNum q)
  | HNaN => Ok CNaN
  | HArray [q] => Ok (CNum q)
  | HArray _ => Raise ValueError
  end.

(** *** Data frames *)

(** A row maps column names to cells; a missing column reads as NaN. *)
Definition row : Type := list (string * cell).

Definition cell_at (r : row) (c : string) : cell :=
  match assoc c r with
  | Some v => v
  | None => CNaN
  end.

Fixpoint set_cell (r : row) (c : string) (v : cell) : row :=
  match r with
  | [] => [(c, v)]
  | (c', v') :: r' =>
      if String.eqb c c' then (c, v) :: r' else (c', v') :: set_cell r' c v
  end.

Definition mem (c : string) (l : list string) : bool :=
  existsb (String.eqb c) l.

(** The ordered columns and the rows with their index labels. *)
Record DataFrame : Type := mk_df {
  columns : list string;
  rows : list (nat * row)
}.

(** [df[c] = v] with a scalar [v]. *)
Definition set_column (df : DataFrame) (c : string) (v : cell) : DataFrame :=
  mk_df (if mem c (columns df) then columns df else columns df ++ [c])
        (map (fun p => (fst p, set_cell (snd p) c v)) (rows df)).

(** [df.head()]: the first five rows. *)
Definition head (df : DataFrame) : DataFrame :=
  mk_df (columns df) (firstn 5 (rows df)).

(** [df.drop(indices, inplace=True)]: rows are dropped by label. *)
Definition drop (df : DataFrame) (indices : list nat) : DataFrame :=
  mk_df (columns df)
        (filter (fun p => negb (existsb (Nat.eqb (fst p)) indices)) (rows df)).

(** [pd.concat([a, b])]: the columns of [a], then the new ones of [b]. *)
Definition concat (a b : DataFrame) : DataFrame :=
  mk_df (columns a ++ filter (fun c => negb (mem c (columns a))) (columns b))
        (rows a ++ rows b).

(** *** The files and readers around [extract_metadata] *)

(** The beamline reader's object: its attributes, each a sequence. *)
Definition nxs_data : Type := list (string * list Q).

Record Dataset : Type := mk_Dataset {
  beamline : pystr;
  path_to_nxs_data : string;
  attributes : list (string * h5value)
}.

Definition setattr (ds : Dataset) (name : string) (v : h5value) : Dataset :=
  mk_Dataset (beamline ds) (path_to_nxs_data ds)
             ((name, v) :: attributes ds).

(** The world around [extract_metadata]: the files it opens, and the
    routines of pandas and numpy that it calls on them, which are taken as
    they are (their results are not computed here).  [csv_text] is what a
    CSV file holds. *)
Record meta_world (csv_text : Type) : Type := mk_world {
  (** [tb.open_file(path, "r").root.output] *)
  h5_files : list (string * h5group);
  (** [rd.DataSet(path)] *)
  nxs_files : list (string * nxs_data);
  (** the CSV files, latest write first *)
  csv_files : list (string * csv_text);
  (** [os.getcwd()] *)
  cwd : string;
  (** [pd.read_csv] on what an existing file holds *)
  pd_read_csv : csv_text -> result DataFrame;
  (** what [df.to_csv(path, index=False)] writes *)
  pd_to_csv : DataFrame -> csv_text;
  (** [c == n] as [df['scan'] == n] evaluates it on a cell [c] when [c]
      and [n] are not both integers of 64 bits *)
  pd_eq : cell -> Z -> bool;
  (** [np.mean] of an array that is not empty *)
  np_mean : list Q -> Q;
  (** [np.round(x, decimals)] *)
  np_round : Q -> Z -> Q
}.
Arguments mk_world {csv_text} _ _ _ _ _ _ _ _ _.
Arguments h5_files {csv_text} _.
Arguments nxs_files {csv_text} _.
Arguments csv_files {csv_text} _.
Arguments cwd {csv_text} _.
Arguments pd_read_csv {csv_text} _ _.
Arguments pd_to_csv {csv_text} _ _.
Arguments pd_eq {csv_text} _ _ _.
Arguments np_mean {csv_text} _ _.
Arguments np_round {csv_text} _ _ _.

(** What [extract_metadata] prints or displays. *)
Inductive meta_event : Type :=
| MPrint (s : string)
| MDisplay (df : DataFrame).

(** [n] fits a signed integer of 64 bits. *)
Definition int64 (n : Z) : bool :=
  ((- 2 ^ 63 <=? n) && (n <? 2 ^ 63))%Z.

(** [except (FileNotFoundError, ValueError)]. *)
Definition caught (e : exn) : bool :=
  match e with
  | FileNotFoundError => true
  | _ => is_ValueError e
  end.

Section Log.

Context {csv_text : Type}.

Definition write_csv (w : meta_world csv_text) (path : string) (f : csv_text)
  : meta_world csv_text :=
  mk_world (h5_files w) (nxs_files w) ((path, f) :: csv_files w) (cwd w)
           (pd_read_csv w) (pd_to_csv w) (pd_eq w) (np_mean w) (np_round w).

(** [df['scan'] == scan_nb] at one row: two integers of 64 bits are
    compared as integers. *)
Definition scan_mask (w : meta_world csv_text) (scan_nb : Z) (r : row)
  : bool :=
  match cell_at r "scan" with
  | CInt z =>
      if int64 z && int64 scan_nb then Z.eqb z scan_nb
      else pd_eq w (CInt z) scan_nb
  | c => pd_eq w c scan_nb
  end.

(** [df[df['scan'] == scan_nb].index]. *)
Definition matching_index (w : meta_world csv_text) (df : DataFrame)
           (scan_nb : Z) : list nat :=
  map fst (filter (fun p => scan_mask w scan_nb (snd p)) (rows df)).

(** *** The row read from the result file *)

(** The frame of one row built from the eight required fields. *)
Definition required_frame (scan_nb : Z) (g : h5group) : result DataFrame :=
  match node g "q" with Raise e => Raise e | Ok q =>
  match h5_getitem q 0 with Raise e => Raise e | Ok qx =>
  match h5_getitem q 1 with Raise e => Raise e | Ok qy =>
  match h5_getitem q 2 with Raise e => Raise e | Ok qz =>
  match node g "qnorm" with Raise e => Raise e | Ok qnorm =>
  match node g "dist_plane" with Raise e => Raise e | Ok dist_plane =>
  match node g "bragg_inplane" with Raise e => Raise e | Ok inplane =>
  match node g "bragg_outofplane" with Raise e => Raise e | Ok outofplane =>
  match node g "bragg_peak" with Raise e => Raise e | Ok peak =>
    Ok (mk_df ["scan"; "qx"; "qy"; "qz"; "q_norm"; "d_hkl"; "inplane_angle";
               "out_of_plane_angle"; "bragg_peak"]
              [(0%nat,
                [("scan", CInt scan_nb); ("qx", CNum qx);
                 ("qy", CNum qy); ("qz", CNum qz); ("q_norm", cell_of qnorm);
                 ("d_hkl", cell_of dist_plane);
                 ("inplane_angle", cell_of inplane);
                 ("out_of_plane_angle", cell_of outofplane);
                 ("bragg_peak", cell_of peak)])])
  end end end end end end end end end.

Fixpoint differences (l : list Q) : list Q :=
  match l with
  | a :: (b :: _) as r => (b - a) :: differences r
  | _ => []
  end.

(** [np.round(np.mean(t[1:] - t[:-1]), 4)]; the mean of nothing is nan,
    and so is what it is rounded to. *)
Definition mean_step (w : meta_world csv_text) (t : list Q) : h5value :=
  match differences t with
  | [] => HNaN
  | ds => HScalar (np_round w (np_mean w ds) 4)
  end.

(** The first optional block.  A missing node ends the block silently
    ([except tb.NoSuchNodeError: pass]); the columns set before stay.
    The result carries [tilt_angle] when it was bound. *)
Definition optional_columns (w : meta_world csv_text) (g : h5group)
           (df : DataFrame) : result (DataFrame * option h5value) :=
  match node g "COM_rocking_curve" with
  | Raise _ => Ok (df, None)
  | Ok com =>
      match column_value com with
      | Raise e => Raise e
      | Ok c1 =>
          let df := set_column df "COM_rocking_curve" c1 in
          match node g "interp_fwhm" with
          | Raise _ => Ok (df, None)
          | Ok fwhm =>
              match column_value fwhm with
              | Raise e => Raise e
              | Ok c2 =>
                  let df := set_column df "interp_fwhm" c2 in
                  match node g "tilt_values" with
                  | Raise _ => Ok (df, None)
                  | Ok (HArray t) =>
                      let tilt_angle := mean_step w t in
                      Ok (set_column df "tilt_angle" (cell_of tilt_angle),
                          Some tilt_angle)
                  | Ok _ => Raise IndexError     (* slicing a 0-d array *)
                  end
              end
          end
      end
  end.

(** Copy the nodes [names] onto the data set in order, up to the first
    missing one. *)
Fixpoint mirror_nodes (g : h5group) (names : list (string * string))
         (ds : Dataset) : Dataset * bool :=
  match names with
  | [] => (ds, true)
  | (attr, name) :: r =>
      match assoc name g with
      | None => (ds, false)
      | Some v => mirror_nodes g r (setattr ds attr v)
      end
  end.

Definition getattr (data : nxs_data) (name : string) : result (list Q) :=
  match assoc name data with
  | Some l => Ok l
  | None => Raise AttributeError
  end.

(** [data.<name>[0]]. *)
Definition first_of (data : nxs_data) (name : string) : result Q :=
  match getattr data name with
  | Raise e => Raise e
  | Ok l => match l with
            | [] => Raise IndexError
            | q :: _ => Ok q
            end
  end.

(** The assignments of the beamline block, one column at a time; the
    frame keeps the columns set before an exception. *)
Definition sixs_columns (data : nxs_data) (df : DataFrame)
  : DataFrame * option exn :=
  let step (name attr : string) (k : DataFrame -> DataFrame * option exn)
           (df : DataFrame) :=
    match first_of data attr with
    | Raise e => (df, Some e)
    | Ok q => k (set_column df name (CNum q))
    end in
  step "x" "x" (
  step "y" "y" (
  step "z" "z" (
  step "mu" "mu" (
  step "delta" "delta" (
  step "omega" "omega" (
  step "gamma" "gamma" (fun df =>
    match first_of data "gamma", first_of data "mu" with
    | Raise e, _ => (df, Some e)
    | _, Raise e => (df, Some e)
    | Ok gamma0, Ok mu0 =>
        let df := set_column df "gamma-mu" (CNum (gamma0 - mu0)) in
        match getattr data "mu" with
        | Raise e => (df, Some e)
        | Ok mu =>
            (* data.mu[-1], data.mu[-0], len(data.mu); mu is not empty *)
            let df := set_column df "step_size"
                        (CNum ((last mu 0 - mu0)
                               / inject_Z (Z.of_nat (List.length mu)))) in
            match first_of data "integration_time" with
            | Raise e => (df, Some e)
            | Ok t0 =>
                let df := set_column df "integration_time" (CNum t0) in
                match getattr data "integration_time" with
                | Raise e => (df, Some e)
                | Ok ts =>
                    (set_column df "steps"
                       (CInt (Z.of_nat (List.length ts))), None)
                end
            end
        end
    end))))))) df.

Definition msg_sixs : string := "Could not extract metadata from SixS file".

(** The block run when a [Dataset] is supplied: the six attributes, the
    second optional block, and, when [beamline is "SIXS_2019"], the
    columns read by the beamline reader.  The data set is an object
    updated in place, so it is returned also when an exception leaves. *)
Definition save_in_dataset (w : meta_world csv_text) (g : h5group)
           (df : DataFrame)
           (tilt_angle : option h5value) (ds : Dataset)
  : Dataset * list meta_event * result DataFrame :=
  let '(ds, _) :=
    mirror_nodes g [("bragg_peak", "bragg_peak"); ("q", "q");
                    ("qnorm", "qnorm"); ("dist_plane", "dist_plane");
                    ("bragg_inplane", "bragg_inplane");
                    ("bragg_outofplane", "bragg_outofplane")] ds in
  let '(ds, complete) :=
    mirror_nodes g [("tilt_values", "tilt_values");
                    ("rocking_curve", "rocking_curve");
                    ("interp_tilt", "interp_tilt");
                    ("interp_curve", "interp_curve");
                    ("detector_data_COM", "detector_data_COM");
                    ("COM_rocking_curve", "COM_rocking_curve");
                    ("interp_fwhm", "interp_fwhm")] ds in
  let ds :=
    match complete, tilt_angle with
    | true, Some t => setattr ds "tilt_angle" t
    | _, _ => ds
    end in
  if py_is (beamline ds) SIXS_2019_literal then
    match assoc (path_to_nxs_data ds) (nxs_files w) with
    | None => (ds, [], Raise FileNotFoundError)
    | Some data =>
        match sixs_columns data df with
        | (df, None) => (ds, [], Ok df)
        | (df, Some AttributeError) => (ds, [MPrint msg_sixs], Ok df)
        | (_, Some e) => (ds, [], Raise e)
        end
    end
  else (ds, [], Ok df).

(** Everything inside [with tb.open_file(...)]: the data set as updated,
    what was printed, and the frame of one row. *)
Definition read_metadata (w : meta_world csv_text) (scan_nb : Z)
           (metadata_file : string) (gwaihir_dataset : option Dataset)
  : option Dataset * list meta_event * result DataFrame :=
  match assoc metadata_file (h5_files w) with
  | None => (gwaihir_dataset, [], Raise FileNotFoundError)
  | Some g =>
      match required_frame scan_nb g with
      | Raise e => (gwaihir_dataset, [], Raise e)
      | Ok df =>
          match optional_columns w g df with
          | Raise e => (gwaihir_dataset, [], Raise e)
          | Ok (df, tilt_angle) =>
              match gwaihir_dataset with
              | None => (None, [], Ok df)
              | Some ds =>
                  let '(ds, out, r) := save_in_dataset w g df tilt_angle ds in
                  (Some ds, out, r)
              end
          end
      end
  end.

(** The block "Save in a csv file".  [pd.read_csv(None)] is a
    [ValueError]; an exception of the reader that the handler does not
    name leaves the function; [df['scan']] is a [KeyError] without that
    column, which the handler does not catch either.  In both branches the
    name [hash_print] is evaluated after [to_csv] has written the file: it
    is bound nowhere, so [NameError] leaves the function (from inside the
    [try] block it is not caught, the handler does not name it). *)
Definition save_in_csv (w : meta_world csv_text) (scan_nb : Z)
           (temp_df : DataFrame) (metadata_csv_file : option string)
  : meta_world csv_text * list meta_event * option exn :=
  let loaded :=
    match metadata_csv_file with
    | None => Raise ValueError
    | Some path =>
        match assoc path (csv_files w) with
        | None => Raise FileNotFoundError
        | Some f => match pd_read_csv w f with
                    | Raise e => Raise e
                    | Ok df => Ok (path, df)
                    end
        end
    end in
  match loaded with
  | Ok (path, df) =>
      if mem "scan" (columns df) then
        let indices := matching_index w df scan_nb in
        let df := drop df indices in
        let result := concat df temp_df in
        (write_csv w path (pd_to_csv w result), [MDisplay (head result)],
         Some NameError)
      else (w, [], Some KeyError)
  | Raise e =>
      if caught e then
        let path := (cwd w ++ "/metadata.csv")%string in
        (write_csv w path (pd_to_csv w temp_df), [MDisplay (head temp_df)],
         Some NameError)
      else (w, [], Some e)
  end.

(** [extract_metadata(scan_nb, metadata_file, gwaihir_dataset,
    metadata_csv_file)]. *)
Definition extract_metadata (w : meta_world csv_text) (scan_nb : Z)
           (metadata_file : string) (gwaihir_dataset : option Dataset)
           (metadata_csv_file : option string)
  : meta_world csv_text * option Dataset * list meta_event * option exn :=
  match read_metadata w scan_nb metadata_file gwaihir_dataset with
  | (ds, out1, Raise e) => (w, ds, out1, Some e)
  | (ds, out1, Ok temp_df) =>
      let '(w', out2, exc) :=
        save_in_csv w scan_nb temp_df metadata_csv_file in
      (w', ds, out1 ++ out2, exc)
  end.


End Log.

(** *** What the claims about the log speak of *)

(** [str(n)], the text of the integer [n] in a file. *)
Definition scan_text (n : Z) : string := NilZero.string_of_int (Z.to_int n).

(** The row is keyed by the scan number [n]: its [scan] cell is the
    integer, the float that equals it, or its text. *)
Definition scan_is (n : Z) (r : row) : bool :=
  match cell_at r "scan" with
  | CInt z => Z.eqb z n
  | CNum q => Qeq_bool q (inject_Z n)
  | CTxt s => String.eqb s (scan_text n)
  | _ => false
  end.

(** A well-formed log, as pandas reads it: the [scan] column is there and
    holds integers of 64 bits, and the row labels are distinct (they are
    [0 .. n-1] when the records are as long as the header). *)
Definition scan_log (df : DataFrame) : Prop :=
  mem "scan" (columns df) = true /\
  NoDup (map fst (rows df)) /\
  Forall (fun p => exists z, cell_at (snd p) "scan" = CInt z /\ int64 z = true)
         (rows df).

(** A frame of one row, labelled 0 and keyed by the scan number [n]. *)
Definition scan_frame (n : Z) (df : DataFrame) : Prop :=
  exists r, rows df = [(0%nat, r)] /\ cell_at r "scan" = CInt n.

(** A row written under the columns [cols]. *)
Definition normalize (cols : list string) (r : row) : row :=
  combine cols (map (cell_at r) cols).

(** ** The config writer: [create_yaml_file] (control_preprocess.py) *)

(** *** Characters and texts *)

Definition chars (s : string) : list ascii := list_ascii_of_string s.
Definition dquote : ascii := ascii_of_nat 34.
Definition squote : ascii := ascii_of_nat 39.
Definition backslash : ascii := ascii_of_nat 92.
Definition newline : ascii := ascii_of_nat 10.

(** [sep.join(l)]. *)
Fixpoint join (sep : list ascii) (l : list (list ascii)) : list ascii :=
  match l with
  | [] => []
  | [x] => x
  | x :: r => x ++ sep ++ join sep r
  end.

(** [s.split(sep)] for a separator of one character. *)
Fixpoint split_on (sep : ascii) (s : list ascii) : list (list ascii) :=
  match s with
  | [] => [[]]
  | c :: r =>
      if Ascii.eqb c sep then [] :: split_on sep r
      else match split_on sep r with
           | [] => [[c]]
           | w :: ws => (c :: w) :: ws
           end
  end.

Fixpoint lstrip (set : list ascii) (s : list ascii) : list ascii :=
  match s with
  | [] => []
  | c :: r => if existsb (Ascii.eqb c) set then lstrip set r else s
  end.

(** [s.strip(set)]: the characters of [set] are removed at both ends. *)
Definition strip (set : list ascii) (s : list ascii) : list ascii :=
  rev (lstrip set (rev (lstrip set s))).

(** [os.path.basename(p)]: what follows the last slash. *)
Definition basename (p : list ascii) : list ascii :=
  last (split_on "/" p) [].

(** *** Python values and how they print *)

(** A float, as [repr] sees it: infinite, not a number, or finite.  A
    finite float is given by its sign and by the shortest decimal digits
    [d1 ... dn] that denote it, with the position of the decimal point:
    its value is [0.d1...dn * 10 ^ decpt].  The first and the last digit
    are not 0, except for zero, which is the digit 0 with [decpt = 1].
    Every finite float has one such form, and two floats with the same
    form are the same float. *)
Inductive pyfloat : Type :=
| FFinite (neg : bool) (digits : string) (decpt : Z)
| FInf (neg : bool)
| FNaN.

(** The values a parameter or an item of a list can be. *)
#[local] Unset Elimination Schemes.
Inductive pyval : Type :=
| PStr (s : string)
| PInt (z : Z)
| PFloat (x : pyfloat)
| PBool (b : bool)
| PNone
| PList (l : list pyval)
| PTuple (l : list pyval).
#[local] Set Elimination Schemes.

(** A parameter of [create_yaml_file]: a value, a numpy array of
    integers, or a numpy array of floats of one axis (an array of floats
    of several axes is printed by numpy's rounding formatter of float
    arrays, which is not embedded). *)
Inductive param : Type :=
| Val (v : pyval)
| Arr (a : ndarray Z)
| ArrF (items : list pyfloat).

(** [str(z)] of an integer. *)
Definition str_int (z : Z) : list ascii :=
  chars (NilZero.string_of_int (Z.to_int z)).

Definition is_digit (c : ascii) : bool :=
  (48 <=? nat_of_ascii c)%nat && (nat_of_ascii c <=? 57)%nat.

(** A finite float in the form described above. *)
Definition finite_float (x : pyfloat) : bool :=
  match x with
  | FFinite _ ds decpt =>
      match chars ds with
      | [] => false
      | c :: r =>
          forallb is_digit (c :: r)
          && (if Ascii.eqb c "0"%char
              then match r with [] => (decpt =? 1)%Z | _ => false end
              else negb (Ascii.eqb (last r c) "0"%char))
      end
  | _ => false
  end.

Definition zeros (n : Z) : list ascii := repeat "0"%char (Z.to_nat n).

(** The exponent of the scientific notation: a sign and two digits at
    least. *)
Definition exponent_text (e : Z) : list ascii :=
  (if (e <? 0)%Z then "-"%char else "+"%char)
    :: (if (Z.abs e <? 10)%Z then ["0"%char] else []) ++ str_int (Z.abs e).

(** [repr(x)] of a float, which is also [str(x)]: positional notation,
    with a digit at least after the point, when the decimal point falls
    within [-4 < decpt <= 16], and scientific notation otherwise. *)
Definition repr_float (x : pyfloat) : list ascii :=
  match x with
  | FNaN => chars "nan"
  | FInf neg => (if neg then ["-"%char] else []) ++ chars "inf"
  | FFinite neg ds decpt =>
      let s := chars ds in
      let n := Z.of_nat (List.length s) in
      (if neg then ["-"%char] else [])
        ++ (if ((-4 <? decpt) && (decpt <=? 16))%Z then
              if (decpt <=? 0)%Z then chars "0." ++ zeros (- decpt) ++ s
              else if (n <=? decpt)%Z
                   then s ++ zeros (decpt - n) ++ chars ".0"
                   else firstn (Z.to_nat decpt) s
                          ++ "."%char :: skipn (Z.to_nat decpt) s
            else
              match s with
              | [] => []
              | c :: r =>
                  c :: match r with
                       | [] => []
                       | _ => "."%char :: r
                       end
                    ++ "e"%char :: exponent_text (decpt - 1)
              end)
  end.

Definition hex_digit (n : nat) : ascii :=
  nth n (chars "0123456789abcdef") "0"%char.

(** One character inside [repr(s)] quoted with [q].  Bytes from 128 on
    stand for encoded printable text and are kept. *)
Definition escape_char (q c : ascii) : list ascii :=
  if Ascii.eqb c backslash then [backslash; backslash]
  else if Ascii.eqb c q then [backslash; q]
  else if Ascii.eqb c (ascii_of_nat 9) then [backslash; "t"%char]
  else if Ascii.eqb c (ascii_of_nat 10) then [backslash; "n"%char]
  else if Ascii.eqb c (ascii_of_nat 13) then [backslash; "r"%char]
  else if (nat_of_ascii c <? 32)%nat || (nat_of_ascii c =? 127)%nat then
    [backslash; "x"%char; hex_digit (nat_of_ascii c / 16);
     hex_digit (nat_of_ascii c mod 16)]
  else [c].

(** The quote [repr] picks: double quotes when the text holds a single
    quote and no double quote, single quotes otherwise. *)
Definition repr_quote (s : list ascii) : ascii :=
  if existsb (Ascii.eqb squote) s && negb (existsb (Ascii.eqb dquote) s)
  then dquote else squote.

(** [repr(s)] of a string. *)
Definition repr_str (s : list ascii) : list ascii :=
  let q := repr_quote s in
  q :: flat_map (escape_char q) s ++ [q].

(** [repr(v)]. *)
Fixpoint py_repr (v : pyval) : list ascii :=
  match v with
  | PStr s => repr_str (chars s)
  | PInt z => str_int z
  | PFloat x => repr_float x
  | PBool true => chars "True"
  | PBool false => chars "False"
  | PNone => chars "None"
  | PList l => "["%char :: join (chars ", ") (map py_repr l) ++ ["]"%char]
  | PTuple l =>
      match l with
      | [x] => "("%char :: py_repr x ++ chars ",)"
      | _ => "("%char :: join (chars ", ") (map py_repr l) ++ [")"%char]
      end
  end.

(** [str(v)], which is what [f"{v}"] inserts. *)
Definition py_str (v : pyval) : list ascii :=
  match v with
  | PStr s => chars s
  | _ => py_repr v
  end.

(** *** numpy arrays and how they print *)

(** All items of an array in C order. *)
Fixpoint array_items (sh : list nat) (get : list nat -> Z) : list Z :=
  match sh with
  | [] => [get []]
  | n :: rest =>
      flat_map (fun i => array_items rest (fun idx => get (i :: idx)))
               (seq 0 n)
  end.

Definition pad_left (w : nat) (s : list ascii) : list ascii :=
  repeat " "%char (w - List.length s) ++ s.

(** The bracketed text of an array whose items are printed on [w]
    columns; a line of an outer axis starts under the first item of the
    line above.  (numpy also wraps lines over 75 columns and abridges
    arrays over 1000 items; neither is modelled.) *)
Fixpoint format_array (w : nat) (sh : list nat) (indent : nat)
         (get : list nat -> Z) : list ascii :=
  match sh with
  | [] => pad_left w (str_int (get []))
  | n :: rest =>
      let sep :=
        match rest with
        | [] => chars ", "
        | _ => ","%char :: repeat newline (List.length rest)
                 ++ repeat " "%char (indent + 1)
        end in
      "["%char
        :: join sep (map (fun i => format_array w rest (indent + 1)
                                     (fun idx => get (i :: idx)))
                         (seq 0 n))
        ++ ["]"%char]
  end.

(** [repr(a)] of an integer array of one axis or more. *)
Definition array_repr (a : ndarray Z) : list ascii :=
  match array_items (shape a) (item a) with
  | [] =>
      chars "array([], "
        ++ match shape a with
           | [_] => []
           | sh => chars "shape=("
                     ++ join (chars ", ")
                             (map (fun n => str_int (Z.of_nat n)) sh)
                     ++ chars "), "
           end
        ++ chars "dtype=int64)"
  | items =>
      let w := fold_right Nat.max 0%nat
                 (map (fun z => List.length (str_int z)) items) in
      chars "array(" ++ format_array w (shape a) 6 (item a) ++ chars ")"
  end.

(** The texts of the items of [list(a)]: the integers of an array of one
    axis (numpy scalars print like Python integers and floats, as numpy 1
    does), the sub-arrays of an array of more; a 0-d array cannot be
    iterated. *)
Definition list_of_array (a : ndarray Z) : result (list (list ascii)) :=
  match shape a with
  | [] => Raise TypeError
  | [n] => Ok (map (fun i => str_int (item a [i])) (seq 0 n))
  | n :: rest =>
      Ok (map (fun i => array_repr (mk_ndarray rest
                                      (fun idx => item a (i :: idx))))
              (seq 0 n))
  end.

(** *** The lines of the file *)

(** The line appended to [config_file] for the parameter [k = v]. *)
Definition config_line (k : string) (v : param) : result (list ascii) :=
  match v with
  | Val (PStr s) => Ok (chars k ++ chars ": " ++ dquote :: chars s ++ [dquote])
  | Val (PTuple l) =>
      match l with
      | [] => Ok (chars k ++ chars ": None")
      | _ => Ok (chars k ++ chars ": " ++ py_str (PList l))
      end
  | Arr a =>
      match list_of_array a with
      | Raise e => Raise e
      | Ok items =>
          Ok (chars k ++ chars ": "
                ++ "["%char :: join (chars ", ") items ++ ["]"%char])
      end
  | ArrF items =>
      Ok (chars k ++ chars ": "
            ++ "["%char :: join (chars ", ") (map repr_float items)
            ++ ["]"%char])
  | Val (PList l) =>
      match l with
      | [] => Ok (chars k ++ chars ": None")
      | _ => Ok (chars k ++ chars ": " ++ py_str (PList l))
      end
  | Val v => Ok (chars k ++ chars ": " ++ py_str v)
  end.

(** [config_file] after the loop over [kwargs.items()]. *)
Fixpoint config_lines (kwargs : list (string * param))
  : result (list (list ascii)) :=
  match kwargs with
  | [] => Ok []
  | (k, v) :: r =>
      match config_line k v with
      | Raise e => Raise e
      | Ok line =>
          match config_lines r with
          | Raise e => Raise e
          | Ok lines => Ok (line :: lines)
          end
      end
  end.

(** What [v.write(line + "\n")] leaves in the file. *)
Definition file_text (lines : list (list ascii)) : list ascii :=
  flat_map (fun line => line ++ [newline]) lines.

(** *** The file system under [os.mkdir], [os.path.isdir] and [open] *)

Inductive fs_node : Type :=
| FsDir
| FsFile (content : list ascii).

(** A resolved path: the names from the root down. *)
Definition fs_path : Type := list string.

Fixpoint path_eqb (a b : fs_path) : bool :=
  match a, b with
  | [], [] => true
  | x :: a', y :: b' => String.eqb x y && path_eqb a' b'
  | _, _ => false
  end.

(** The nodes (latest entry first), the working directory, and the
    directories and files the process may not write.  There are no links. *)
Record filesystem : Type := mk_fs {
  fs_nodes : list (fs_path * fs_node);
  fs_cwd : fs_path;
  fs_read_only : list fs_path
}.

Fixpoint find_node (p : fs_path) (l : list (fs_path * fs_node))
  : option fs_node :=
  match l with
  | [] => None
  | (q, n) :: r => if path_eqb p q then Some n else find_node p r
  end.

(** The root always exists. *)
Definition fs_lookup (fs : filesystem) (p : fs_path) : option fs_node :=
  match p with
  | [] => Some FsDir
  | _ => find_node p (fs_nodes fs)
  end.

Definition fs_add (fs : filesystem) (p : fs_path) (n : fs_node) : filesystem :=
  mk_fs ((p, n) :: fs_nodes fs) (fs_cwd fs) (fs_read_only fs).

Definition is_empty (s : list ascii) : bool :=
  match s with
  | [] => true
  | _ => false
  end.

(** The names of a path: empty names (doubled or trailing slashes) do not
    count. *)
Definition components (p : list ascii) : list string :=
  map string_of_list_ascii
      (filter (fun c => negb (is_empty c)) (split_on "/" p)).

Definition start_of (fs : filesystem) (p : list ascii) : fs_path :=
  match p with
  | "/"%char :: _ => []
  | _ => fs_cwd fs
  end.

(** Walk down the directories [names] from [cur]. *)
Fixpoint walk (fs : filesystem) (cur : fs_path) (names : list string)
  : result fs_path :=
  match names with
  | [] => Ok cur
  | c :: r =>
      if String.eqb c "." then walk fs cur r
      else if String.eqb c ".." then walk fs (removelast cur) r
      else match fs_lookup fs (cur ++ [c]) with
           | Some FsDir => walk fs (cur ++ [c]) r
           | Some (FsFile _) => Raise NotADirectoryError
           | None => Raise FileNotFoundError
           end
  end.

(** [os.path.isdir(p)]. *)
Definition os_path_isdir (fs : filesystem) (p : list ascii) : bool :=
  match p with
  | [] => false
  | _ => match walk fs (start_of fs p) (components p) with
         | Ok _ => true
         | Raise _ => false
         end
  end.

Definition is_dot (c : string) : bool :=
  String.eqb c "." || String.eqb c "..".

(** [os.mkdir(p)]. *)
Definition os_mkdir (fs : filesystem) (p : list ascii) : result filesystem :=
  match p with
  | [] => Raise FileNotFoundError
  | _ =>
      match rev (components p) with
      | [] => Raise FileExistsError
      | name :: dirs =>
          match walk fs (start_of fs p) (rev dirs) with
          | Raise e => Raise e
          | Ok parent =>
              if is_dot name then Raise FileExistsError
              else match fs_lookup fs (parent ++ [name]) with
                   | Some _ => Raise FileExistsError
                   | None =>
                       if existsb (path_eqb parent) (fs_read_only fs)
                       then Raise PermissionError
                       else Ok (fs_add fs (parent ++ [name]) FsDir)
                   end
          end
      end
  end.

(** [with open(p, "w") as v: v.write(...)] with the whole text. *)
Definition open_write (fs : filesystem) (p : list ascii) (content : list ascii)
  : result filesystem :=
  match p with
  | [] => Raise FileNotFoundError
  | _ =>
      match rev (components p) with
      | [] => Raise IsADirectoryError
      | name :: dirs =>
          match walk fs (start_of fs p) (rev dirs) with
          | Raise e => Raise e
          | Ok parent =>
              if is_dot name || Ascii.eqb (last p " "%char) "/"%char
              then Raise IsADirectoryError
              else match fs_lookup fs (parent ++ [name]) with
                   | Some FsDir => Raise IsADirectoryError
                   | Some (FsFile _) =>
                       if existsb (path_eqb (parent ++ [name]))
                                  (fs_read_only fs)
                       then Raise PermissionError
                       else Ok (fs_add fs (parent ++ [name]) (FsFile content))
                   | None =>
                       if existsb (path_eqb parent) (fs_read_only fs)
                       then Raise PermissionError
                       else Ok (fs_add fs (parent ++ [name]) (FsFile content))
                   end
          end
      end
  end.

(** *** [create_yaml_file] *)

(** The loop [for d in directory.split("/")]: [FileExistsError] and
    [PermissionError] are passed over, any other exception leaves. *)
Fixpoint mkdir_loop (fs : filesystem) (full_path : list ascii)
         (ds : list (list ascii)) : filesystem * option exn :=
  match ds with
  | [] => (fs, None)
  | d :: r =>
      let full_path := full_path ++ d ++ ["/"%char] in
      match os_mkdir fs full_path with
      | Ok fs' => mkdir_loop fs' full_path r
      | Raise FileExistsError => mkdir_loop fs full_path r
      | Raise PermissionError => mkdir_loop fs full_path r
      | Raise e => (fs, Some e)
      end
  end.

(** The block "Create directory". *)
Definition make_directories (fs : filesystem) (directory : list ascii)
  : filesystem * option exn :=
  if os_path_isdir fs directory then (fs, None)
  else mkdir_loop fs [] (split_on "/" directory).

(** [file = os.path.basename(fname); directory = fname.strip(file)]. *)
Definition directory_of (fname : string) : list ascii :=
  strip (basename (chars fname)) (chars fname).

(** [create_yaml_file(fname, **kwargs)]: the file system afterwards and
    the outcome.  For a wrong suffix the statement [raise FileError(...)]
    first evaluates the name [FileError], which is bound nowhere: it is
    [NameError] that leaves the function. *)
Definition create_yaml_file (fs : filesystem) (fname : string)
           (kwargs : list (string * param)) : filesystem * result unit :=
  match config_lines kwargs with
  | Raise e => (fs, Raise e)
  | Ok config_file =>
      match make_directories fs (directory_of fname) with
      | (fs1, Some e) => (fs1, Raise e)
      | (fs1, None) =>
          if endswith fname ".yaml" || endswith fname ".yml" then
            match open_write fs1 (chars fname) (file_text config_file) with
            | Ok fs2 => (fs2, Ok tt)
            | Raise e => (fs1, Raise e)
            end
          else (fs1, Raise NameError)
      end
  end.

(** The regular file at a resolved path, if there is one. *)
Definition file_at (fs : filesystem) (p : fs_path) : option (list ascii) :=
  match fs_lookup fs p with
  | Some (FsFile c) => Some c
  | _ => None
  end.

(** *** Reading a line back *)

(** Modelled from the spec: the parser of the config file is an external
    collaborator and is absent from src.  Section 6 of the specification
    describes the values of the file as Python-literal-like tokens
    (quoted strings, bracketed lists, bare tokens for numbers and
    booleans, the word None), and the preprocessing code reads such
    texts with [literal_eval]; the reader below reads these tokens the
    way Python reads literals: strings in single or double quotes with
    the escapes [repr] writes, integers, floats in positional or
    scientific notation, [True], [False], [None], lists and tuples. *)

(** The longest run of digits at the head, and what follows it. *)
Fixpoint span_digits (s : list ascii) : list ascii * list ascii :=
  match s with
  | [] => ([], [])
  | c :: r =>
      if is_digit c
      then let '(ds, rest) := span_digits r in (c :: ds, rest)
      else ([], s)
  end.

Definition read_uint (s : list ascii) : option (Decimal.uint * list ascii) :=
  match span_digits s with
  | ([], _) => None
  | (ds, rest) =>
      match NilEmpty.uint_of_string (string_of_list_ascii ds) with
      | Some u => Some (u, rest)
      | None => None
      end
  end.

(** An integer: digits, with a minus sign before them or not. *)
Definition read_int (s : list ascii) : option (Z * list ascii) :=
  match s with
  | c :: r =>
      if Ascii.eqb c "-"%char then
        match read_uint r with
        | Some (u, rest) => Some (Z.of_int (Decimal.Neg u), rest)
        | None => None
        end
      else
        match read_uint s with
        | Some (u, rest) => Some (Z.of_int (Decimal.Pos u), rest)
        | None => None
        end
  | [] => None
  end.

(** The exponent of a float: [e] or [E], a sign or none, digits. *)
Definition read_exponent (s : list ascii) : option (Z * list ascii) :=
  match s with
  | c :: r =>
      if Ascii.eqb c "e"%char || Ascii.eqb c "E"%char then
        let '(neg, r1) :=
          match r with
          | sg :: r' =>
              if Ascii.eqb sg "-"%char then (true, r')
              else if Ascii.eqb sg "+"%char then (false, r')
              else (false, r)
          | [] => (false, r)
          end in
        match read_uint r1 with
        | Some (u, rest) =>
            Some (if neg then (- Z.of_uint u)%Z else Z.of_uint u, rest)
        | None => None
        end
      else None
  | [] => None
  end.

(** The float denoted by the digits [ip] before the point, the digits
    [fp] after it and the exponent [e]: the zeros at both ends of the
    digits are dropped, and the point is moved for those at the left. *)
Definition make_float (neg : bool) (ip fp : list ascii) (e : Z) : pyfloat :=
  let d1 := lstrip ["0"%char] (ip ++ fp) in
  let d2 := rev (lstrip ["0"%char] (rev d1)) in
  match d2 with
  | [] => FFinite neg "0" 1
  | _ =>
      FFinite neg (string_of_list_ascii d2)
              (Z.of_nat (List.length ip) + e
               - Z.of_nat (List.length (ip ++ fp) - List.length d1))
  end.

(** The digits of a float after its sign: digits with a point among or
    after them, an exponent, or both. *)
Definition read_mantissa (neg : bool) (s : list ascii)
  : option (pyfloat * list ascii) :=
  match span_digits s with
  | ([], _) => None
  | (ip, r1) =>
      match r1 with
      | c :: r =>
          if Ascii.eqb c "."%char then
            let '(fp, r2) := span_digits r in
            match read_exponent r2 with
            | Some (e, r3) => Some (make_float neg ip fp e, r3)
            | None => Some (make_float neg ip fp 0, r2)
            end
          else
            match read_exponent r1 with
            | Some (e, r3) => Some (make_float neg ip [] e, r3)
            | None => None
            end
      | [] => None
      end
  end.

(** A float, with a minus sign before it or not. *)
Definition read_float (s : list ascii) : option (pyfloat * list ascii) :=
  match s with
  | c :: r =>
      if Ascii.eqb c "-"%char then read_mantissa true r
      else read_mantissa false s
  | [] => None
  end.

Definition hex_value (c : ascii) : option nat :=
  let n := nat_of_ascii c in
  if (48 <=? n)%nat && (n <=? 57)%nat then Some (n - 48)%nat
  else if (97 <=? n)%nat && (n <=? 102)%nat then Some (n - 87)%nat
  else if (65 <=? n)%nat && (n <=? 70)%nat then Some (n - 55)%nat
  else None.

(** The text of a string up to its closing quote [q], escapes decoded.
    A backslash before a character that starts no escape stays, as in
    Python; a line break ends the line and so cannot be inside. *)
Fixpoint read_string (q : ascii) (s : list ascii)
  : option (list ascii * list ascii) :=
  let more (c : ascii) (r : option (list ascii * list ascii)) :=
    match r with
    | Some (t, rest) => Some (c :: t, rest)
    | None => None
    end in
  match s with
  | [] => None
  | c :: r =>
      if Ascii.eqb c q then Some ([], r)
      else if Ascii.eqb c backslash then
        match r with
        | [] => None
        | e :: r' =>
            if Ascii.eqb e backslash || Ascii.eqb e squote
               || Ascii.eqb e dquote
            then more e (read_string q r')
            else if Ascii.eqb e "n"%char
            then more (ascii_of_nat 10) (read_string q r')
            else if Ascii.eqb e "t"%char
            then more (ascii_of_nat 9) (read_string q r')
            else if Ascii.eqb e "r"%char
            then more (ascii_of_nat 13) (read_string q r')
            else if Ascii.eqb e "x"%char then
              match r' with
              | h1 :: h2 :: r'' =>
                  match hex_value h1, hex_value h2 with
                  | Some a, Some b =>
                      more (ascii_of_nat (16 * a + b)) (read_string q r'')
                  | _, _ => None
                  end
              | _ => None
              end
            else more backslash (read_string q r)
        end
      else if Ascii.eqb c (ascii_of_nat 10) || Ascii.eqb c (ascii_of_nat 13)
      then None
      else more c (read_string q r)
  end.

(** The items of a list or tuple up to its closing bracket, read with
    [rv]; the flag tells whether a comma came right before the bracket. *)
Fixpoint read_items (rv : list ascii -> option (pyval * list ascii))
         (n : nat) (close : ascii) (s : list ascii)
  : option (list pyval * bool * list ascii) :=
  match n with
  | O => None
  | S n' =>
      match rv s with
      | None => None
      | Some (v, r) =>
          match r with
          | [] => None
          | c :: r1 =>
              if Ascii.eqb c close then Some ([v], false, r1)
              else if Ascii.eqb c ","%char then
                match lstrip [" "%char] r1 with
                | [] => None
                | c2 :: r2 =>
                    if Ascii.eqb c2 close then Some ([v], true, r2)
                    else match read_items rv n' close (c2 :: r2) with
                         | Some (l, t, rest) => Some (v :: l, t, rest)
                         | None => None
                         end
                end
              else None
          end
      end
  end.

(** One value at the head of [s] and what follows it; [fuel] bounds the
    nesting and the number of items. *)
Fixpoint read_value (fuel : nat) (s : list ascii)
  : option (pyval * list ascii) :=
  match fuel with
  | O => None
  | S f =>
      match s with
      | [] => None
      | c :: r =>
          if Ascii.eqb c "["%char then
            if prefixb ["]"%char] r then Some (PList [], tl r)
            else match read_items (read_value f) f "]"%char r with
                 | Some (l, _, rest) => Some (PList l, rest)
                 | None => None
                 end
          else if Ascii.eqb c "("%char then
            if prefixb [")"%char] r then Some (PTuple [], tl r)
            else match read_items (read_value f) f ")"%char r with
                 | Some ([v], false, rest) => Some (v, rest)
                 | Some (l, _, rest) => Some (PTuple l, rest)
                 | None => None
                 end
          else if Ascii.eqb c squote || Ascii.eqb c dquote then
            match read_string c r with
            | Some (t, rest) => Some (PStr (string_of_list_ascii t), rest)
            | None => None
            end
          else if prefixb (chars "True") s then
            Some (PBool true, skipn 4 s)
          else if prefixb (chars "False") s then
            Some (PBool false, skipn 5 s)
          else if prefixb (chars "None") s then
            Some (PNone, skipn 4 s)
          else match read_float s with
               | Some (x, rest) => Some (PFloat x, rest)
               | None =>
                   match read_int s with
                   | Some (z, rest) => Some (PInt z, rest)
                   | None => None
                   end
               end
      end
  end.

(** The key before the first colon, and what follows the colon. *)
Fixpoint break_colon (s : list ascii) : option (list ascii * list ascii) :=
  match s with
  | [] => None
  | c :: r =>
      if Ascii.eqb c ":"%char then Some ([], r)
      else match break_colon r with
           | Some (k, rest) => Some (c :: k, rest)
           | None => None
           end
  end.

(** A line [key: value] read back: the key and the value, when the value
    is one token that fills the rest of the line. *)
Definition read_entry (line : list ascii) : option (string * pyval) :=
  match break_colon line with
  | Some (k, " "%char :: rest) =>
      match read_value (List.length line) rest with
      | Some (v, []) => Some (string_of_list_ascii k, v)
      | _ => None
      end
  | _ => None
  end.

(** The value a line is expected to give back: a tuple comes back as the
    list of its items, an array as the list of its items. *)
Definition read_back (v : param) : pyval :=
  match v with
  | Val (PTuple l) => PList l
  | Val v => v
  | Arr a => PList (map PInt (array_items (shape a) (item a)))
  | ArrF items => PList (map PFloat items)
  end.

(** Whether the character may stand unescaped between double quotes. *)
Definition line_safe (c : ascii) : bool :=
  negb (Ascii.eqb c dquote || Ascii.eqb c backslash
        || Ascii.eqb c (ascii_of_nat 10) || Ascii.eqb c (ascii_of_nat 13)).

(** The parameter values of the claim: a string, a non-empty list, a
    non-empty tuple, a numeric array, a scalar. *)
Definition supported (v : param) : Prop :=
  match v with
  | Val (PList l) | Val (PTuple l) => l <> []
  | Val _ => True
  | Arr a => shape a <> []
  | ArrF _ => True
  end.

(** Every float in the value is finite. *)
Fixpoint finite_floats (v : pyval) : bool :=
  match v with
  | PFloat x => finite_float x
  | PList l | PTuple l => forallb finite_floats l
  | _ => true
  end.

(** The values that are read back as they were written: among the
    supported ones, the strings without double quote, backslash and line
    break, the arrays of one axis, and the floats, lists, tuples and
    arrays whose floats are all finite. *)
Definition round_trips (v : param) : Prop :=
  match v with
  | Val (PStr s) => forallb line_safe (chars s) = true
  | Val (PList l) | Val (PTuple l) =>
      l <> [] /\ forallb finite_floats l = true
  | Val (PFloat x) => finite_float x = true
  | Val _ => True
  | Arr a => exists n, shape a = [n]
  | ArrF items => forallb finite_float items = true
  end.

(** The head of what follows a number is not a digit. *)
Definition no_digit_head (rest : list ascii) : Prop :=
  match rest with
  | [] => True
  | c :: _ => is_digit c = false
  end.

(** What follows a number, in a line that was written: the end, or a
    character that cannot go on with the number. *)
Definition number_end (rest : list ascii) : Prop :=
  match rest with
  | [] => True
  | c :: _ =>
      is_digit c = false /\ Ascii.eqb c "."%char = false /\
      Ascii.eqb c "e"%char = false /\ Ascii.eqb c "E"%char = false
  end.

(** The characters a written value can start with. *)
Definition head_ok (c : ascii) : bool :=
  Ascii.eqb c "["%char || Ascii.eqb c "("%char || Ascii.eqb c squote
  || Ascii.eqb c dquote || Ascii.eqb c "T"%char || Ascii.eqb c "F"%char
  || Ascii.eqb c "N"%char || Ascii.eqb c "-"%char || is_digit c.

(** The number of constructors of a value. *)
Fixpoint size (v : pyval) : nat :=
  match v with
  | PList l | PTuple l => S (fold_right (fun x n => size x + n)%nat 0%nat l)
  | _ => 1%nat
  end.

(** *** What the claims about the writer speak of *)

(** The type-directed formats of a line, as the specification words them
    (with the array case as the code has it): a string between double
    quotes; a non-empty list as a bracketed list of the [repr] of its
    items, an empty one as [None]; a tuple as the list of its items; an
    array of one axis as the bracketed list of its items, an array of
    more axes as the bracketed list of the [repr] of its sub-arrays; any
    other value as its [str]. *)
Inductive formatted (k : string) : param -> list ascii -> Prop :=
| fmt_str (s : string) :
    formatted k (Val (PStr s))
              (chars k ++ chars ": " ++ dquote :: chars s ++ [dquote])
| fmt_list (l : list pyval) :
    l <> [] ->
    formatted k (Val (PList l))
              (chars k ++ chars ": "
                 ++ "["%char :: join (chars ", ") (map py_repr l) ++ ["]"%char])
| fmt_list_empty :
    formatted k (Val (PList [])) (chars k ++ chars ": None")
| fmt_tuple (l : list pyval) (line : list ascii) :
    formatted k (Val (PList l)) line ->
    formatted k (Val (PTuple l)) line
| fmt_array_1d (a : ndarray Z) (n : nat) :
    shape a = [n] ->
    formatted k (Arr a)
              (chars k ++ chars ": "
                 ++ "["%char
                 :: join (chars ", ")
                         (map str_int (array_items (shape a) (item a)))
                 ++ ["]"%char])
| fmt_array_nd (a : ndarray Z) (n m : nat) (rest : list nat) :
    shape a = n :: m :: rest ->
    formatted k (Arr a)
              (chars k ++ chars ": "
                 ++ "["%char
                 :: join (chars ", ")
                         (map (fun i => array_repr
                                          (mk_ndarray (m :: rest)
                                             (fun idx => item a (i :: idx))))
                              (seq 0 n))
                 ++ ["]"%char])
| fmt_array_float (items : list pyfloat) :
    formatted k (ArrF items)
              (chars k ++ chars ": "
                 ++ "["%char :: join (chars ", ") (map repr_float items)
                 ++ ["]"%char])
| fmt_int (z : Z) :
    formatted k (Val (PInt z)) (chars k ++ chars ": " ++ str_int z)
| fmt_float (x : pyfloat) :
    formatted k (Val (PFloat x)) (chars k ++ chars ": " ++ repr_float x)
| fmt_bool (b : bool) :
    formatted k (Val (PBool b))
              (chars k ++ chars ": " ++ chars (if b then "True" else "False"))
| fmt_none :
    formatted k (Val PNone) (chars k ++ chars ": None").


(** ** Concrete inputs for the config writer *)

(** The array [[[1, 2], [3, 4]]]. *)
Definition example_2d : ndarray Z :=
  mk_ndarray [2; 2]%nat
    (fun idx => match idx with
                | [i; j] => Z.of_nat (2 * i + j + 1)
                | _ => 0%Z
                end).

(** The array [[5, 6, 7]]. *)
Definition example_1d : ndarray Z :=
  mk_ndarray [3]%nat
    (fun idx => match idx with
                | [i] => Z.of_nat (i + 5)
                | _ => 0%Z
                end).

(** A working directory [/home] that holds the regular file [a]. *)
Definition example_fs : filesystem :=
  mk_fs [(["home"], FsDir); (["home"; "a"], FsFile (chars "text"))]
        ["home"] [].

(** ** Concrete inputs for the loader *)

(** An integer array of the given shape whose item at an index is the
    index read as a decimal numeral, e.g. 123 at [[1, 2, 3]]. *)
Definition index_array (sh : list nat) : ndarray Z :=
  mk_ndarray sh (fun idx => fold_left (fun acc i => acc * 10 + Z.of_nat i)%Z idx 0%Z).

(** No file can be read; rendering never raises. *)
Definition env_missing_files : loader_env Z :=
  mk_loader_env (fun _ => Raise FileNotFoundError)
                (fun _ => Raise FileNotFoundError)
                (fun _ => Raise FileNotFoundError)
                (fun _ => None).

(** The HDF5 dataset path holds [a] in every file. *)
Definition env_h5 (a : ndarray Z) : loader_env Z :=
  mk_loader_env (fun _ => Raise FileNotFoundError)
                (fun _ => Raise FileNotFoundError)
                (fun _ => Ok a)
                (fun _ => None).

Definition fresh_plotter (fname : string) : Plotter Z :=
  mk_Plotter fname PlotFalse false None.

(** ** Concrete inputs for the metadata log *)

(** The output group of a result file; [k] varies the values. *)
Definition example_group (k : Q) : h5group :=
  [("q", HArray [k; 2 * k; 3 * k]); ("qnorm", HScalar (4 * k));
   ("dist_plane", HScalar (5 * k)); ("bragg_inplane", HScalar (6 * k));
   ("bragg_outofplane", HScalar (7 * k)); ("bragg_peak", HArray [10; 20; 30])].

(** What the beamline reader returns for a complete scan of three steps. *)
Definition example_nxs : nxs_data :=
  [("x", [1]); ("y", [2]); ("z", [3]); ("mu", [10; 11; 12]); ("delta", [4]);
   ("omega", [5]); ("gamma", [6]); ("integration_time", [1; 1; 1])].

(** The same without the [x] motor. *)
Definition example_nxs_no_x : nxs_data := tl example_nxs.

(** *** Stand-ins for pandas and numpy on the examples *)

(** On the examples a CSV text is kept as the table it spells out: no
    header line at all, or the header and the records, each record giving
    a field to the names of the header.  A cell stands for the field that
    [to_csv] writes for it: the digits of an integer, the literal of a
    float, the text of an array, nothing for [CNaN]. *)
Inductive csv_file : Type :=
| CsvEmpty
| CsvTable (header : list string) (records : list row).

(** The writer: the columns, and row by row the cells under them. *)
Definition to_table (df : DataFrame) : csv_file :=
  CsvTable (columns df)
           (map (fun p => normalize (columns df) (snd p)) (rows df)).

(** The integers that pandas reads as integers (of 64 bits, signed or
    not); a column that holds an integer beyond them is read as text. *)
Definition readable_int (z : Z) : bool :=
  ((- 2 ^ 63 <=? z) && (z <? 2 ^ 64))%Z.

Definition text_column (c : string) (records : list row) : bool :=
  existsb (fun r => match cell_at r c with
                    | CInt z => negb (readable_int z)
                    | _ => false
                    end) records.

Definition read_field (records : list row) (r : row) (c : string) : cell :=
  match cell_at r c with
  | CInt z => if text_column c records then CTxt (scan_text z) else CInt z
  | x => x
  end.

(** The reader, for tables whose columns hold integers only, floats only
    or texts only: an empty file is an [EmptyDataError] (a [ValueError]);
    the rows are labelled [0 .. n-1]. *)
Definition read_table (f : csv_file) : result DataFrame :=
  match f with
  | CsvEmpty => Raise ValueError
  | CsvTable header records =>
      Ok (mk_df header
                (combine (seq 0 (List.length records))
                         (map (fun r => combine header
                                          (map (read_field records r) header))
                              records)))
  end.

(** Comparison with an integer: numbers by their value; a text equals no
    integer. *)
Definition example_eq (c : cell) (n : Z) : bool :=
  match c with
  | CInt z => Z.eqb z n
  | CNum q => Qeq_bool q (inject_Z n)
  | _ => false
  end.

(** The mean, and rounding to [k] decimals (ties to even), on the
    rationals. *)
Definition example_mean (l : list Q) : Q :=
  fold_left Qplus l 0 / inject_Z (Z.of_nat (List.length l)).

Definition example_round (x : Q) (k : Z) : Q :=
  let scale := inject_Z (10 ^ k) in
  let f := Qfloor (x * scale) in
  let frac := x * scale - inject_Z f in
  let up :=
    if Qltb frac (1 # 2) then false
    else if Qltb (1 # 2) frac then true
    else Z.odd f in
  inject_Z (if up then f + 1 else f) / scale.

(** The frame read, or an empty one. *)
Definition frame_of (r : result DataFrame) : DataFrame :=
  match r with
  | Ok df => df
  | Raise _ => mk_df [] []
  end.

(** *** Files *)

Definition example_log : csv_file :=
  CsvTable ["scan"; "qx"; "qy"; "qz"; "q_norm"; "d_hkl"; "inplane_angle";
            "out_of_plane_angle"; "bragg_peak"]
           [[("scan", CInt 11); ("qx", CNum 0); ("qy", CNum 0); ("qz", CNum 0);
             ("q_norm", CNum 0); ("d_hkl", CNum 0); ("inplane_angle", CNum 0);
             ("out_of_plane_angle", CNum 0); ("bragg_peak", CTxt "[1 2 3]")];
            [("scan", CInt 12); ("qx", CNum 9); ("qy", CNum 9); ("qz", CNum 9);
             ("q_norm", CNum 9); ("d_hkl", CNum 9); ("inplane_angle", CNum 9);
             ("out_of_plane_angle", CNum 9); ("bragg_peak", CTxt "[4 5 6]")]].

Definition example_world : meta_world csv_file :=
  mk_world [("first.h5", example_group 1); ("second.h5", example_group 2)]
           [("scan.nxs", example_nxs); ("partial.nxs", example_nxs_no_x)]
           [("log.csv", example_log)]
           "/home/user"
           read_table to_table example_eq example_mean example_round.

(** The rows the two result files give for scan 12. *)
Definition example_frame (k : Q) : DataFrame :=
  mk_df ["scan"; "qx"; "qy"; "qz"; "q_norm"; "d_hkl"; "inplane_angle";
         "out_of_plane_angle"; "bragg_peak"]
        [(0%nat,
          [("scan", CInt 12); ("qx", CNum k); ("qy", CNum (2 * k));
           ("qz", CNum (3 * k)); ("q_norm", CNum (4 * k));
           ("d_hkl", CNum (5 * k)); ("inplane_angle", CNum (6 * k));
           ("out_of_plane_angle", CNum (7 * k));
           ("bragg_peak", CArr [10; 20; 30])])].

(** A data set whose beamline is the interned constant itself, and one
    whose beamline is another string object with the same text (as read
    from a file or built at run time). *)
Definition dataset_interned : Dataset :=
  mk_Dataset SIXS_2019_literal "scan.nxs" [].
Definition dataset_equal_text : Dataset :=
  mk_Dataset (mk_pystr 7 "SIXS_2019") "scan.nxs" [].
Definition dataset_partial : Dataset :=
  mk_Dataset SIXS_2019_literal "partial.nxs" [].

(** ** Further concrete inputs *)

(** The output group of a result file written with the angle correction:
    the required nodes and the seven optional ones. *)
Definition example_group_full : h5group :=
  example_group 1
    ++ [("tilt_values", HArray [0; 1 # 2; 1]); ("rocking_curve", HArray [1; 4; 1]);
        ("interp_tilt", HArray [0; 1]); ("interp_curve", HArray [1; 1]);
        ("detector_data_COM", HArray [3; 4]);
        ("COM_rocking_curve", HScalar (1 # 2)); ("interp_fwhm", HScalar (1 # 4))].

(** ** Relative paths of plain names *)

(** The text [d1/d2/.../dn/file]. *)
Definition relative_path (dirs : list string) (file : string) : string :=
  fold_right (fun d r => (d ++ "/" ++ r)%string) file dirs.

(** A plain name of a directory entry: not empty, without slash, and
    neither [.] nor [..]. *)
Definition plain_name (s : string) : bool :=
  negb (is_empty (chars s))
  && negb (existsb (fun c => Ascii.eqb c "/"%char) (chars s))
  && negb (is_dot s).

(** The first character of the path does not occur in the file name (so
    [strip] leaves the left end of the path alone). *)
Definition first_char_kept (dirs : list string) (file : string) : bool :=
  match dirs with
  | [] => true
  | d :: _ =>
      match chars d with
      | [] => true
      | c :: _ => negb (existsb (Ascii.eqb c) (chars file))
      end
  end.

(** The text [d1/d2/.../dn/] of the directories. *)
Definition directory_text (dirs : list string) : list ascii :=
  flat_map (fun d => chars d ++ ["/"%char]) dirs.

(** ** The plotting functions of plot.py: [plot_2d_image],
    [plot_3d_slices] and the 3-D branch of [plot_data] *)

(** *** Basic indexing *)

(** One subscript of [a[...]]: an integer that is not negative, or the
    full slice [:]. *)
Inductive subscript : Type :=
| At (i : nat)
| All.

(** The shape of [a[subs]]: an integer removes its axis, a slice keeps
    it, and the axes without subscript are kept whole.  [IndexError] for
    an integer out of range and for more subscripts than axes. *)
Fixpoint subscript_shape (sh : list nat) (subs : list subscript)
  : result (list nat) :=
  match subs, sh with
  | [], _ => Ok sh
  | _ :: _, [] => Raise IndexError
  | At i :: r, n :: sh' =>
      if (i <? n)%nat then subscript_shape sh' r else Raise IndexError
  | All :: r, n :: sh' =>
      match subscript_shape sh' r with
      | Ok s => Ok (n :: s)
      | Raise e => Raise e
      end
  end.

(** The index in [a] of the item of [a[subs]] at [idx]. *)
Fixpoint subscript_index (subs : list subscript) (idx : list nat) : list nat :=
  match subs with
  | [] => idx
  | At i :: r => i :: subscript_index r idx
  | All :: r =>
      match idx with
      | [] => []
      | j :: idx' => j :: subscript_index r idx'
      end
  end.

Definition getitem {A} (a : ndarray A) (subs : list subscript)
  : result (ndarray A) :=
  match subscript_shape (shape a) subs with
  | Ok sh => Ok (mk_ndarray sh (fun idx => item a (subscript_index subs idx)))
  | Raise e => Raise e
  end.

(** [shape[k] // 2]. *)
Definition middle (sh : list nat) (k : nat) : result nat :=
  match nth_error sh k with
  | Some n => Ok (n / 2)%nat
  | None => Raise IndexError
  end.

(** The options of the two widgets of [plot_data]. *)
Inductive axplot : Type :=
| XY
| YZ
| XZ.
Inductive complex_part : Type :=
| PartReal
| PartImaginary
| PartModule
| PartPhase.

Definition msg_complex : string :=
  "Using complex data, automatically switching to array module".
Definition msg_log : string :=
  "Log scale can not handle this kind of data ...".

Section Plotting.

(** The samples of the arrays. *)
Variable sample : Type.

(** The calls into matplotlib and numpy, the former with the exception
    they raise, if any: [plt.subplots(1, n, figsize=...)]; the body of the
    [try] of [plot_2d_image] on the axes number [ax] of the figure
    ([ax.imshow], the axes of the colour bar, [fig.colorbar]); and
    [np.real], [np.imag], [np.abs], [np.angle]. *)
Variable subplots : nat -> option exn.
Variable imshow : nat -> ndarray sample -> bool -> option exn.
Variables np_real np_imag np_abs np_angle : ndarray sample -> ndarray sample.

(** What the plotting functions show, in order. *)
Inductive plot_event : Type :=
| Subplots (n : nat)
| Image (ax : nat) (a : ndarray sample) (log : bool)
| Say (s : string)
| SayFigsize (w h : nat)
| SayShape (sh : list nat)
| SayRange (r : nat)
| CloseFigure
| ShowFigure.

(** A step of a plotting function: what it showed, and its value or the
    exception that leaves it. *)
Definition plotting (A : Type) : Type := (list plot_event * result A)%type.

Definition plot_bind {A B} (m : plotting A) (k : A -> plotting B)
  : plotting B :=
  match m with
  | (tr, Raise e) => (tr, Raise e)
  | (tr, Ok x) => let '(tr', r) := k x in (tr ++ tr', r)
  end.

Definition emit (e : plot_event) : plotting unit := ([e], Ok tt).
Definition lift {A} (r : result A) : plotting A := ([], r).
Definition call (o : option exn) : plotting unit :=
  ([], match o with None => Ok tt | Some e => Raise e end).

Local Notation "x <- m ;; k" := (plot_bind m (fun x => k))
  (at level 61, m at next level, right associativity).
Local Notation "m ;;; k" := (plot_bind m (fun _ => k))
  (at level 61, right associativity).

(** The [try] statement of [plot_2d_image] on the axes [k].  What the
    handler of [TypeError] raises is not caught by the clauses below it. *)
Definition draw_image (k : nat) (two_d_array : ndarray sample) (log : bool)
  : plotting unit :=
  match imshow k two_d_array log with
  | None => emit (Image k two_d_array log)
  | Some TypeError =>
      emit (Say msg_complex) ;;;
      call (imshow k (np_abs two_d_array) log) ;;;
      emit (Image k (np_abs two_d_array) log)
  | Some e =>
      if is_ValueError e then
        emit CloseFigure ;;;
        if log then emit (Say msg_log) else ([], Ok tt)
      else emit CloseFigure ;;; lift (Raise e)
  end.

(** [plot_2d_image(two_d_array, fig, ax, log)]: [ax] is the number of the
    axes in the figure passed, or [None] when neither [fig] nor [ax] is
    passed (the callers of the file pass both or none). *)
Definition plot_2d_image (two_d_array : ndarray sample) (ax : option nat)
           (log : bool) : plotting unit :=
  match ax with
  | Some k => draw_image k two_d_array log
  | None =>
      call (subplots 1) ;;; emit (Subplots 1) ;;; draw_image 0 two_d_array log
  end.

(** The body shared by [plot_3d_slices], for a boolean [log], and by its
    callback [plot_with_interactive_scale]. *)
Definition plot_slices (data_array : ndarray sample)
           (figsize : option (nat * nat)) (log : bool) : plotting unit :=
  match figsize with
  | None => emit (SayFigsize (ndim data_array * 5) 7)
  | Some _ => ([], Ok tt)
  end ;;;
  call (subplots (ndim data_array)) ;;;
  emit (Subplots (ndim data_array)) ;;;
  m0 <- lift (middle (shape data_array) 0) ;;
  two_d_array <- lift (getitem data_array [At m0; All; All]) ;;
  plot_2d_image two_d_array (Some 0%nat) log ;;;
  m1 <- lift (middle (shape data_array) 1) ;;
  two_d_array <- lift (getitem data_array [All; At m1; All]) ;;
  plot_2d_image two_d_array (Some 1%nat) log ;;;
  m2 <- lift (middle (shape data_array) 2) ;;
  two_d_array <- lift (getitem data_array [All; All; At m2]) ;;
  plot_2d_image two_d_array (Some 2%nat) log ;;;
  emit ShowFigure.

(** [plot_3d_slices(data_array, figsize, log)] for a boolean [log]. *)
Definition plot_3d_slices (data_array : ndarray sample)
           (figsize : option (nat * nat)) (log : bool) : plotting unit :=
  plot_slices data_array figsize log.

(** [plot_with_interactive_scale(scale, figsize)], the callback shown when
    [log] is not a boolean. *)
Definition plot_with_interactive_scale (data_array : ndarray sample)
           (scale : string) (figsize : option (nat * nat)) : plotting unit :=
  plot_slices data_array figsize (String.eqb scale "logarithmic").

(** The array that [plot_3d] plots. *)
Definition component (c : complex_part) (data_array : ndarray sample)
  : ndarray sample :=
  match c with
  | PartReal => np_real data_array
  | PartImaginary => np_imag data_array
  | PartModule => np_abs data_array
  | PartPhase => np_angle data_array
  end.

(** The subscripts of the projection printed, of the line whose length
    bounds the slider, and of the image at the slider position [i]. *)
Definition projection_subscripts (p : axplot) : list subscript :=
  match p with
  | XY => [All; All; At 0%nat]
  | YZ => [At 0%nat; All; All]
  | XZ => [All; At 0%nat; All]
  end.

Definition range_subscripts (p : axplot) : list subscript :=
  match p with
  | XY => [At 0%nat; At 0%nat; All]
  | YZ => [All; At 0%nat; At 0%nat]
  | XZ => [At 0%nat; All; At 0%nat]
  end.

Definition image_subscripts (p : axplot) (i : nat) : list subscript :=
  match p with
  | XY => [All; All; At i]
  | YZ => [At i; All; All]
  | XZ => [All; At i; All]
  end.

(** [plot_3d(axplot, ComplexNumber)], the callback of the 3-D branch of
    [plot_data], up to the creation of the slider: the value is [r[0]];
    the slider runs from 0 to [r[0] - 1]. *)
Definition plot_3d (data_array : ndarray sample) (p : axplot)
           (c : complex_part) : plotting nat :=
  let data := component c data_array in
  shown <- lift (getitem data (projection_subscripts p)) ;;
  emit (SayShape (shape shown)) ;;;
  line <- lift (getitem data (range_subscripts p)) ;;
  r0 <- lift (match shape line with
              | n :: _ => Ok n
              | [] => Raise IndexError
              end) ;;
  emit (SayRange r0) ;;;
  ([], Ok r0).

(** [PickLastAxis(i, scale)], the callback of the slider. *)
Definition PickLastAxis (data_array : ndarray sample) (p : axplot)
           (c : complex_part) (i : nat) (scale : string) : plotting unit :=
  let data := component c data_array in
  dt <- lift (getitem data (image_subscripts p i)) ;;
  emit CloseFigure ;;;
  call (subplots 1) ;;;
  emit (Subplots 1) ;;;
  plot_2d_image dt (Some 0%nat) (String.eqb scale "logarithmic") ;;;
  emit ShowFigure.

End Plotting.

Arguments Subplots {sample} _.
Arguments Image {sample} _ _ _.
Arguments Say {sample} _.
Arguments SayFigsize {sample} _ _.
Arguments SayShape {sample} _.
Arguments SayRange {sample} _.
Arguments CloseFigure {sample}.
Arguments ShowFigure {sample}.

(* ================================================================== *)
(** * Part II: theorems *)
(* ================================================================== *)

(** ** The data loader *)

Lemma endswith_last (s suffix : string) (c : ascii) (r : list ascii) :
  rev (list_ascii_of_string suffix) = c :: r ->
  endswith s suffix = true ->
  exists r', rev (list_ascii_of_string s) = c :: r'.
Proof.
  unfold endswith. intros ->.
  destruct (rev (list_ascii_of_string s)) as [|c' r']; cbn [prefixb].
  - discriminate.
  - intros H. apply andb_prop in H as [H _].
    apply Ascii.eqb_eq in H. subst c'. now exists r'.
Qed.

Lemma endswith_h5_not_npy (s : string) :
  endswith s ".h5" = true -> endswith s ".npy" = false.
Proof.
  intros H. destruct (endswith s ".npy") eqn:E; [|reflexivity].
  eapply endswith_last in H as [r1 H1]; [|reflexivity].
  eapply endswith_last in E as [r2 H2]; [|reflexivity].
  rewrite H1 in H2. discriminate H2.
Qed.

Lemma endswith_h5_not_cxi (s : string) :
  endswith s ".h5" = true -> endswith s ".cxi" = false.
Proof.
  intros H. destruct (endswith s ".cxi") eqn:E; [|reflexivity].
  eapply endswith_last in H as [r1 H1]; [|reflexivity].
  eapply endswith_last in E as [r2 H2]; [|reflexivity].
  rewrite H1 in H2. discriminate H2.
Qed.

(** Where the read of an [.h5] file gives a 4-D array whose leading axis is
    not empty, the loader binds the 3-D array obtained by taking the first
    block along axis 0 and exchanging axes 0 and 2. *)
Lemma load_h5_4d {sample} (env : loader_env sample) (p : Plotter sample)
      (a : ndarray sample) (n0 n1 n2 n3 : nat) :
  h5_read env (filename p) = Ok a ->
  shape a = [S n0; n1; n2; n3] ->
  exists r,
    load_h5 env p = (set_data_array p r, []) /\
    shape r = [n3; n2; n1] /\
    forall i j k, item r [i; j; k] = item a [0%nat; k; j; i].
Proof.
  intros Hread Hshape. unfold load_h5. rewrite Hread.
  unfold ndim, getitem0. rewrite Hshape. cbn [List.length Nat.eqb].
  unfold swapaxes, ndim. cbn [shape List.length Nat.ltb Nat.leb andb].
  eexists. split; [reflexivity|]. split; reflexivity.
Qed.

(** C3, as amended: for every 4-D array with a non-empty leading axis read
    from an [.h5] file, [get_data_array] leaves in [data_array] the array
    collapsed to 3-D along axis 0 with axes 0 and 2 exchanged: shape
    [(n0, n1, n2, n3)] becomes [(n3, n2, n1)], item [[i, j, k]] is the
    input's item [[0, k, j, i]], and no failure message is printed by the
    read. *)
Theorem get_data_array_h5_4d {sample} (env : loader_env sample)
        (p : Plotter sample) (a : ndarray sample) (n0 n1 n2 n3 : nat) :
  endswith (filename p) ".h5" = true ->
  h5_read env (filename p) = Ok a ->
  shape a = [S n0; n1; n2; n3] ->
  exists r,
    fst (fst (get_data_array env p)) = set_data_array p r /\
    snd (fst (get_data_array env p)) = fst (dispatch env (set_data_array p r)) /\
    shape r = [n3; n2; n1] /\
    forall i j k, item r [i; j; k] = item a [0%nat; k; j; i].
Proof.
  intros Hsuf Hread Hshape.
  destruct (load_h5_4d env p a n0 n1 n2 n3 Hread Hshape) as (r & Hl & Hs & Hi).
  exists r. unfold get_data_array.
  rewrite (endswith_h5_not_npy _ Hsuf), (endswith_h5_not_cxi _ Hsuf), Hsuf.
  cbn [orb]. rewrite Hl.
  destruct (dispatch env (set_data_array p r)) as [tr out].
  cbn [fst snd app]. auto.
Qed.

Lemma get_data_array_h5_4d_witness :
  endswith "modes.h5" ".h5" = true /\
  shape (index_array [1; 2; 3; 4]%nat) = [1; 2; 3; 4]%nat /\
  exists r,
    fst (fst (get_data_array (env_h5 (index_array [1; 2; 3; 4]%nat))
                             (fresh_plotter "modes.h5")))
    = set_data_array (fresh_plotter "modes.h5") r /\
    snd (fst (get_data_array (env_h5 (index_array [1; 2; 3; 4]%nat))
                             (fresh_plotter "modes.h5")))
    = fst (dispatch (env_h5 (index_array [1; 2; 3; 4]%nat))
                    (set_data_array (fresh_plotter "modes.h5") r)) /\
    shape r = [4; 3; 2]%nat /\
    forall i j k,
      item r [i; j; k] = item (index_array [1; 2; 3; 4]%nat) [0%nat; k; j; i].
Proof.
  split; [reflexivity|]. split; [reflexivity|].
  apply (get_data_array_h5_4d (env_h5 (index_array [1; 2; 3; 4]%nat))
           (fresh_plotter "modes.h5") (index_array [1; 2; 3; 4]%nat) 0 2 3 4);
    reflexivity.
Defined.

(** The literal case of the specification, evaluated: an input of shape
    (1, 2, 3, 4) is bound with shape (4, 3, 2), and its item [[3, 2, 1]] is
    the input's item [[0, 1, 2, 3]]. *)
Example get_data_array_h5_shape_1234 :
  let p' := fst (fst (get_data_array (env_h5 (index_array [1; 2; 3; 4]%nat))
                                     (fresh_plotter "modes.h5"))) in
  option_map shape (data_array p') = Some [4; 3; 2]%nat /\
  option_map (fun r => item r [3; 2; 1]%nat) (data_array p') = Some 123%Z.
Proof. split; reflexivity. Qed.

(** C3 fails as stated: a 4-D array of shape (0, 2, 3, 4) is not collapsed.
    [self.data_array[0]] raises [IndexError], the handler prints the
    message, and the loader keeps the 4-D array. *)
Lemma get_data_array_h5_empty_leading_axis :
  let a := index_array [0; 2; 3; 4]%nat in
  let r := get_data_array (env_h5 a) (fresh_plotter "modes.h5") in
  ndim a = 4%nat /\
  option_map shape (data_array (fst (fst r))) = Some [0; 2; 3; 4]%nat /\
  hd_error (snd (fst r)) = Some (Print msg_hdf5).
Proof. repeat split. Qed.

Lemma dispatch_bound {sample} (env : loader_env sample) (p : Plotter sample) :
  data_array p <> None ->
  (forall ev, render env ev = None) ->
  snd (dispatch env p) = None.
Proof.
  intros Hb Hr. unfold dispatch, print_summary.
  destruct (data_array p) as [a|]; [|congruence].
  repeat match goal with
         | |- context [if ?c then _ else _] => destruct c
         end; cbn [snd]; auto.
Qed.

(** C2, as amended: in the [.npy], [.cxi] and [.h5] branches an exception
    raised by the read is caught where it is raised: the message is the
    first thing printed, [data_array] and the other attributes stay as they
    were, and the loader goes on to its plot block without the exception
    (so it returns normally when [data_array] was bound before and the
    rendering call does not raise).  In the [.npz] branch a failure of
    [np.load] is raised again and leaves the loader. *)
Theorem get_data_array_read_failure {sample} (env : loader_env sample)
        (p : Plotter sample) (e : exn) :
  let f := filename p in
  (if endswith f ".npy" then np_load env f = Raise e
   else if endswith f ".cxi" || endswith f ".h5" then h5_read env f = Raise e
   else endswith f ".npz" = true /\ np_load_npz env f = Raise e) ->
  if endswith f ".npy" || endswith f ".h5" || endswith f ".cxi" then
    (exists msg,
        (msg = msg_npy \/ msg = msg_hdf5) /\
        get_data_array env p
        = (p, Print msg :: fst (dispatch env p), snd (dispatch env p))) /\
    (data_array p <> None -> (forall ev, render env ev = None) ->
     snd (get_data_array env p) = None)
  else get_data_array env p = (p, [], Some e).
Proof.
  intros f H. unfold get_data_array. fold f.
  destruct (endswith f ".npy") eqn:Enpy; cbn [orb].
  - assert (Hg : (let '(p1, tr1) := load_npy sample env p in
                  let '(tr2, out) := dispatch env p1 in (p1, tr1 ++ tr2, out))
                 = (p, Print msg_npy :: fst (dispatch env p), snd (dispatch env p))).
    { unfold load_npy. fold f. rewrite H.
      destruct (dispatch env p); reflexivity. }
    rewrite Hg. split.
    + exists msg_npy. auto.
    + intros Hb Hr. cbn [snd]. now apply dispatch_bound.
  - destruct (endswith f ".cxi") eqn:Ecxi.
    + rewrite orb_true_r.
      assert (Hg : (let '(p1, tr1) := load_cxi sample env p in
                    let '(tr2, out) := dispatch env p1 in (p1, tr1 ++ tr2, out))
                   = (p, Print msg_hdf5 :: fst (dispatch env p), snd (dispatch env p))).
      { unfold load_cxi. fold f. cbn [orb] in H. rewrite H.
        destruct (dispatch env p); reflexivity. }
      rewrite Hg. split.
      * exists msg_hdf5. auto.
      * intros Hb Hr. cbn [snd]. now apply dispatch_bound.
    + cbn [orb] in H. rewrite orb_false_r.
      destruct (endswith f ".h5") eqn:Eh5.
      * assert (Hg : (let '(p1, tr1) := load_h5 env p in
                      let '(tr2, out) := dispatch env p1 in (p1, tr1 ++ tr2, out))
                     = (p, Print msg_hdf5 :: fst (dispatch env p), snd (dispatch env p))).
        { unfold load_h5. fold f. rewrite H.
          destruct (dispatch env p); reflexivity. }
        rewrite Hg. split.
        -- exists msg_hdf5. auto.
        -- intros Hb Hr. cbn [snd]. now apply dispatch_bound.
      * destruct H as [Hz Hl]. rewrite Hz, Hl. reflexivity.
Qed.

Lemma get_data_array_read_failure_witness :
  np_load env_missing_files "data.npy" = Raise FileNotFoundError /\
  (exists msg,
      (msg = msg_npy \/ msg = msg_hdf5) /\
      get_data_array env_missing_files
        (mk_Plotter "data.npy" PlotFalse false (Some (index_array [2]%nat)))
      = (mk_Plotter "data.npy" PlotFalse false (Some (index_array [2]%nat)),
         Print msg
           :: fst (dispatch env_missing_files
                     (mk_Plotter "data.npy" PlotFalse false
                                 (Some (index_array [2]%nat)))),
         None)).
Proof.
  split; [reflexivity|].
  exact (proj1 (get_data_array_read_failure env_missing_files
           (mk_Plotter "data.npy" PlotFalse false (Some (index_array [2]%nat)))
           FileNotFoundError eq_refl)).
Defined.

(** C2 fails as stated: when [np.load] cannot read an [.npz] file, the
    handler raises the exception again and it leaves the loader. *)
Lemma get_data_array_npz_reraises :
  snd (get_data_array env_missing_files (fresh_plotter "modes.npz"))
  = Some FileNotFoundError.
Proof. reflexivity. Qed.

(** ** The volume viewer *)

Lemma qmin_le_l (a b : Q) : qmin a b <= a.
Proof.
  unfold qmin. destruct (Qle_bool a b) eqn:E.
  - lra.
  - assert (~ a <= b) by (rewrite <- Qle_bool_iff; congruence). lra.
Qed.

Lemma qmin_le_r (a b : Q) : qmin a b <= b.
Proof.
  unfold qmin. destruct (Qle_bool a b) eqn:E.
  - now apply Qle_bool_iff.
  - lra.
Qed.

Lemma qmax_ge_l (a b : Q) : a <= qmax a b.
Proof.
  unfold qmax. destruct (Qle_bool a b) eqn:E.
  - now apply Qle_bool_iff.
  - lra.
Qed.

Lemma qmax_ge_r (a b : Q) : b <= qmax a b.
Proof.
  unfold qmax. destruct (Qle_bool a b) eqn:E.
  - lra.
  - assert (~ a <= b) by (rewrite <- Qle_bool_iff; congruence). lra.
Qed.

Lemma qmin_cases (a b : Q) : qmin a b = a \/ qmin a b = b.
Proof. unfold qmin. destruct (Qle_bool a b); auto. Qed.

Lemma qmax_cases (a b : Q) : qmax a b = a \/ qmax a b = b.
Proof. unfold qmax. destruct (Qle_bool a b); auto. Qed.

Lemma fold_qmin_spec (l : list Q) (a : Q) :
  In (fold_left qmin l a) (a :: l) /\
  forall q, In q (a :: l) -> fold_left qmin l a <= q.
Proof.
  revert a. induction l as [|b l IH]; intros a; cbn [fold_left].
  - split; [now left|]. intros q [<-|[]]. lra.
  - destruct (IH (qmin a b)) as [Hin Hle]. split.
    + destruct Hin as [Hin|Hin].
      * rewrite <- Hin. destruct (qmin_cases a b) as [->| ->];
          [now left | right; now left].
      * right; now right.
    + intros q [<-|[<-|Hq]].
      * specialize (Hle (qmin a b) (or_introl eq_refl)).
        pose proof (qmin_le_l a b). lra.
      * specialize (Hle (qmin a b) (or_introl eq_refl)).
        pose proof (qmin_le_r a b). lra.
      * apply Hle. now right.
Qed.

Lemma fold_qmax_spec (l : list Q) (a : Q) :
  In (fold_left qmax l a) (a :: l) /\
  forall q, In q (a :: l) -> q <= fold_left qmax l a.
Proof.
  revert a. induction l as [|b l IH]; intros a; cbn [fold_left].
  - split; [now left|]. intros q [<-|[]]. lra.
  - destruct (IH (qmax a b)) as [Hin Hle]. split.
    + destruct Hin as [Hin|Hin].
      * rewrite <- Hin. destruct (qmax_cases a b) as [->| ->];
          [now left | right; now left].
      * right; now right.
    + intros q [<-|[<-|Hq]].
      * specialize (Hle (qmax a b) (or_introl eq_refl)).
        pose proof (qmax_ge_l a b). lra.
      * specialize (Hle (qmax a b) (or_introl eq_refl)).
        pose proof (qmax_ge_r a b). lra.
      * apply Hle. now right.
Qed.

Lemma array_min_spec (l : list Q) :
  l <> [] ->
  exists m, array_min l = Ok m /\ In m l /\ forall q, In q l -> m <= q.
Proof.
  destruct l as [|a l]; [congruence|]. intros _.
  exists (fold_left qmin l a). split; [reflexivity|]. apply fold_qmin_spec.
Qed.

Lemma array_max_spec (l : list Q) :
  l <> [] ->
  exists m, array_max l = Ok m /\ In m l /\ forall q, In q l -> q <= m.
Proof.
  destruct l as [|a l]; [congruence|]. intros _.
  exists (fold_left qmax l a). split; [reflexivity|]. apply fold_qmax_spec.
Qed.

Lemma Qgtb_true (a b : Q) : Qgtb a b = true <-> b < a.
Proof.
  unfold Qgtb. rewrite negb_true_iff. split.
  - intros H. assert (~ a <= b) by (rewrite <- Qle_bool_iff; congruence). lra.
  - intros H. destruct (Qle_bool a b) eqn:E; [|reflexivity].
    apply Qle_bool_iff in E. lra.
Qed.

Lemma Qgtb_false (a b : Q) : Qgtb a b = false <-> a <= b.
Proof.
  unfold Qgtb. rewrite negb_false_iff. apply Qle_bool_iff.
Qed.

Lemma Qltb_true (a b : Q) : Qltb a b = true <-> a < b.
Proof. unfold Qltb. apply (Qgtb_true b a). Qed.

Lemma Qltb_false (a b : Q) : Qltb a b = false <-> b <= a.
Proof. unfold Qltb. apply (Qgtb_false b a). Qed.

Lemma set_max_valid (s : FloatRangeSlider) (new : Q) :
  slider_valid s -> r_min s <= new ->
  exists s', set_max s new = Ok s' /\ slider_valid s' /\
             r_min s' = r_min s /\ r_max s' = new.
Proof.
  intros (Hb & (Hl1 & Hl2) & (Hu1 & Hu2)) Hnew. unfold set_max.
  destruct (Qltb new (r_min s)) eqn:E.
  - apply Qltb_true in E. lra.
  - eexists. split; [reflexivity|]. split; [|split; reflexivity].
    unfold slider_valid; cbn [r_min r_max r_lower r_upper].
    pose proof (qmin_le_l new (r_lower s)).
    pose proof (qmin_le_l new (r_upper s)).
    repeat split; try assumption.
    + destruct (qmin_cases new (r_lower s)) as [->| ->]; assumption.
    + destruct (qmin_cases new (r_upper s)) as [->| ->]; assumption.
Qed.

Lemma set_min_valid (s : FloatRangeSlider) (new : Q) :
  slider_valid s -> new <= r_max s ->
  exists s', set_min s new = Ok s' /\ slider_valid s' /\
             r_min s' = new /\ r_max s' = r_max s.
Proof.
  intros (Hb & (Hl1 & Hl2) & (Hu1 & Hu2)) Hnew. unfold set_min.
  destruct (Qgtb new (r_max s)) eqn:E.
  - apply Qgtb_true in E. lra.
  - eexists. split; [reflexivity|]. split; [|split; reflexivity].
    unfold slider_valid; cbn [r_min r_max r_lower r_upper].
    pose proof (qmax_ge_l new (r_lower s)).
    pose proof (qmax_ge_l new (r_upper s)).
    repeat split; try assumption.
    + destruct (qmax_cases new (r_lower s)) as [->| ->]; assumption.
    + destruct (qmax_cases new (r_upper s)) as [->| ->]; assumption.
Qed.

(** The two assignments are accepted in the order the code picks, and the
    slider is valid after each of them. *)
Lemma fit_clipdist_valid (s : FloatRangeSlider) (tmpmin tmpmax : Q) :
  slider_valid s -> tmpmin <= tmpmax ->
  exists s1 s2,
    fit_clipdist s tmpmin tmpmax = Ok (s1, s2) /\
    slider_valid s1 /\ slider_valid s2 /\
    r_min s2 = tmpmin /\ r_max s2 = tmpmax /\
    ((r_min s1 = r_min s /\ r_max s1 = tmpmax) \/
     (r_min s1 = tmpmin /\ r_max s1 = r_max s)).
Proof.
  intros Hs Hle. unfold fit_clipdist.
  destruct (Qgtb tmpmax (r_min s)) eqn:E.
  - apply Qgtb_true in E.
    destruct (set_max_valid s tmpmax Hs) as (s1 & -> & Hs1 & Hmin1 & Hmax1);
      [lra|].
    destruct (set_min_valid s1 tmpmin Hs1) as (s2 & -> & Hs2 & Hmin2 & Hmax2);
      [rewrite Hmax1; lra|].
    exists s1, s2. repeat split; try apply Hs1; try apply Hs2; auto.
    now rewrite Hmax2.
  - apply Qgtb_false in E.
    assert (Hb : r_min s <= r_max s) by apply Hs.
    destruct (set_min_valid s tmpmin Hs) as (s1 & -> & Hs1 & Hmin1 & Hmax1);
      [lra|].
    destruct (set_max_valid s1 tmpmax Hs1) as (s2 & -> & Hs2 & Hmin2 & Hmax2);
      [rewrite Hmin1; lra|].
    exists s1, s2. repeat split; try apply Hs1; try apply Hs2; auto.
    now rewrite Hmin2.
Qed.

Section ViewerFacts.

Variable np_sqrt : Q -> Q.
Variables surface trisurf : Type.
Variable extract_surface : volume -> Q -> result surface.
Variable paint : paint_mode -> volume -> surface -> result trisurf.

Lemma draw_outcome (w : ThreeDViewer trisurf) (masked : volume) :
  snd (draw extract_surface paint w masked) = None /\
  clipdist (fst (fst (draw extract_surface paint w masked))) = clipdist w /\
  plane_text (fst (fst (draw extract_surface paint w masked))) = plane_text w /\
  match marching_cubes extract_surface masked (threshold w) with
  | Raise e =>
      mesh (fst (fst (draw extract_surface paint w masked))) = mesh w /\
      snd (fst (draw extract_surface paint w masked)) = [e]
  | Ok _ =>
      (exists m,
          mesh (fst (fst (draw extract_surface paint w masked))) = Some m /\
          snd (fst (draw extract_surface paint w masked)) = []) \/
      (exists e,
          mesh (fst (fst (draw extract_surface paint w masked))) = mesh w /\
          snd (fst (draw extract_surface paint w masked)) = [e])
  end.
Proof.
  unfold draw, recompute_mesh.
  destruct (marching_cubes extract_surface masked (threshold w)) as [srf|e];
    cbn [fst snd]; [|auto].
  destruct (String.eqb (toggle_phase trisurf w) "Phase").
  - destruct (paint PaintPhase (d w) srf) as [m|e]; cbn; repeat split;
      [left; now exists m | right; now exists e].
  - destruct (String.eqb (toggle_phase trisurf w) "Abs"
              || String.eqb (toggle_phase trisurf w) "log10(Abs)").
    + destruct (paint _ (d w) srf) as [m|e]; cbn; repeat split;
        [left; now exists m | right; now exists e].
    + cbn. repeat split. right. now exists AttributeError.
Qed.

Lemma in_grid (v : volume) (z y x : nat) :
  In (z, y, x) (grid v) <-> (z < nz v /\ y < ny v /\ x < nx v)%nat.
Proof.
  unfold grid. rewrite in_flat_map. split.
  - intros (z' & Hz & H). apply in_flat_map in H as (y' & Hy & H).
    apply in_map_iff in H as (x' & E & Hx). inversion E; subst.
    apply in_seq in Hz, Hy, Hx. lia.
  - intros (Hz & Hy & Hx). exists z. split; [apply in_seq; lia|].
    apply in_flat_map. exists y. split; [apply in_seq; lia|].
    apply in_map_iff. exists x. split; [reflexivity | apply in_seq; lia].
Qed.


(** With the clip planes on and no voxel at or above the threshold, the
    reduction [tmp.min()] raises outside every handler. *)
Lemma on_update_plot_clip_empty (w : ThreeDViewer trisurf) (v : option string) :
  ignored_change v = false ->
  toggle_plane w = true ->
  above_threshold w = [] ->
  snd (on_update_plot np_sqrt extract_surface paint w v) = Some ValueError.
Proof.
  intros Hv Hp He. unfold on_update_plot. rewrite Hv.
  cbn [toggle_plane with_clip_disabled with_progress]. rewrite Hp.
  change (clip_projections np_sqrt
            (with_clip_disabled trisurf (with_progress trisurf w 7) false))
    with (clip_projections np_sqrt w).
  unfold clip_projections. rewrite He. reflexivity.
Qed.


(** The divisor of the projections and of the clip mask is never zero. *)
Lemma clip_normal_nonzero (w : ThreeDViewer trisurf) :
  ~ c_u (clip_normal np_sqrt w) == 0.
Proof.
  unfold clip_normal.
  destruct (isclose (np_sqrt (clipx w * clipx w + clipy w * clipy w
                              + clipz w * clipz w)) 0) eqn:E; cbn [c_u].
  - intros H. discriminate H.
  - intros H. unfold isclose in E.
    assert (Hn : ~ Qabs (np_sqrt (clipx w * clipx w + clipy w * clipy w
                                  + clipz w * clipz w) - 0)
                 <= atol + rtol * Qabs 0)
      by (rewrite <- Qle_bool_iff; congruence).
    apply Hn. rewrite H. vm_compute. discriminate.
Qed.


(** The voxels selected by [np.where(abs(self.d) >= threshold)]. *)
Lemma in_above_threshold (w : ThreeDViewer trisurf) (z y x : nat) :
  In (z, y, x) (above_threshold w)
  <-> ((z < nz (d w))%nat /\ (y < ny (d w))%nat /\ (x < nx (d w))%nat) /\
      threshold w <= Qabs (vox (d w) z y x).
Proof.
  unfold above_threshold. rewrite filter_In, in_grid.
  unfold Qgeb. now rewrite Qle_bool_iff.
Qed.

(** C8, as amended: with the clip planes on and at least one voxel whose
    magnitude is at least the threshold, [on_update_plot] sets the bounds
    of the clip-distance slider to [lo - 1] and [hi + 1], where [lo] and
    [hi] are the least and the greatest of the projections
    [(x * ux + y * uy + z * uz) / u] of those voxels on the clip vector
    (each is the projection of such a voxel, and the projection of every
    such voxel lies between them), [u] being the norm of the vector, or
    [ux = 1], [u = 1] for a vanishing norm; both assignments are accepted, in the
    order the code picks, and after each of them the slider has
    [min <= max] with its value inside the bounds. *)
Theorem on_update_plot_fits_clipdist (w : ThreeDViewer trisurf)
        (v : option string) :
  ignored_change v = false ->
  toggle_plane w = true ->
  slider_valid (clipdist w) ->
  (exists z y x,
      ((z < nz (d w))%nat /\ (y < ny (d w))%nat /\ (x < nx (d w))%nat) /\
      threshold w <= Qabs (vox (d w) z y x)) ->
  let c := clip_normal np_sqrt w in
  let proj (z y x : nat) :=
    (inject_Z (Z.of_nat x) * c_ux c + inject_Z (Z.of_nat y) * c_uy c
     + inject_Z (Z.of_nat z) * c_uz c) / c_u c in
  let selected (z y x : nat) :=
    ((z < nz (d w))%nat /\ (y < ny (d w))%nat /\ (x < nx (d w))%nat) /\
    threshold w <= Qabs (vox (d w) z y x) in
  let u := np_sqrt (clipx w * clipx w + clipy w * clipy w + clipz w * clipz w) in
  c = (if isclose u 0 then mk_clip 1 (clipy w) (clipz w) 1
       else mk_clip (clipx w) (clipy w) (clipz w) u) /\
  exists lo hi s1 s2,
    (exists z y x, selected z y x /\ lo = proj z y x) /\
    (exists z y x, selected z y x /\ hi = proj z y x) /\
    (forall z y x, selected z y x -> lo <= proj z y x /\ proj z y x <= hi) /\
    (if Qgtb (hi + 1) (r_min (clipdist w))
     then set_max (clipdist w) (hi + 1) = Ok s1 /\ set_min s1 (lo - 1) = Ok s2
     else set_min (clipdist w) (lo - 1) = Ok s1 /\ set_max s1 (hi + 1) = Ok s2) /\
    slider_valid s1 /\ slider_valid s2 /\
    r_min s2 = lo - 1 /\ r_max s2 = hi + 1 /\
    clipdist (fst (fst (on_update_plot np_sqrt extract_surface paint w v))) = s2 /\
    snd (on_update_plot np_sqrt extract_surface paint w v) = None.
Proof.
  intros Hv Hp Hs (z0 & y0 & x0 & Hsel0) c proj selected u.
  split; [reflexivity|].
  assert (Hproj : forall z y x, projection c (z, y, x) = proj z y x)
    by reflexivity.
  assert (Hin : forall q, In q (clip_projections np_sqrt w) <->
                          exists z y x, selected z y x /\ q = proj z y x).
  { intros q. unfold clip_projections. rewrite in_map_iff. split.
    - intros ([[z y] x] & <- & H). apply in_above_threshold in H.
      exists z, y, x. split; [exact H | reflexivity].
    - intros (z & y & x & H & ->). exists (z, y, x). split; [reflexivity|].
      now apply in_above_threshold. }
  assert (Hne : clip_projections np_sqrt w <> []).
  { intros E. assert (H : In (proj z0 y0 x0) (clip_projections np_sqrt w)).
    { apply Hin. exists z0, y0, x0. split; [exact Hsel0 | reflexivity]. }
    rewrite E in H. destruct H. }
  destruct (array_min_spec _ Hne) as (lo & Emin & Hlo_in & Hlo).
  destruct (array_max_spec _ Hne) as (hi & Emax & Hhi_in & Hhi).
  assert (Hle : lo - 1 <= hi + 1).
  { specialize (Hlo hi Hhi_in). lra. }
  destruct (fit_clipdist_valid (clipdist w) (lo - 1) (hi + 1) Hs Hle)
    as (s1 & s2 & Efit & Hs1 & Hs2 & Hmin & Hmax & _).
  exists lo, hi, s1, s2.
  split; [now apply Hin|]. split; [now apply Hin|]. split.
  { intros z y x H. split; [apply Hlo | apply Hhi]; apply Hin;
      exists z, y, x; (split; [exact H | reflexivity]). }
  split.
  { unfold fit_clipdist in Efit.
    destruct (Qgtb (hi + 1) (r_min (clipdist w))).
    - destruct (set_max (clipdist w) (hi + 1)) as [a|] eqn:Ea; [|discriminate].
      destruct (set_min a (lo - 1)) as [b|] eqn:Eb; [|discriminate].
      injection Efit as E1 E2. subst a b. split; [reflexivity | exact Eb].
    - destruct (set_min (clipdist w) (lo - 1)) as [a|] eqn:Ea; [|discriminate].
      destruct (set_max a (hi + 1)) as [b|] eqn:Eb; [|discriminate].
      injection Efit as E1 E2. subst a b. split; [reflexivity | exact Eb]. }
  split; [exact Hs1|]. split; [exact Hs2|].
  split; [exact Hmin|]. split; [exact Hmax|].
  unfold on_update_plot. rewrite Hv.
  cbn [toggle_plane with_clip_disabled with_progress]. rewrite Hp.
  change (clip_projections np_sqrt
            (with_clip_disabled trisurf (with_progress trisurf w 7) false))
    with (clip_projections np_sqrt w).
  rewrite Emin, Emax.
  cbn [clipdist with_clip_disabled with_progress]. rewrite Efit.
  match goal with
  | |- context [draw _ _ ?w1 ?mm] =>
      destruct (draw_outcome w1 mm) as (-> & -> & _ & _)
  end.
  split; reflexivity.
Qed.

End ViewerFacts.

Lemma example_slider_valid : slider_valid (mk_slider 0 100 0 100).
Proof. unfold slider_valid; cbn; repeat split; lra. Qed.




Lemma on_update_plot_fits_clipdist_witness :
  let w := example_viewer (1 # 2) true 1 0 0 in
  let c := clip_normal rational_sqrt w in
  let proj (z y x : nat) :=
    (inject_Z (Z.of_nat x) * c_ux c + inject_Z (Z.of_nat y) * c_uy c
     + inject_Z (Z.of_nat z) * c_uz c) / c_u c in
  let selected (z y x : nat) :=
    ((z < nz (d w))%nat /\ (y < ny (d w))%nat /\ (x < nx (d w))%nat) /\
    threshold w <= Qabs (vox (d w) z y x) in
  let u := rational_sqrt (clipx w * clipx w + clipy w * clipy w
                          + clipz w * clipz w) in
  c = (if isclose u 0 then mk_clip 1 (clipy w) (clipz w) 1
       else mk_clip (clipx w) (clipy w) (clipz w) u) /\
  exists lo hi s1 s2,
    (exists z y x, selected z y x /\ lo = proj z y x) /\
    (exists z y x, selected z y x /\ hi = proj z y x) /\
    (forall z y x, selected z y x -> lo <= proj z y x /\ proj z y x <= hi) /\
    (if Qgtb (hi + 1) (r_min (clipdist w))
     then set_max (clipdist w) (hi + 1) = Ok s1 /\ set_min s1 (lo - 1) = Ok s2
     else set_min (clipdist w) (lo - 1) = Ok s1 /\ set_max s1 (hi + 1) = Ok s2) /\
    slider_valid s1 /\ slider_valid s2 /\
    r_min s2 = lo - 1 /\ r_max s2 = hi + 1 /\
    clipdist (fst (fst (on_update_plot rational_sqrt example_extract
                          example_paint w None))) = s2 /\
    snd (on_update_plot rational_sqrt example_extract example_paint w None)
    = None.
Proof.
  apply (on_update_plot_fits_clipdist rational_sqrt unit unit example_extract
           example_paint (example_viewer (1 # 2) true 1 0 0) None).
  - reflexivity.
  - reflexivity.
  - exact example_slider_valid.
  - exists 0%nat, 0%nat, 0%nat. cbn. repeat split; try lia.
    unfold Qle. cbn. lia.
Defined.

(** C8 fails as stated when no voxel reaches the threshold: with the clip
    planes on and the threshold (5) above every magnitude of the volume
    (all 1), there is no projection to take the minimum of; [tmp.min()]
    raises [ValueError], and the bounds of the slider stay as they were. *)
Lemma on_update_plot_clip_empty_keeps_clipdist :
  let w := example_viewer 5 true 1 0 0 in
  let r := on_update_plot rational_sqrt example_extract example_paint w None in
  toggle_plane w = true /\
  (forall z y x, (z < nz (d w))%nat -> (y < ny (d w))%nat ->
                 (x < nx (d w))%nat ->
                 ~ threshold w <= Qabs (vox (d w) z y x)) /\
  snd r = Some ValueError /\
  clipdist (fst (fst r)) = clipdist w /\
  clipdist w = mk_slider 0 100 0 100.
Proof.
  cbn zeta. split; [reflexivity|]. split.
  - intros z y x _ _ _. cbn. unfold Qle. cbn. lia.
  - repeat split.
Qed.

(** The update of the witness, evaluated: the projections of the eight
    voxels on [(1, 0, 0)] are 0 and 1, and the slider ends with the bounds
    [-1] and [2] and its value clamped to [(0, 2)]. *)
Example on_update_plot_fits_clipdist_example :
  let r := on_update_plot rational_sqrt example_extract example_paint
             (example_viewer (1 # 2) true 1 0 0) None in
  Qeq_bool (r_min (clipdist (fst (fst r)))) (-1) = true /\
  Qeq_bool (r_max (clipdist (fst (fst r)))) 2 = true /\
  Qeq_bool (r_lower (clipdist (fst (fst r)))) 0 = true /\
  Qeq_bool (r_upper (clipdist (fst (fst r)))) 2 = true.
Proof. vm_compute. repeat split. Qed.

(** ** The metadata log *)

Lemma mem_In (c : string) (l : list string) : mem c l = true <-> In c l.
Proof.
  unfold mem. rewrite existsb_exists. split.
  - intros (x & Hx & E). apply String.eqb_eq in E. now subst.
  - intros H. exists c. split; [exact H | apply String.eqb_refl].
Qed.

Lemma assoc_normalize (cols : list string) (r : row) (c : string) :
  assoc c (normalize cols r)
  = if mem c cols then Some (cell_at r c) else None.
Proof.
  unfold normalize. induction cols as [|a cols IH]; [reflexivity|].
  cbn [map combine assoc mem existsb]. fold (mem c cols).
  destruct (String.eqb c a) eqn:E.
  - apply String.eqb_eq in E. now subst.
  - cbn [orb]. exact IH.
Qed.

Lemma cell_at_normalize (cols : list string) (r : row) (c : string) :
  cell_at (normalize cols r) c = if mem c cols then cell_at r c else CNaN.
Proof.
  unfold cell_at at 1. rewrite assoc_normalize. now destruct (mem c cols).
Qed.

Lemma scan_is_normalize (n : Z) (cols : list string) (r : row) :
  mem "scan" cols = true -> scan_is n (normalize cols r) = scan_is n r.
Proof. intros H. unfold scan_is. now rewrite cell_at_normalize, H. Qed.

Lemma map_snd_combine_seq {B} (l : list B) (s : nat) :
  map snd (combine (seq s (List.length l)) l) = l.
Proof.
  revert s. induction l as [|a l IH]; intros s; [reflexivity|].
  cbn. now rewrite IH.
Qed.

Lemma map_fst_combine_seq {B} (l : list B) (s : nat) :
  map fst (combine (seq s (List.length l)) l) = seq s (List.length l).
Proof.
  revert s. induction l as [|a l IH]; intros s; [reflexivity|].
  cbn. now rewrite IH.
Qed.

Lemma NoDup_fst_inj {B} (l : list (nat * B)) (p q : nat * B) :
  NoDup (map fst l) -> In p l -> In q l -> fst p = fst q -> p = q.
Proof.
  induction l as [|a l IH]; [intros _ []|].
  cbn [map]. intros Hnd Hp Hq E. inversion Hnd as [|x xs Hnin Hnd']; subst.
  destruct Hp as [->|Hp], Hq as [->|Hq].
  - reflexivity.
  - exfalso. apply Hnin. rewrite E. now apply in_map.
  - exfalso. apply Hnin. rewrite <- E. now apply in_map.
  - now apply IH.
Qed.

Lemma filter_map_snd {B} (f : B -> bool) (l : list (nat * B)) :
  map snd (filter (fun p => f (snd p)) l) = filter f (map snd l).
Proof.
  induction l as [|a l IH]; [reflexivity|].
  cbn. destruct (f (snd a)); cbn; now rewrite IH.
Qed.

(** Dropping by label the rows selected by a mask keeps the rows the mask
    rejects, when the labels are distinct. *)
Lemma drop_matching_index {csv_text : Type} (w : meta_world csv_text)
      (df : DataFrame) (n : Z) :
  NoDup (map fst (rows df)) ->
  map snd (rows (drop df (matching_index w df n)))
  = filter (fun r => negb (scan_mask w n r)) (map snd (rows df)).
Proof.
  intros Hnd. unfold drop, matching_index. cbn [rows].
  rewrite <- filter_map_snd. f_equal. apply filter_ext_in.
  intros p Hp. f_equal.
  destruct (scan_mask w n (snd p)) eqn:Em.
  - apply existsb_exists. exists (fst p). split; [|apply Nat.eqb_refl].
    apply in_map. apply filter_In. auto.
  - destruct (existsb _ _) eqn:Ee; [|reflexivity].
    apply existsb_exists in Ee as (i & Hi & E). apply Nat.eqb_eq in E.
    apply in_map_iff in Hi as (q & Hq & Hin).
    apply filter_In in Hin as [Hin Hm].
    assert (p = q) by (apply (NoDup_fst_inj (rows df)); auto; congruence).
    subst q. congruence.
Qed.

(** On integers of 64 bits the mask selects the rows keyed by the scan
    number. *)
Lemma scan_mask_int64 {csv_text : Type} (w : meta_world csv_text) (n : Z)
      (r : row) :
  int64 n = true ->
  (exists z, cell_at r "scan" = CInt z /\ int64 z = true) ->
  scan_mask w n r = scan_is n r.
Proof.
  intros Hn (z & E & Hz). unfold scan_mask, scan_is. now rewrite E, Hz, Hn.
Qed.

Lemma filter_scan_log {csv_text : Type} (w : meta_world csv_text)
      (df : DataFrame) (n : Z) :
  int64 n = true -> scan_log df ->
  filter (fun r => negb (scan_mask w n r)) (map snd (rows df))
  = filter (fun r => negb (scan_is n r)) (map snd (rows df)).
Proof.
  intros Hn (_ & _ & Hall). apply filter_ext_in. intros r Hr. f_equal.
  apply scan_mask_int64; [exact Hn|].
  apply in_map_iff in Hr as (p & <- & Hp).
  rewrite Forall_forall in Hall. now apply Hall.
Qed.

(** The upsert on a well-formed log: the file is rewritten from the frame
    that keeps, in order, the rows that are not keyed by the scan number,
    followed by the new rows; [NameError] leaves once it is written. *)
Lemma save_in_csv_upsert {csv_text : Type} (w : meta_world csv_text) (n : Z)
      (temp_df : DataFrame) (path : string) (f : csv_text) (df : DataFrame) :
  assoc path (csv_files w) = Some f ->
  pd_read_csv w f = Ok df ->
  scan_log df ->
  int64 n = true ->
  save_in_csv w n temp_df (Some path)
  = (write_csv w path
       (pd_to_csv w (concat (drop df (matching_index w df n)) temp_df)),
     [MDisplay (head (concat (drop df (matching_index w df n)) temp_df))],
     Some NameError) /\
  columns (concat (drop df (matching_index w df n)) temp_df)
  = columns df ++ filter (fun c => negb (mem c (columns df))) (columns temp_df) /\
  map snd (rows (concat (drop df (matching_index w df n)) temp_df))
  = filter (fun r => negb (scan_is n r)) (map snd (rows df))
    ++ map snd (rows temp_df).
Proof.
  intros Hf Hread Hlog Hn. split; [|split].
  - unfold save_in_csv. rewrite Hf, Hread.
    destruct Hlog as (-> & _). reflexivity.
  - reflexivity.
  - unfold concat at 1. cbn [rows]. rewrite map_app. f_equal.
    rewrite drop_matching_index by apply Hlog. now apply filter_scan_log.
Qed.

Lemma cell_at_set_cell_other (r : row) (c c' : string) (v : cell) :
  c' <> c -> cell_at (set_cell r c v) c' = cell_at r c'.
Proof.
  intros Hne. unfold cell_at. induction r as [|[k x] r IH]; cbn [set_cell assoc].
  - destruct (String.eqb c' c) eqn:E; [|reflexivity].
    apply String.eqb_eq in E. contradiction.
  - destruct (String.eqb c k) eqn:E; cbn [assoc].
    + apply String.eqb_eq in E. subst k.
      destruct (String.eqb c' c) eqn:E'; [|reflexivity].
      apply String.eqb_eq in E'. contradiction.
    + destruct (String.eqb c' k); [reflexivity | exact IH].
Qed.

Lemma set_column_scan_frame (n : Z) (df : DataFrame) (c : string) (v : cell) :
  c <> "scan" -> scan_frame n df -> scan_frame n (set_column df c v).
Proof.
  intros Hne (r & Hr & Hs). exists (set_cell r c v). split.
  - unfold set_column. cbn [rows]. now rewrite Hr.
  - rewrite cell_at_set_cell_other; [exact Hs | congruence].
Qed.

Lemma required_frame_scan_frame (n : Z) (g : h5group) (df : DataFrame) :
  required_frame n g = Ok df -> scan_frame n df.
Proof.
  unfold required_frame. intros H.
  repeat match type of H with
         | match ?x with _ => _ end = _ => destruct x; try discriminate H
         end.
  injection H as <-. eexists. split; reflexivity.
Qed.

Ltac scan_frame_step :=
  first [ assumption
        | apply set_column_scan_frame; [intros E; discriminate E|] ].

Lemma optional_columns_scan_frame {csv_text : Type} (w : meta_world csv_text)
      (n : Z) (g : h5group) (df df' : DataFrame) (t : option h5value) :
  scan_frame n df -> optional_columns w g df = Ok (df', t) -> scan_frame n df'.
Proof.
  intros Hdf. unfold optional_columns. intros H.
  repeat match type of H with
         | match ?x with _ => _ end = _ => destruct x; try discriminate H
         end;
    injection H as <- <-; repeat scan_frame_step.
Qed.

Lemma sixs_columns_scan_frame (n : Z) (data : nxs_data) (df : DataFrame) :
  scan_frame n df -> scan_frame n (fst (sixs_columns data df)).
Proof.
  intros Hdf. unfold sixs_columns.
  repeat match goal with
         | |- context [match first_of ?dd ?a with _ => _ end] =>
             destruct (first_of dd a)
         | |- context [match getattr ?dd ?a with _ => _ end] =>
             destruct (getattr dd a)
         end;
    cbn [fst]; repeat scan_frame_step.
Qed.

Lemma save_in_dataset_scan_frame {csv_text : Type} (w : meta_world csv_text)
      (n : Z) (g : h5group) (df df' : DataFrame) (t : option h5value)
      (ds : Dataset) :
  scan_frame n df ->
  snd (save_in_dataset w g df t ds) = Ok df' -> scan_frame n df'.
Proof.
  intros Hdf. unfold save_in_dataset.
  destruct (mirror_nodes g _ ds) as [ds1 c1].
  destruct (mirror_nodes g _ ds1) as [ds2 c2].
  destruct (py_is _ SIXS_2019_literal).
  - destruct (assoc _ (nxs_files w)) as [data|]; [|discriminate].
    pose proof (sixs_columns_scan_frame n data df Hdf) as Hs.
    destruct (sixs_columns data df) as [df1 [e|]]; cbn [fst] in Hs.
    + destruct e; cbn [snd]; intros H; try discriminate H.
      now injection H as <-.
    + cbn [snd]. intros H. now injection H as <-.
  - cbn [snd]. intros H. now injection H as <-.
Qed.

(** What [extract_metadata] reads from the result file is one row keyed
    by the scan number it was called with. *)
Lemma read_metadata_scan_frame {csv_text : Type} (w : meta_world csv_text)
      (n : Z) (file : string) (ds : option Dataset) (t : DataFrame) :
  snd (read_metadata w n file ds) = Ok t -> scan_frame n t.
Proof.
  unfold read_metadata.
  destruct (assoc file (h5_files w)) as [g|]; [|discriminate].
  destruct (required_frame n g) as [df|] eqn:Er; [|discriminate].
  apply required_frame_scan_frame in Er.
  destruct (optional_columns w g df) as [[df1 tilt]|] eqn:Eo; [|discriminate].
  apply (optional_columns_scan_frame w n) in Eo; [|exact Er].
  destruct ds as [ds|].
  - pose proof (save_in_dataset_scan_frame w n g df1 t tilt ds Eo) as Hs.
    destruct (save_in_dataset w g df1 tilt ds) as [[ds' out] r].
    cbn [snd] in *. exact Hs.
  - cbn [snd]. intros H. now injection H as <-.
Qed.

(** Once the row is read, the call is the block that saves it. *)
Lemma extract_metadata_after_read {csv_text : Type} (w : meta_world csv_text)
      (n : Z) (file : string) (ds : option Dataset) (path : option string)
      (t : DataFrame) :
  snd (read_metadata w n file ds) = Ok t ->
  extract_metadata w n file ds path
  = (fst (fst (save_in_csv w n t path)),
     fst (fst (read_metadata w n file ds)),
     snd (fst (read_metadata w n file ds)) ++ snd (fst (save_in_csv w n t path)),
     snd (save_in_csv w n t path)).
Proof.
  unfold extract_metadata.
  destruct (read_metadata w n file ds) as [[d o] r]. cbn [fst snd].
  intros ->. now destruct (save_in_csv w n t path) as [[w' o2] e].
Qed.

Lemma filter_rejected {B} (f : B -> bool) (l : list B) :
  filter f (filter (fun x => negb (f x)) l) = [].
Proof.
  induction l as [|a l IH]; [reflexivity|].
  cbn [filter]. destruct (f a) eqn:E; cbn [negb]; [exact IH|].
  cbn [filter]. now rewrite E.
Qed.

(** C1, as amended: a log that pandas reads with a [scan] column of
    64-bit integers and distinct row labels, at the first call and again
    at the second; a scan number of 64 bits; two calls of
    [extract_metadata] with that scan number, each reading its result
    file without error.  Both calls rewrite the log (and then end on the
    unbound name [hash_print]).  The log is then written from a frame
    with exactly one row keyed by the scan number, the row of the second
    call, under all the columns of that row. *)
Theorem extract_metadata_twice {csv_text : Type} (w : meta_world csv_text)
        (n : Z) (file1 file2 : string) (ds1 ds2 : option Dataset)
        (path : string) (f : csv_text) (df0 df1 t1 t2 : DataFrame) :
  int64 n = true ->
  assoc path (csv_files w) = Some f ->
  pd_read_csv w f = Ok df0 ->
  scan_log df0 ->
  snd (read_metadata w n file1 ds1) = Ok t1 ->
  snd (read_metadata w n file2 ds2) = Ok t2 ->
  pd_read_csv w (pd_to_csv w (concat (drop df0 (matching_index w df0 n)) t1))
  = Ok df1 ->
  scan_log df1 ->
  exists w1 ds1' out1 w2 ds2' out2 log r2,
    extract_metadata w n file1 ds1 (Some path)
    = (w1, ds1', out1, Some NameError) /\
    extract_metadata w1 n file2 ds2 (Some path)
    = (w2, ds2', out2, Some NameError) /\
    assoc path (csv_files w2) = Some (pd_to_csv w log) /\
    rows t2 = [(0%nat, r2)] /\
    filter (scan_is n) (map snd (rows log)) = [r2] /\
    forall c, In c (columns t2) -> In c (columns log).
Proof.
  intros Hn Hf Hread0 Hlog0 H1 H2 Hread1 Hlog1.
  destruct (read_metadata_scan_frame _ _ _ _ _ H2) as (r2 & Hr2 & Hs2).
  destruct (save_in_csv_upsert w n t1 path f df0 Hf Hread0 Hlog0 Hn)
    as (Esave1 & _ & _).
  set (F1 := concat (drop df0 (matching_index w df0 n)) t1) in *.
  set (w1 := write_csv w path (pd_to_csv w F1)) in *.
  assert (Hf1 : assoc path (csv_files w1) = Some (pd_to_csv w F1)).
  { subst w1. cbn [write_csv csv_files assoc]. now rewrite String.eqb_refl. }
  destruct (save_in_csv_upsert w1 n t2 path _ df1 Hf1 Hread1 Hlog1 Hn)
    as (Esave2 & Hcols2 & Hrows2).
  set (F2 := concat (drop df1 (matching_index w1 df1 n)) t2) in *.
  assert (E1 : extract_metadata w n file1 ds1 (Some path)
               = (w1, fst (fst (read_metadata w n file1 ds1)),
                  snd (fst (read_metadata w n file1 ds1))
                  ++ [MDisplay (head F1)], Some NameError)).
  { rewrite (extract_metadata_after_read w n file1 ds1 (Some path) t1 H1).
    now rewrite Esave1. }
  assert (E2 : extract_metadata w1 n file2 ds2 (Some path)
               = (write_csv w1 path (pd_to_csv w F2),
                  fst (fst (read_metadata w n file2 ds2)),
                  snd (fst (read_metadata w n file2 ds2))
                  ++ [MDisplay (head F2)], Some NameError)).
  { rewrite (extract_metadata_after_read w1 n file2 ds2 (Some path) t2 H2).
    now rewrite Esave2. }
  exists w1. do 2 eexists. exists (write_csv w1 path (pd_to_csv w F2)).
  do 2 eexists. exists F2, r2.
  split; [exact E1|]. split; [exact E2|]. split; [|split; [|split]].
  - cbn [write_csv csv_files assoc]. now rewrite String.eqb_refl.
  - exact Hr2.
  - rewrite Hrows2, filter_app, filter_rejected, Hr2. cbn [map snd filter app].
    unfold scan_is. rewrite Hs2, Z.eqb_refl. reflexivity.
  - intros c Hc. rewrite Hcols2. apply in_or_app.
    destruct (mem c (columns df1)) eqn:E.
    + left. now apply mem_In.
    + right. apply filter_In. split; [exact Hc|]. now rewrite E.
Qed.

Lemma example_log_read : scan_log (frame_of (read_table example_log)).
Proof.
  split; [reflexivity|]. split.
  - cbn. repeat constructor; cbn; intros H;
      repeat (destruct H as [H|H]; [discriminate H|]); exact H.
  - repeat constructor; eexists; split; reflexivity.
Qed.

Lemma example_log_read_again :
  scan_log
    (frame_of
       (read_table
          (to_table
             (concat (drop (frame_of (read_table example_log))
                           (matching_index example_world
                              (frame_of (read_table example_log)) 12))
                     (example_frame 1))))).
Proof.
  split; [reflexivity|]. split.
  - cbn. repeat constructor; cbn; intros H;
      repeat (destruct H as [H|H]; [discriminate H|]); exact H.
  - repeat constructor; eexists; split; reflexivity.
Qed.

Lemma extract_metadata_twice_witness :
  exists w1 ds1' out1 w2 ds2' out2 log r2,
    extract_metadata example_world 12 "first.h5" None (Some "log.csv")
    = (w1, ds1', out1, Some NameError) /\
    extract_metadata w1 12 "second.h5" None (Some "log.csv")
    = (w2, ds2', out2, Some NameError) /\
    assoc "log.csv" (csv_files w2) = Some (to_table log) /\
    rows (example_frame 2) = [(0%nat, r2)] /\
    filter (scan_is 12) (map snd (rows log)) = [r2] /\
    forall c, In c (columns (example_frame 2)) -> In c (columns log).
Proof.
  apply (extract_metadata_twice example_world 12 "first.h5" "second.h5"
           None None "log.csv" example_log
           (frame_of (read_table example_log))
           (frame_of
              (read_table
                 (to_table
                    (concat (drop (frame_of (read_table example_log))
                                  (matching_index example_world
                                     (frame_of (read_table example_log)) 12))
                            (example_frame 1)))))
           (example_frame 1) (example_frame 2)).
  - reflexivity.
  - reflexivity.
  - reflexivity.
  - exact example_log_read.
  - reflexivity.
  - reflexivity.
  - reflexivity.
  - exact example_log_read_again.
Defined.

(** The two calls of the witness, evaluated: the log keeps the row of scan
    11 and holds one row for scan 12, with the values of the second
    result file. *)
Example extract_metadata_twice_example :
  let w1 := fst (fst (fst (extract_metadata example_world 12 "first.h5" None
                             (Some "log.csv")))) in
  let w2 := fst (fst (fst (extract_metadata w1 12 "second.h5" None
                             (Some "log.csv")))) in
  assoc "log.csv" (csv_files w2)
  = Some (CsvTable
            ["scan"; "qx"; "qy"; "qz"; "q_norm"; "d_hkl"; "inplane_angle";
             "out_of_plane_angle"; "bragg_peak"]
            [ [("scan", CInt 11); ("qx", CNum 0); ("qy", CNum 0);
               ("qz", CNum 0); ("q_norm", CNum 0); ("d_hkl", CNum 0);
               ("inplane_angle", CNum 0); ("out_of_plane_angle", CNum 0);
               ("bragg_peak", CTxt "[1 2 3]")];
              snd (hd (0%nat, []) (rows (example_frame 2))) ]).
Proof. vm_compute. reflexivity. Qed.

(** C1 fails as stated for a scan number beyond 64 bits.  The first call
    appends the row of scan [2 ^ 64]; pandas then reads the [scan] column
    as text, no text equals the integer, and the second call appends
    again: the log holds two rows keyed by the scan number. *)
Lemma extract_metadata_twice_beyond_64_bits :
  let n := (2 ^ 64)%Z in
  let w1 := fst (fst (fst (extract_metadata example_world n "first.h5" None
                             (Some "log.csv")))) in
  let w2 := fst (fst (fst (extract_metadata w1 n "second.h5" None
                             (Some "log.csv")))) in
  scan_log (frame_of (read_table example_log)) /\
  exists header records,
    assoc "log.csv" (csv_files w2) = Some (CsvTable header records) /\
    List.length (filter (scan_is n) records) = 2%nat.
Proof.
  split; [exact example_log_read|].
  eexists _, _. split; [vm_compute; reflexivity|]. vm_compute. reflexivity.
Qed.

Lemma mirror_nodes_beamline (g : h5group) (names : list (string * string))
      (ds : Dataset) :
  beamline (fst (mirror_nodes g names ds)) = beamline ds /\
  path_to_nxs_data (fst (mirror_nodes g names ds)) = path_to_nxs_data ds.
Proof.
  revert ds. induction names as [|[a nm] names IH]; intros ds; cbn [mirror_nodes].
  - split; reflexivity.
  - destruct (assoc nm g); [|split; reflexivity].
    destruct (IH (setattr ds a h)) as [-> ->]. split; reflexivity.
Qed.

(** The beamline block runs only for the very string object of the
    constant: a data set whose beamline is any other object leaves the
    frame as it is, whatever its text. *)
Lemma save_in_dataset_not_identical {csv_text : Type}
      (w : meta_world csv_text) (g : h5group)
      (df : DataFrame) (t : option h5value) (ds : Dataset) :
  py_is (beamline ds) SIXS_2019_literal = false ->
  snd (save_in_dataset w g df t ds) = Ok df /\
  snd (fst (save_in_dataset w g df t ds)) = [].
Proof.
  intros Hb. unfold save_in_dataset.
  pose proof (mirror_nodes_beamline g
               [("bragg_peak", "bragg_peak"); ("q", "q"); ("qnorm", "qnorm");
                ("dist_plane", "dist_plane"); ("bragg_inplane", "bragg_inplane");
                ("bragg_outofplane", "bragg_outofplane")] ds) as [Hb1 _].
  destruct (mirror_nodes g _ ds) as [ds1 c1]. cbn [fst] in Hb1.
  pose proof (mirror_nodes_beamline g
               [("tilt_values", "tilt_values"); ("rocking_curve", "rocking_curve");
                ("interp_tilt", "interp_tilt"); ("interp_curve", "interp_curve");
                ("detector_data_COM", "detector_data_COM");
                ("COM_rocking_curve", "COM_rocking_curve");
                ("interp_fwhm", "interp_fwhm")] ds1) as [Hb2 _].
  destruct (mirror_nodes g _ ds1) as [ds2 c2]. cbn [fst] in Hb2.
  replace (py_is (beamline _) SIXS_2019_literal) with false.
  - split; reflexivity.
  - rewrite <- Hb, <- Hb1, <- Hb2. destruct c2, t; reflexivity.
Qed.

(** C9, the code at the failing input: for a data set whose beamline
    equals ["SIXS_2019"] as a string but is not the interned object,
    [extract_metadata] reads the row without the motor columns and writes
    the log without them, although the beamline reader would deliver them
    (as it does for the interned object). *)
Lemma extract_metadata_equal_text_skips_sixs :
  py_eq (beamline dataset_equal_text) SIXS_2019_literal = true /\
  py_is (beamline dataset_equal_text) SIXS_2019_literal = false /\
  snd (read_metadata example_world 12 "first.h5" (Some dataset_equal_text))
  = Ok (example_frame 1) /\
  option_map (fun t => mem "x" (columns t) && mem "steps" (columns t))
    (match snd (read_metadata example_world 12 "first.h5"
                  (Some dataset_interned)) with
     | Ok t => Some t
     | Raise _ => None
     end) = Some true /\
  option_map (fun f => match f with
                       | CsvTable header _ => mem "x" header
                       | CsvEmpty => false
                       end)
    (assoc "log.csv"
       (csv_files
          (fst (fst (fst (extract_metadata example_world 12 "first.h5"
                            (Some dataset_equal_text) (Some "log.csv")))))))
  = Some false.
Proof. repeat split. Qed.


Example extract_metadata_sixs_missing_motor :
  let r := read_metadata example_world 12 "first.h5" (Some dataset_partial) in
  snd (fst r) = [MPrint msg_sixs] /\
  option_map (fun t => mem "x" (columns t))
    (match snd r with Ok t => Some t | Raise _ => None end) = Some false.
Proof. repeat split. Qed.

(** ** The config writer *)

Lemma path_eqb_eq (a b : fs_path) : path_eqb a b = true <-> a = b.
Proof.
  revert b. induction a as [|x a IH]; intros [|y b]; cbn [path_eqb];
    try (split; [discriminate | congruence]); [tauto|].
  rewrite andb_true_iff, String.eqb_eq, IH. split.
  - intros [-> ->]. reflexivity.
  - intros E. injection E as -> ->. auto.
Qed.

Lemma path_eqb_refl (a : fs_path) : path_eqb a a = true.
Proof. now apply path_eqb_eq. Qed.

Lemma fs_lookup_add (fs : filesystem) (p q : fs_path) (n : fs_node) :
  p <> [] ->
  fs_lookup (fs_add fs p n) q
  = if path_eqb q p then Some n else fs_lookup fs q.
Proof.
  intros Hp. destruct q as [|x q].
  - destruct p; [contradiction|reflexivity].
  - cbn [fs_lookup fs_add fs_nodes find_node]. reflexivity.
Qed.

Lemma app_single_not_nil {B} (l : list B) (x : B) : l ++ [x] <> [].
Proof. destruct l; discriminate. Qed.

(** A successful [os.mkdir] creates no regular file and touches none. *)
Lemma os_mkdir_file_at (fs fs' : filesystem) (p : list ascii) (q : fs_path) :
  os_mkdir fs p = Ok fs' -> file_at fs' q = file_at fs q.
Proof.
  unfold os_mkdir. destruct p as [|c p]; [discriminate|].
  destruct (rev (components (c :: p))) as [|name dirs]; [discriminate|].
  destruct (walk fs _ (rev dirs)) as [parent|]; [|discriminate].
  destruct (is_dot name); [discriminate|].
  destruct (fs_lookup fs (parent ++ [name])) eqn:El; [discriminate|].
  destruct (existsb _ _); [discriminate|].
  intros H. injection H as <-. unfold file_at.
  rewrite fs_lookup_add by apply app_single_not_nil.
  destruct (path_eqb q (parent ++ [name])) eqn:E; [|reflexivity].
  apply path_eqb_eq in E. subst q. now rewrite El.
Qed.

Lemma walk_raises (fs : filesystem) (cur : fs_path) (names : list string)
      (e : exn) :
  walk fs cur names = Raise e ->
  e = FileNotFoundError \/ e = NotADirectoryError.
Proof.
  revert cur. induction names as [|c r IH]; intros cur; cbn [walk].
  - discriminate.
  - destruct (String.eqb c "."); [apply IH|].
    destruct (String.eqb c ".."); [apply IH|].
    destruct (fs_lookup fs (cur ++ [c])) as [[|content]|].
    + apply IH.
    + intros H. injection H as <-. now right.
    + intros H. injection H as <-. now left.
Qed.

Lemma os_mkdir_raises (fs : filesystem) (p : list ascii) (e : exn) :
  os_mkdir fs p = Raise e ->
  e = FileNotFoundError \/ e = NotADirectoryError \/
  e = FileExistsError \/ e = PermissionError.
Proof.
  unfold os_mkdir. destruct p as [|c p].
  - intros H. injection H as <-. auto.
  - destruct (rev (components (c :: p))) as [|name dirs].
    + intros H. injection H as <-. auto.
    + destruct (walk fs _ (rev dirs)) as [parent|e'] eqn:Ew.
      * destruct (is_dot name); [intros H; injection H as <-; auto|].
        destruct (fs_lookup fs (parent ++ [name]));
          [intros H; injection H as <-; auto|].
        destruct (existsb _ _); [intros H; injection H as <-; auto|].
        discriminate.
      * intros H. injection H as <-.
        destruct (walk_raises _ _ _ _ Ew) as [->| ->]; auto.
Qed.

(** The directory loop creates directories only, and what it lets out is
    an error of the path walk. *)
Lemma mkdir_loop_spec (ds : list (list ascii)) (fs : filesystem)
      (full_path : list ascii) :
  (forall q, file_at (fst (mkdir_loop fs full_path ds)) q = file_at fs q) /\
  (forall e, snd (mkdir_loop fs full_path ds) = Some e ->
             e = FileNotFoundError \/ e = NotADirectoryError).
Proof.
  revert fs full_path. induction ds as [|dd r IH]; intros fs full_path;
    cbn [mkdir_loop].
  - split; [reflexivity | discriminate].
  - destruct (os_mkdir fs (full_path ++ dd ++ ["/"%char])) as [fs'|e'] eqn:Em.
    + destruct (IH fs' (full_path ++ dd ++ ["/"%char])) as [Hf He].
      split; [|exact He].
      intros q. rewrite Hf. eapply os_mkdir_file_at; eassumption.
    + destruct (os_mkdir_raises _ _ _ Em) as [->|[->|[->| ->]]].
      * split; [reflexivity|]. cbn [snd]. intros e H. injection H as <-. auto.
      * split; [reflexivity|]. cbn [snd]. intros e H. injection H as <-. auto.
      * apply IH.
      * apply IH.
Qed.

Lemma make_directories_spec (fs : filesystem) (directory : list ascii) :
  (forall q, file_at (fst (make_directories fs directory)) q = file_at fs q) /\
  (forall e, snd (make_directories fs directory) = Some e ->
             e = FileNotFoundError \/ e = NotADirectoryError).
Proof.
  unfold make_directories. destruct (os_path_isdir fs directory).
  - split; [reflexivity | discriminate].
  - apply mkdir_loop_spec.
Qed.

Lemma list_of_array_raises (a : ndarray Z) (e : exn) :
  list_of_array a = Raise e -> e = TypeError.
Proof.
  unfold list_of_array. destruct (shape a) as [|n [|m rest]];
    try discriminate. intros H. now injection H as <-.
Qed.

Lemma config_lines_raises (kwargs : list (string * param)) (e : exn) :
  config_lines kwargs = Raise e -> e = TypeError.
Proof.
  induction kwargs as [|[k v] r IH]; cbn [config_lines]; [discriminate|].
  destruct (config_line k v) as [line|e'] eqn:El.
  - destruct (config_lines r); [discriminate|].
    intros H. injection H as <-. now apply IH.
  - intros H. injection H as <-.
    destruct v as [v|a|items].
    + destruct v as [s|z|x|b| |l|l]; cbn [config_line] in El;
        try discriminate El; destruct l; discriminate El.
    + cbn [config_line] in El.
      destruct (list_of_array a) eqn:Ea; [discriminate El|].
      injection El as <-. now apply list_of_array_raises in Ea.
    + discriminate El.
Qed.

(** For every destination path that ends neither in [.yaml] nor in
    [.yml], [create_yaml_file] fails and leaves every regular file as it
    was (no config file is written).  The exception is [NameError], from
    the unbound name [FileError], whenever the parameters were formatted
    and the directories created without an exception leaving; otherwise
    it is that earlier exception: [TypeError] of a 0-d array parameter,
    or [FileNotFoundError] / [NotADirectoryError] of [os.mkdir], which
    the directory loop does not pass over. *)
Lemma create_yaml_file_wrong_suffix (fs : filesystem) (fname : string)
      (kwargs : list (string * param)) :
  endswith fname ".yaml" = false ->
  endswith fname ".yml" = false ->
  exists e,
    snd (create_yaml_file fs fname kwargs) = Raise e /\
    (forall q, file_at (fst (create_yaml_file fs fname kwargs)) q
               = file_at fs q) /\
    (e = NameError \/ e = TypeError \/
     e = FileNotFoundError \/ e = NotADirectoryError) /\
    ((exists lines, config_lines kwargs = Ok lines) ->
     snd (make_directories fs (directory_of fname)) = None ->
     e = NameError).
Proof.
  intros Hyaml Hyml. unfold create_yaml_file.
  destruct (config_lines kwargs) as [lines|e] eqn:El.
  - destruct (make_directories_spec fs (directory_of fname)) as [Hf He].
    destruct (make_directories fs (directory_of fname)) as [fs1 [e|]].
    + exists e. cbn [fst snd] in *. split; [reflexivity|]. split; [exact Hf|].
      split.
      * destruct (He e eq_refl) as [->| ->]; auto.
      * intros _ H. discriminate H.
    + rewrite Hyaml, Hyml. cbn [orb fst snd] in *.
      exists NameError. repeat split; auto.
  - exists e. cbn [fst snd]. split; [reflexivity|]. split; [reflexivity|].
    split.
    + apply config_lines_raises in El. auto.
    + intros [lines H]. discriminate H.
Qed.

(** C4, the code at the failing input: the destination [out/config.txt]
    ends neither in [.yaml] nor in [.yml]; the parameter is formatted and
    the directory [out/] created, and the statement
    [raise FileError(...)] then raises [NameError], not a dedicated
    error: the name [FileError] is bound nowhere.  No regular file is
    written. *)
Theorem create_yaml_file_txt_raises_NameError :
  endswith "out/config.txt" ".yaml" = false /\
  endswith "out/config.txt" ".yml" = false /\
  config_lines [("scan", Val (PInt 1))] = Ok [chars "scan: 1"] /\
  snd (make_directories example_fs (directory_of "out/config.txt")) = None /\
  snd (create_yaml_file example_fs "out/config.txt" [("scan", Val (PInt 1))])
  = Raise NameError /\
  forall q,
    file_at (fst (create_yaml_file example_fs "out/config.txt"
                    [("scan", Val (PInt 1))])) q
    = file_at example_fs q.
Proof.
  split; [reflexivity|]. split; [reflexivity|]. split; [reflexivity|].
  split; [reflexivity|]. split; [reflexivity|].
  destruct (create_yaml_file_wrong_suffix example_fs "out/config.txt"
              [("scan", Val (PInt 1))] eq_refl eq_refl) as (e & _ & Hf & _).
  exact Hf.
Qed.

(** The suffix is tested last: where [a] is a regular file, the
    destination [a/c/b.txt] makes [os.mkdir("a/c/")] raise
    [NotADirectoryError] before the test is reached. *)
Example create_yaml_file_mkdir_error_first :
  endswith "a/c/b.txt" ".yaml" = false /\
  endswith "a/c/b.txt" ".yml" = false /\
  string_of_list_ascii (directory_of "a/c/b.txt") = "a/c/" /\
  snd (create_yaml_file example_fs "a/c/b.txt" [("scan", Val (PInt 1))])
  = Raise NotADirectoryError.
Proof. repeat split. Qed.

Lemma flat_map_singleton {B C} (f : B -> C) (l : list B) :
  flat_map (fun x => [f x]) l = map f l.
Proof. induction l as [|a l IH]; [reflexivity|]. cbn. now rewrite IH. Qed.

(** Each line is formatted by the type of its value; only an array
    without axes has no line. *)
Lemma config_line_formatted (k : string) (v : param) :
  match config_line k v with
  | Ok line => formatted k v line
  | Raise e => e = TypeError /\ exists a, v = Arr a /\ shape a = []
  end.
Proof.
  destruct v as [v|a|items].
  - destruct v as [s|z|x|b| |l|l]; cbn [config_line].
    + constructor.
    + constructor.
    + constructor.
    + destruct b; cbn [py_str py_repr]; [apply (fmt_bool k true)
                                       | apply (fmt_bool k false)].
    + constructor.
    + destruct l as [|x l]; [constructor|].
      apply fmt_list. discriminate.
    + destruct l as [|x l]; constructor; [constructor|].
      apply fmt_list. discriminate.
  - cbn [config_line]. unfold list_of_array.
    destruct (shape a) as [|n [|m rest]] eqn:Es.
    + split; [reflexivity|]. now exists a.
    + replace (map (fun i => str_int (item a [i])) (seq 0 n))
        with (map str_int (array_items (shape a) (item a))).
      * now apply (fmt_array_1d k a n).
      * rewrite Es. cbn [array_items]. rewrite flat_map_singleton.
        now rewrite map_map.
    + now apply fmt_array_nd.
  - constructor.
Qed.





(** The file of the witness, evaluated. *)
Example create_yaml_file_text :
  option_map string_of_list_ascii
    (file_at (fst (create_yaml_file example_fs "config.yml"
                     [("sample_name", Val (PStr "Pt")); ("roi", Arr example_1d);
                      ("fix_size", Val (PList []));
                      ("binning", Val (PTuple [PInt 1; PInt 2]))]))
             ["home"; "config.yml"])
  = Some (string_of_list_ascii
            (chars "sample_name: " ++ dquote :: chars "Pt" ++ dquote
               :: newline
               :: chars "roi: [5, 6, 7]" ++ newline
               :: chars "fix_size: None" ++ newline
               :: chars "binning: [1, 2]" ++ [newline])).
Proof. reflexivity. Qed.


(** *** Reading back what was written *)

Lemma pyval_induction (P : pyval -> Prop) :
  (forall s, P (PStr s)) ->
  (forall z, P (PInt z)) ->
  (forall x, P (PFloat x)) ->
  (forall b, P (PBool b)) ->
  P PNone ->
  (forall l, Forall P l -> P (PList l)) ->
  (forall l, Forall P l -> P (PTuple l)) ->
  forall v, P v.
Proof.
  intros Hs Hz Hx Hb Hn Hl Ht.
  refine (fix rec (v : pyval) : P v :=
            match v with
            | PStr s => Hs s
            | PInt z => Hz z
            | PFloat x => Hx x
            | PBool b => Hb b
            | PNone => Hn
            | PList l =>
                Hl l ((fix go (l : list pyval) : Forall P l :=
                         match l with
                         | [] => Forall_nil P
                         | x :: r => Forall_cons x (rec x) (go r)
                         end) l)
            | PTuple l =>
                Ht l ((fix go (l : list pyval) : Forall P l :=
                         match l with
                         | [] => Forall_nil P
                         | x :: r => Forall_cons x (rec x) (go r)
                         end) l)
            end).
Qed.

Lemma string_of_chars (s : string) : string_of_list_ascii (chars s) = s.
Proof. apply string_of_list_ascii_of_string. Qed.

Lemma uint_chars_digits (u : Decimal.uint) :
  forallb is_digit (chars (NilEmpty.string_of_uint u)) = true.
Proof. induction u; cbn; auto. Qed.

Lemma span_digits_app (ds rest : list ascii) :
  forallb is_digit ds = true -> no_digit_head rest ->
  span_digits (ds ++ rest) = (ds, rest).
Proof.
  intros Hd Hr. induction ds as [|c ds IH]; cbn [app span_digits].
  - destruct rest as [|c r]; [reflexivity|]. cbn in Hr. cbn [span_digits].
    now rewrite Hr.
  - cbn [forallb] in Hd. apply andb_prop in Hd as [Hc Hd].
    rewrite Hc, (IH Hd). reflexivity.
Qed.

Lemma uint_chars_nonempty (u : Decimal.uint) :
  u <> Decimal.Nil -> chars (NilEmpty.string_of_uint u) <> [].
Proof. destruct u; cbn; congruence. Qed.

Lemma read_uint_written (u : Decimal.uint) (rest : list ascii) :
  u <> Decimal.Nil -> no_digit_head rest ->
  read_uint (chars (NilEmpty.string_of_uint u) ++ rest) = Some (u, rest).
Proof.
  intros Hu Hr. unfold read_uint.
  rewrite (span_digits_app _ rest (uint_chars_digits u) Hr).
  destruct (chars (NilEmpty.string_of_uint u)) as [|c ds] eqn:E.
  - now apply uint_chars_nonempty in E.
  - rewrite <- E, string_of_chars, NilEmpty.usu. reflexivity.
Qed.

Lemma digit_not_minus (c : ascii) :
  is_digit c = true -> Ascii.eqb c "-"%char = false.
Proof.
  intros H. destruct (Ascii.eqb c "-"%char) eqn:E; [|reflexivity].
  apply Ascii.eqb_eq in E. subst c. discriminate H.
Qed.

Lemma nilzero_nonnil (u : Decimal.uint) :
  u <> Decimal.Nil ->
  NilZero.string_of_uint u = NilEmpty.string_of_uint u.
Proof. destruct u; [congruence | reflexivity ..]. Qed.

(** The decimal text of an integer, read back. *)
Lemma read_int_written (z : Z) (rest : list ascii) :
  no_digit_head rest -> read_int (str_int z ++ rest) = Some (z, rest).
Proof.
  intros Hr. unfold str_int.
  assert (Hpos : forall u, u <> Decimal.Nil ->
            read_int (chars (NilEmpty.string_of_uint u) ++ rest)
            = Some (Z.of_int (Decimal.Pos u), rest)).
  { intros u Hu. pose proof (read_uint_written u rest Hu Hr) as Hru.
    pose proof (uint_chars_digits u) as Hd.
    destruct (chars (NilEmpty.string_of_uint u)) as [|c ds] eqn:E.
    - now apply uint_chars_nonempty in E.
    - cbn [app read_int]. cbn [forallb] in Hd.
      apply andb_prop in Hd as [Hc _].
      rewrite (digit_not_minus c Hc). cbn [app] in Hru. now rewrite Hru. }
  rewrite <- (DecimalZ.of_to z) at 2.
  destruct z as [|p|p]; cbn [Z.to_int NilZero.string_of_int].
  - apply (Hpos (Decimal.D0 Decimal.Nil)). discriminate.
  - rewrite nilzero_nonnil by apply Unsigned.to_uint_nonnil.
    apply Hpos. apply Unsigned.to_uint_nonnil.
  - rewrite nilzero_nonnil by apply Unsigned.to_uint_nonnil.
    change (chars (String "-" (NilEmpty.string_of_uint (Pos.to_uint p)))
            ++ rest)
      with ("-"%char
              :: (chars (NilEmpty.string_of_uint (Pos.to_uint p)) ++ rest)).
    cbn [read_int]. rewrite Ascii.eqb_refl.
    now rewrite (read_uint_written _ rest (Unsigned.to_uint_nonnil p) Hr).
Qed.

(** **** Floats *)

Lemma lstrip_zeros (k : nat) (s : list ascii) :
  lstrip ["0"%char] (repeat "0"%char k ++ s) = lstrip ["0"%char] s.
Proof. induction k as [|k IH]; [reflexivity|]. cbn [repeat app lstrip]. exact IH. Qed.

Lemma lstrip_head (c : ascii) (r : list ascii) :
  Ascii.eqb c "0"%char = false -> lstrip ["0"%char] (c :: r) = c :: r.
Proof. intros H. cbn [lstrip existsb]. now rewrite H. Qed.

Lemma rev_zeros (k : nat) : rev (repeat "0"%char k) = repeat "0"%char k.
Proof.
  induction k as [|k IH]; [reflexivity|].
  cbn [repeat rev]. rewrite IH. symmetry. apply repeat_cons.
Qed.

(** Digits that end on a digit other than 0 lose nothing at the right. *)
Lemma rstrip_digits (c : ascii) (r : list ascii) (k : nat) :
  Ascii.eqb (last r c) "0"%char = false ->
  rev (lstrip ["0"%char] (rev ((c :: r) ++ repeat "0"%char k))) = c :: r.
Proof.
  intros Hl. rewrite rev_app_distr, rev_zeros, lstrip_zeros.
  assert (Hs : exists s' l, c :: r = s' ++ [l] /\ last r c = l).
  { destruct (exists_last (l := c :: r)) as (s' & l & E); [discriminate|].
    exists s', l. split; [exact E|].
    assert (H : last (c :: r) c = l) by (rewrite E; apply last_last).
    destruct r as [|b r]; [exact H|]. exact H. }
  destruct Hs as (s' & l & E & El). rewrite E, rev_app_distr.
  cbn [rev app]. rewrite El in Hl. rewrite (lstrip_head l _ Hl).
  cbn [rev]. now rewrite rev_involutive.
Qed.

(** The float of digits whose zeros are at the ends only. *)
Lemma make_float_digits (neg : bool) (ip fp : list ascii) (e : Z)
      (c : ascii) (r : list ascii) (k1 k2 : nat) :
  ip ++ fp = repeat "0"%char k1 ++ (c :: r) ++ repeat "0"%char k2 ->
  Ascii.eqb c "0"%char = false ->
  Ascii.eqb (last r c) "0"%char = false ->
  make_float neg ip fp e
  = FFinite neg (string_of_list_ascii (c :: r))
            (Z.of_nat (List.length ip) + e - Z.of_nat k1).
Proof.
  intros E Hc Hl. unfold make_float. rewrite E, lstrip_zeros.
  change ((c :: r) ++ repeat "0"%char k2) with (c :: (r ++ repeat "0"%char k2)).
  rewrite (lstrip_head c _ Hc).
  change (c :: (r ++ repeat "0"%char k2)) with ((c :: r) ++ repeat "0"%char k2).
  rewrite (rstrip_digits c r k2 Hl).
  f_equal. f_equal. f_equal.
  rewrite !length_app, repeat_length. lia.
Qed.

Lemma make_float_zero (neg : bool) (ip fp : list ascii) (e : Z) (k : nat) :
  ip ++ fp = repeat "0"%char k -> make_float neg ip fp e = FFinite neg "0" 1.
Proof.
  intros E. unfold make_float. rewrite E.
  rewrite <- (app_nil_r (repeat "0"%char k)), lstrip_zeros. reflexivity.
Qed.

Lemma str_int_nonneg (a : Z) :
  (0 <= a)%Z ->
  exists u, u <> Decimal.Nil /\
            str_int a = chars (NilEmpty.string_of_uint u) /\ Z.of_uint u = a.
Proof.
  intros Ha. destruct a as [|p|p]; [| |lia].
  - exists (Decimal.D0 Decimal.Nil). repeat split. discriminate.
  - exists (Pos.to_uint p). split; [apply Unsigned.to_uint_nonnil|]. split.
    + unfold str_int. cbn [Z.to_int NilZero.string_of_int].
      now rewrite nilzero_nonnil by apply Unsigned.to_uint_nonnil.
    + exact (DecimalZ.of_to (Zpos p)).
Qed.

Lemma read_exponent_written (e : Z) (rest : list ascii) :
  no_digit_head rest ->
  read_exponent ("e"%char :: exponent_text e ++ rest) = Some (e, rest).
Proof.
  intros Hr. unfold exponent_text.
  destruct (str_int_nonneg (Z.abs e) (Z.abs_nonneg e)) as (u & Hu & Es & Ev).
  assert (Hpad : exists u', u' <> Decimal.Nil /\
             (if (Z.abs e <? 10)%Z then ["0"%char] else []) ++ str_int (Z.abs e)
             = chars (NilEmpty.string_of_uint u') /\ Z.of_uint u' = Z.abs e).
  { destruct (Z.abs e <? 10)%Z.
    - exists (Decimal.D0 u). split; [discriminate|]. split.
      + rewrite Es. reflexivity.
      + exact Ev.
    - exists u. auto. }
  destruct Hpad as (u' & Hu' & Et & Ev').
  cbn [read_exponent app]. change (Ascii.eqb "e"%char "e"%char) with true.
  cbn [orb]. rewrite Et.
  destruct (e <? 0)%Z eqn:Eneg.
  - change (Ascii.eqb "-"%char "-"%char) with true. cbn iota.
    rewrite (read_uint_written u' rest Hu' Hr). rewrite Ev'.
    apply Z.ltb_lt in Eneg. do 2 f_equal. lia.
  - change (Ascii.eqb "+"%char "-"%char) with false.
    change (Ascii.eqb "+"%char "+"%char) with true. cbn iota.
    rewrite (read_uint_written u' rest Hu' Hr). rewrite Ev'.
    apply Z.ltb_ge in Eneg. do 2 f_equal. lia.
Qed.

Lemma number_end_no_digit (rest : list ascii) :
  number_end rest -> no_digit_head rest.
Proof. destruct rest as [|c r]; [auto|]. intros H. apply H. Qed.

Lemma read_exponent_end (rest : list ascii) :
  number_end rest -> read_exponent rest = None.
Proof.
  destruct rest as [|c r]; [reflexivity|]. intros (_ & _ & He & HE).
  cbn [read_exponent]. now rewrite He, HE.
Qed.

Lemma zeros_digits (k : nat) : forallb is_digit (repeat "0"%char k) = true.
Proof. induction k as [|k IH]; [reflexivity|]. cbn [repeat forallb]. now rewrite IH. Qed.

Lemma span_digits_stop (ds : list ascii) (c : ascii) (rest : list ascii) :
  forallb is_digit ds = true -> is_digit c = false ->
  span_digits (ds ++ c :: rest) = (ds, c :: rest).
Proof. intros Hd Hc. apply span_digits_app; [exact Hd | exact Hc]. Qed.

Lemma forallb_firstn {B} (f : B -> bool) (n : nat) (l : list B) :
  forallb f l = true -> forallb f (firstn n l) = true.
Proof.
  revert n. induction l as [|a l IH]; intros n H; destruct n; try reflexivity.
  cbn [firstn forallb] in *. apply andb_prop in H as [-> H]. now apply IH.
Qed.

Lemma forallb_skipn {B} (f : B -> bool) (n : nat) (l : list B) :
  forallb f l = true -> forallb f (skipn n l) = true.
Proof.
  revert n. induction l as [|a l IH]; intros n H; destruct n; try exact H.
  cbn [skipn]. cbn [forallb] in H. apply andb_prop in H as [_ H]. now apply IH.
Qed.

(** The digits of a float, read after the sign. *)
Lemma read_float_body (neg : bool) (ds : string) (decpt : Z)
      (rest : list ascii) :
  finite_float (FFinite neg ds decpt) = true ->
  number_end rest ->
  read_mantissa neg (repr_float (FFinite false ds decpt) ++ rest)
  = Some (FFinite neg ds decpt, rest) /\
  exists c t, repr_float (FFinite false ds decpt) = c :: t /\ is_digit c = true.
Proof.
  intros Hok Hend. pose proof (number_end_no_digit rest Hend) as Hnd.
  pose proof (read_exponent_end rest Hend) as Hexp.
  cbn [finite_float] in Hok. cbn [repr_float app].
  pose proof (string_of_chars ds) as Hds.
  destruct (chars ds) as [|c r] eqn:Es; [discriminate|].
  apply andb_prop in Hok as [Hdig Hform].
  assert (Hc : is_digit c = true)
    by (cbn [forallb] in Hdig; now apply andb_prop in Hdig as [? _]).
  assert (Hcm : Ascii.eqb c "-"%char = false) by now apply digit_not_minus.
  destruct ((-4 <? decpt) && (decpt <=? 16))%Z eqn:Efix.
  - apply andb_prop in Efix as [Hlo Hhi].
    apply Z.ltb_lt in Hlo. apply Z.leb_le in Hhi.
    destruct (decpt <=? 0)%Z eqn:E0.
    + (* 0.000ddd *)
      apply Z.leb_le in E0. split; [|exists "0"%char; eexists; split; reflexivity].
      destruct (Ascii.eqb c "0"%char) eqn:Ez.
      { destruct r; [|discriminate]. apply Z.eqb_eq in Hform. lia. }
      apply negb_true_iff in Hform.
      change (chars "0." ++ zeros (- decpt) ++ c :: r)
        with ("0"%char :: "."%char :: (zeros (- decpt) ++ c :: r)).
      cbn [app]. unfold read_mantissa.
      change (span_digits ("0"%char :: "."%char :: (zeros (- decpt) ++ c :: r) ++ rest))
        with (let '(ds0, rest0) :=
                span_digits ("."%char :: (zeros (- decpt) ++ c :: r) ++ rest) in
              ("0"%char :: ds0, rest0)).
      cbn [span_digits]. change (is_digit "."%char) with false. cbn iota.
      change (Ascii.eqb "."%char "."%char) with true. cbn iota.
      rewrite (span_digits_app (zeros (- decpt) ++ c :: r) rest).
      * rewrite Hexp.
        rewrite (make_float_digits neg ["0"%char] (zeros (- decpt) ++ c :: r) 0
                   c r (S (Z.to_nat (- decpt))) 0 ); [| |exact Ez|exact Hform].
        -- rewrite Hds. do 3 f_equal. cbn [List.length]. lia.
        -- cbn [app repeat]. unfold zeros. now rewrite app_nil_r.
      * rewrite forallb_app. unfold zeros. now rewrite zeros_digits.
      * exact Hnd.
    + apply Z.leb_gt in E0.
      destruct (Z.of_nat (List.length (c :: r)) <=? decpt)%Z eqn:En.
      * (* ddd000.0 *)
        apply Z.leb_le in En. split; [|exists c; eexists; split; [reflexivity|exact Hc]].
        rewrite <- !app_assoc.
        change (chars ".0" ++ rest) with ("."%char :: "0"%char :: rest).
        rewrite app_assoc. unfold read_mantissa.
        cbn [app].
        change (c :: (r ++ zeros (decpt - Z.of_nat (List.length (c :: r))))
                  ++ "."%char :: "0"%char :: rest)
          with (((c :: r) ++ zeros (decpt - Z.of_nat (List.length (c :: r))))
                  ++ "."%char :: "0"%char :: rest).
        rewrite span_digits_stop;
          [|rewrite forallb_app; unfold zeros; now rewrite Hdig, zeros_digits
           |reflexivity].
        change ((c :: r) ++ zeros (decpt - Z.of_nat (List.length (c :: r))))
          with (c :: (r ++ zeros (decpt - Z.of_nat (List.length (c :: r))))).
        cbn iota. change (Ascii.eqb "."%char "."%char) with true. cbn iota.
        change ("0"%char :: rest) with (["0"%char] ++ rest).
        rewrite (span_digits_app ["0"%char] rest eq_refl Hnd). rewrite Hexp.
        change (c :: (r ++ zeros (decpt - Z.of_nat (List.length (c :: r)))))
          with ((c :: r) ++ zeros (decpt - Z.of_nat (List.length (c :: r)))).
        destruct (Ascii.eqb c "0"%char) eqn:Ez.
        -- destruct r; [|discriminate]. apply Z.eqb_eq in Hform. subst decpt.
           apply Ascii.eqb_eq in Ez. subst c.
           rewrite (make_float_zero neg _ _ 0 2) by reflexivity.
           rewrite <- Hds. reflexivity.
        -- apply negb_true_iff in Hform.
           rewrite (make_float_digits neg _ ["0"%char] 0 c r 0
                      (S (Z.to_nat (decpt - Z.of_nat (List.length (c :: r))))));
             [| |exact Ez|exact Hform].
           ++ rewrite Hds. do 3 f_equal.
              rewrite length_app. unfold zeros. rewrite repeat_length. lia.
           ++ cbn [repeat app]. rewrite <- app_assoc. unfold zeros.
              f_equal. f_equal. symmetry. apply (repeat_cons _ "0"%char).
      * (* dd.ddd *)
        apply Z.leb_gt in En.
        assert (Hr : r <> []) by (intros ->; cbn in En; lia).
        destruct (Ascii.eqb c "0"%char) eqn:Ez; [destruct r; [congruence|discriminate]|].
        apply negb_true_iff in Hform.
        assert (Hk : exists k, Z.to_nat decpt = S k) by (exists (Z.to_nat decpt - 1)%nat; lia).
        destruct Hk as [k Hk]. rewrite Hk.
        split; [|exists c; eexists; split; [reflexivity|exact Hc]].
        rewrite <- app_assoc. unfold read_mantissa.
        cbn [firstn app].
        assert (Hdr : forallb is_digit r = true)
          by (cbn [forallb] in Hdig; now apply andb_prop in Hdig as [_ ?]).
        assert (Esp : span_digits
                        (c :: firstn k r
                           ++ "."%char :: skipn (S k) (c :: r) ++ rest)
                      = (c :: firstn k r, "."%char :: skipn k r ++ rest)).
        { apply (span_digits_stop (c :: firstn k r) "."%char (skipn k r ++ rest));
            [|reflexivity].
          cbn [forallb]. rewrite Hc. now apply forallb_firstn. }
        rewrite Esp. cbn iota.
        change (Ascii.eqb "."%char "."%char) with true. cbn iota.
        rewrite (span_digits_app (skipn k r) rest (forallb_skipn _ _ _ Hdr) Hnd).
        rewrite Hexp.
        rewrite (make_float_digits neg _ _ 0 c r 0 0);
          [| |exact Ez|exact Hform].
        -- rewrite Hds. do 3 f_equal.
           cbn [List.length]. rewrite length_firstn.
           cbn [List.length] in En. lia.
        -- cbn [repeat app]. rewrite app_nil_r.
           now rewrite firstn_skipn.
  - (* d.ddde+XX *)
    split; [|exists c; eexists; split; [reflexivity|exact Hc]].
    assert (Hz : Ascii.eqb c "0"%char = false).
    { destruct (Ascii.eqb c "0"%char) eqn:Ez; [|reflexivity].
      destruct r; [|discriminate]. apply Z.eqb_eq in Hform. subst decpt.
      discriminate Efix. }
    rewrite Hz in Hform. apply negb_true_iff in Hform.
    unfold read_mantissa. cbn [app].
    destruct r as [|b r].
    + cbn [app]. change (c :: "e"%char :: exponent_text (decpt - 1) ++ rest)
        with ([c] ++ "e"%char :: exponent_text (decpt - 1) ++ rest).
      rewrite span_digits_stop; [|cbn; now rewrite Hc|reflexivity].
      cbn iota. change (Ascii.eqb "e"%char "."%char) with false. cbn iota.
      rewrite (read_exponent_written _ rest Hnd).
      rewrite (make_float_digits neg [c] [] (decpt - 1) c [] 0 0);
        [| reflexivity | exact Hz | exact Hform].
      rewrite Hds. do 3 f_equal. cbn [List.length]. lia.
    + rewrite <- app_assoc.
      change (c :: ("."%char :: b :: r) ++ ("e"%char :: exponent_text (decpt - 1)) ++ rest)
        with ([c] ++ "."%char :: ((b :: r) ++ "e"%char :: exponent_text (decpt - 1) ++ rest)).
      rewrite span_digits_stop; [|cbn; now rewrite Hc|reflexivity].
      cbn iota. change (Ascii.eqb "."%char "."%char) with true. cbn iota.
      rewrite span_digits_stop; [| |reflexivity].
      * rewrite (read_exponent_written _ rest Hnd).
        rewrite (make_float_digits neg [c] (b :: r) (decpt - 1) c (b :: r) 0 0);
          [| |exact Hz|exact Hform].
        -- rewrite Hds. do 3 f_equal. cbn [List.length]. lia.
        -- cbn [repeat app]. now rewrite app_nil_r.
      * cbn [forallb] in Hdig. now apply andb_prop in Hdig as [_ ?].
Qed.

(** [repr(x)] of a finite float, read back. *)
Lemma read_float_written (x : pyfloat) (rest : list ascii) :
  finite_float x = true -> number_end rest ->
  read_float (repr_float x ++ rest) = Some (x, rest).
Proof.
  intros Hok Hend. destruct x as [neg ds decpt| |]; try discriminate Hok.
  destruct (read_float_body neg ds decpt rest Hok Hend) as (Hb & c & t & E & Hc).
  destruct neg.
  - change (repr_float (FFinite true ds decpt))
      with ("-"%char :: repr_float (FFinite false ds decpt)).
    cbn [app read_float]. change (Ascii.eqb "-"%char "-"%char) with true.
    exact Hb.
  - rewrite E in *. cbn [app read_float] in *.
    now rewrite (digit_not_minus c Hc).
Qed.

Lemma repr_float_head (x : pyfloat) :
  finite_float x = true ->
  exists c t, repr_float x = c :: t /\
              (Ascii.eqb c "-"%char || is_digit c) = true.
Proof.
  intros Hok. destruct x as [neg ds decpt| |]; try discriminate Hok.
  destruct (read_float_body neg ds decpt [] Hok I) as (_ & c & t & E & Hc).
  destruct neg.
  - exists "-"%char, (c :: t).
    change (repr_float (FFinite true ds decpt))
      with ("-"%char :: repr_float (FFinite false ds decpt)).
    rewrite E. split; reflexivity.
  - exists c, t. split; [exact E|]. rewrite Hc. apply orb_true_r.
Qed.

(** The text of an integer is not read as a float. *)
Lemma read_mantissa_digits (neg : bool) (u : Decimal.uint) (rest : list ascii) :
  u <> Decimal.Nil -> number_end rest ->
  read_mantissa neg (chars (NilEmpty.string_of_uint u) ++ rest) = None.
Proof.
  intros Hu Hend. unfold read_mantissa.
  rewrite (span_digits_app _ rest (uint_chars_digits u)
             (number_end_no_digit rest Hend)).
  destruct (chars (NilEmpty.string_of_uint u)) as [|c ds] eqn:E.
  - now apply uint_chars_nonempty in E.
  - destruct rest as [|b rest]; [reflexivity|].
    pose proof (read_exponent_end (b :: rest) Hend) as Hexp.
    destruct Hend as (_ & Hdot & _). now rewrite Hdot, Hexp.
Qed.

Lemma read_float_int (z : Z) (rest : list ascii) :
  number_end rest -> read_float (str_int z ++ rest) = None.
Proof.
  intros Hend. unfold str_int.
  assert (Hpos : forall u, u <> Decimal.Nil ->
            read_float (chars (NilEmpty.string_of_uint u) ++ rest) = None).
  { intros u Hu. pose proof (read_mantissa_digits false u rest Hu Hend) as Hm.
    pose proof (uint_chars_digits u) as Hd.
    destruct (chars (NilEmpty.string_of_uint u)) as [|c ds] eqn:E.
    - now apply uint_chars_nonempty in E.
    - cbn [app read_float] in *. cbn [forallb] in Hd.
      apply andb_prop in Hd as [Hc _]. now rewrite (digit_not_minus c Hc). }
  destruct z as [|p|p]; cbn [Z.to_int NilZero.string_of_int].
  - apply (Hpos (Decimal.D0 Decimal.Nil)). discriminate.
  - rewrite nilzero_nonnil by apply Unsigned.to_uint_nonnil.
    apply Hpos. apply Unsigned.to_uint_nonnil.
  - rewrite nilzero_nonnil by apply Unsigned.to_uint_nonnil.
    change (chars (String "-" (NilEmpty.string_of_uint (Pos.to_uint p)))
            ++ rest)
      with ("-"%char
              :: (chars (NilEmpty.string_of_uint (Pos.to_uint p)) ++ rest)).
    cbn [read_float]. change (Ascii.eqb "-"%char "-"%char) with true.
    apply read_mantissa_digits; [apply Unsigned.to_uint_nonnil | exact Hend].
Qed.

Lemma read_string_escape (q c : ascii) (t : list ascii) :
  q = squote \/ q = dquote ->
  read_string q (escape_char q c ++ t)
  = match read_string q t with
    | Some (s, rest) => Some (c :: s, rest)
    | None => None
    end.
Proof.
  intros [->| ->];
    destruct c as [[] [] [] [] [] [] [] []]; reflexivity.
Qed.

Lemma read_string_quote (q : ascii) (rest : list ascii) :
  read_string q (q :: rest) = Some ([], rest).
Proof. cbn [read_string]. now rewrite Ascii.eqb_refl. Qed.

(** The inside of [repr(s)], read back up to the closing quote. *)
Lemma read_string_written (q : ascii) (s rest : list ascii) :
  q = squote \/ q = dquote ->
  read_string q (flat_map (escape_char q) s ++ q :: rest) = Some (s, rest).
Proof.
  intros Hq. induction s as [|c s IH]; cbn [flat_map app].
  - apply read_string_quote.
  - rewrite <- app_assoc, (read_string_escape q c _ Hq), IH. reflexivity.
Qed.

Lemma repr_quote_cases (s : list ascii) :
  repr_quote s = squote \/ repr_quote s = dquote.
Proof. unfold repr_quote. destruct (_ && _); auto. Qed.

(** A text without double quote, backslash and line break, read back from
    between double quotes. *)
Lemma read_string_raw (s rest : list ascii) :
  forallb line_safe s = true ->
  read_string dquote (s ++ dquote :: rest) = Some (s, rest).
Proof.
  induction s as [|c s IH]; cbn [forallb app]; intros H.
  - apply read_string_quote.
  - apply andb_prop in H as [Hc Hs]. unfold line_safe in Hc.
    apply negb_true_iff in Hc.
    apply orb_false_elim in Hc as [Hc H13].
    apply orb_false_elim in Hc as [Hc H10].
    apply orb_false_elim in Hc as [Hq Hb].
    cbn [read_string]. rewrite Hq, Hb, H10, H13. cbn [orb].
    now rewrite (IH Hs).
Qed.

(** The characters a written value starts with. *)
Lemma head_ok_separates (c : ascii) :
  head_ok c = true ->
  Ascii.eqb c " "%char = false /\ Ascii.eqb c "]"%char = false /\
  Ascii.eqb c ")"%char = false /\ Ascii.eqb c ","%char = false.
Proof.
  destruct c as [[] [] [] [] [] [] [] []]; cbn; intros H;
    try discriminate H; repeat split.
Qed.

Lemma str_int_head (z : Z) :
  exists c t, str_int z = c :: t /\
              (Ascii.eqb c "-"%char || is_digit c) = true.
Proof.
  unfold str_int. destruct z as [|p|p]; cbn [Z.to_int NilZero.string_of_int].
  - exists "0"%char, []. split; reflexivity.
  - rewrite nilzero_nonnil by apply Unsigned.to_uint_nonnil.
    pose proof (uint_chars_digits (Pos.to_uint p)) as Hd.
    destruct (chars (NilEmpty.string_of_uint (Pos.to_uint p))) as [|c t] eqn:E.
    + apply uint_chars_nonempty in E; [destruct E|].
      apply Unsigned.to_uint_nonnil.
    + exists c, t. split; [reflexivity|]. cbn [forallb] in Hd.
      apply andb_prop in Hd as [-> _]. apply orb_true_r.
  - eexists "-"%char, _. split; reflexivity.
Qed.

Lemma int_head_ok (c : ascii) :
  (Ascii.eqb c "-"%char || is_digit c) = true -> head_ok c = true.
Proof.
  destruct c as [[] [] [] [] [] [] [] []]; cbn; intros H;
    try discriminate H; reflexivity.
Qed.

Lemma repr_head (v : pyval) :
  finite_floats v = true ->
  exists c t, py_repr v = c :: t /\ head_ok c = true.
Proof.
  intros Hv. destruct v as [s|z|x|b| |l|l]; cbn [py_repr].
  - unfold repr_str. eexists _, _. split; [reflexivity|].
    destruct (repr_quote_cases (chars s)) as [->| ->]; reflexivity.
  - destruct (str_int_head z) as (c & t & -> & H).
    exists c, t. split; [reflexivity | now apply int_head_ok].
  - destruct (repr_float_head x Hv) as (c & t & -> & H).
    exists c, t. split; [reflexivity | now apply int_head_ok].
  - destruct b; eexists _, _; split; reflexivity.
  - eexists _, _; split; reflexivity.
  - eexists _, _; split; reflexivity.
  - destruct l as [|x [|y l]]; eexists _, _; split; reflexivity.
Qed.

Lemma join_head (l : list pyval) (tail : list ascii) :
  l <> [] ->
  forallb finite_floats l = true ->
  exists c t, join (chars ", ") (map py_repr l) ++ tail = c :: t /\
              head_ok c = true.
Proof.
  destruct l as [|x l]; [congruence|]. intros _ Hfin.
  cbn [forallb] in Hfin. apply andb_prop in Hfin as [Hx _].
  destruct (repr_head x Hx) as (c & t & E & H).
  destruct l as [|y l]; cbn [map join]; rewrite E.
  - exists c, (t ++ tail). split; [reflexivity | exact H].
  - eexists c, _. split; [reflexivity | exact H].
Qed.

Lemma read_items_written (rv : list ascii -> option (pyval * list ascii))
      (close : ascii) (l : list pyval) (rest : list ascii) (n : nat) :
  close = "]"%char \/ close = ")"%char ->
  l <> [] ->
  forallb finite_floats l = true ->
  Forall (fun x => forall rest', number_end rest' ->
                                 rv (py_repr x ++ rest') = Some (x, rest')) l ->
  (List.length l <= n)%nat ->
  read_items rv n close (join (chars ", ") (map py_repr l) ++ close :: rest)
  = Some (l, false, rest).
Proof.
  intros Hclose. revert n. induction l as [|x l IH]; [congruence|].
  intros n _ Hfin Hall Hn. inversion Hall as [|x' l' Hx Hl]; subst.
  cbn [forallb] in Hfin. apply andb_prop in Hfin as [_ Hfin].
  destruct n as [|n]; [cbn in Hn; lia|].
  assert (Hcd : number_end (close :: rest))
    by (destruct Hclose as [->| ->]; repeat split).
  assert (Hcc : Ascii.eqb ","%char close = false)
    by (destruct Hclose as [->| ->]; reflexivity).
  destruct l as [|y l].
  - cbn [map join read_items]. rewrite (Hx (close :: rest) Hcd).
    now rewrite Ascii.eqb_refl.
  - change (join (chars ", ") (map py_repr (x :: y :: l)) ++ close :: rest)
      with ((py_repr x ++ chars ", " ++ join (chars ", ") (map py_repr (y :: l)))
              ++ close :: rest).
    rewrite <- !app_assoc.
    change (chars ", " ++ join (chars ", ") (map py_repr (y :: l))
              ++ close :: rest)
      with (","%char :: " "%char
              :: (join (chars ", ") (map py_repr (y :: l)) ++ close :: rest)).
    cbn [read_items]. rewrite Hx by (repeat split).
    rewrite Hcc. cbn [Ascii.eqb Bool.eqb]. cbn [lstrip existsb].
    destruct (join_head (y :: l) (close :: rest)) as (c2 & r2 & E2 & H2);
      [discriminate|exact Hfin|].
    destruct (head_ok_separates c2 H2) as (Hsp & Hb1 & Hb2 & _).
    rewrite E2. cbn [lstrip existsb].
    change (Ascii.eqb " "%char " "%char) with true. rewrite Hsp. cbn [orb].
    replace (Ascii.eqb c2 close) with false
      by (destruct Hclose as [->| ->]; congruence).
    rewrite <- E2, (IH n); [reflexivity | discriminate | exact Hfin | exact Hl |].
    cbn [List.length] in Hn |- *. lia.
Qed.

Lemma size_pos (v : pyval) : (1 <= size v)%nat.
Proof. destruct v; cbn; lia. Qed.

Lemma size_items (l : list pyval) :
  (List.length l <= fold_right (fun x n => size x + n) 0 l)%nat /\
  forall x, In x l ->
            (size x <= fold_right (fun x n => size x + n) 0 l)%nat.
Proof.
  induction l as [|a l [IH1 IH2]]; cbn [fold_right List.length].
  - split; [lia | intros x []].
  - pose proof (size_pos a). split; [lia|].
    intros x [->|Hx]; [lia|]. specialize (IH2 x Hx). lia.
Qed.

(** A written value whose floats are finite is read back, whatever
    follows it, provided what follows cannot go on with a number. *)
Lemma read_value_written (v : pyval) :
  forall fuel rest,
    finite_floats v = true ->
    (size v <= fuel)%nat -> number_end rest ->
    read_value fuel (py_repr v ++ rest) = Some (v, rest).
Proof.
  induction v as [s|z|x|b| |l IH|l IH] using pyval_induction;
    intros fuel rest Hfin Hf Hr; (destruct fuel as [|f]; [cbn in Hf; lia|]).
  - cbn [py_repr]. unfold repr_str.
    destruct (repr_quote_cases (chars s)) as [Eq|Eq]; rewrite Eq;
      cbn [app]; rewrite <- app_assoc; cbn [app read_value];
      change (Ascii.eqb squote "["%char) with false;
      change (Ascii.eqb squote "("%char) with false;
      change (Ascii.eqb dquote "["%char) with false;
      change (Ascii.eqb dquote "("%char) with false;
      rewrite !Ascii.eqb_refl; cbn [orb];
      rewrite ?orb_true_r;
      (rewrite read_string_written by auto);
      now rewrite string_of_chars.
  - cbn [py_repr].
    pose proof (read_int_written z rest (number_end_no_digit rest Hr)) as Hi.
    pose proof (read_float_int z rest Hr) as Hx.
    destruct (str_int_head z) as (c & t & E & Hc).
    rewrite E in *. cbn [app] in *. cbn [read_value].
    assert (Hk : Ascii.eqb c "["%char = false /\ Ascii.eqb c "("%char = false /\
                 Ascii.eqb c squote = false /\ Ascii.eqb c dquote = false /\
                 Ascii.eqb "T"%char c = false /\ Ascii.eqb "F"%char c = false /\
                 Ascii.eqb "N"%char c = false).
    { clear - Hc. destruct c as [[] [] [] [] [] [] [] []]; cbn in Hc |- *;
        try discriminate Hc; repeat split. }
    destruct Hk as (-> & -> & -> & -> & HT & HF & HN).
    cbn [orb chars list_ascii_of_string prefixb]. rewrite HT, HF, HN.
    cbn [andb]. now rewrite Hx, Hi.
  - cbn [py_repr finite_floats] in *.
    pose proof (read_float_written x rest Hfin Hr) as Hx.
    destruct (repr_float_head x Hfin) as (c & t & E & Hc).
    rewrite E in *. cbn [app] in *. cbn [read_value].
    assert (Hk : Ascii.eqb c "["%char = false /\ Ascii.eqb c "("%char = false /\
                 Ascii.eqb c squote = false /\ Ascii.eqb c dquote = false /\
                 Ascii.eqb "T"%char c = false /\ Ascii.eqb "F"%char c = false /\
                 Ascii.eqb "N"%char c = false).
    { clear - Hc. destruct c as [[] [] [] [] [] [] [] []]; cbn in Hc |- *;
        try discriminate Hc; repeat split. }
    destruct Hk as (-> & -> & -> & -> & HT & HF & HN).
    cbn [orb chars list_ascii_of_string prefixb]. rewrite HT, HF, HN.
    cbn [andb]. now rewrite Hx.
  - destruct b; reflexivity.
  - reflexivity.
  - cbn [py_repr size finite_floats] in *.
    destruct (size_items l) as [Hlen Hsz].
    destruct l as [|x l]; [reflexivity|].
    cbn [app]. rewrite <- app_assoc. cbn [app read_value].
    change (Ascii.eqb "["%char "["%char) with true. cbn iota.
    destruct (join_head (x :: l) ("]"%char :: rest)) as (c & t & E & H);
      [discriminate|exact Hfin|].
    destruct (head_ok_separates c H) as (_ & Hb & _ & _).
    rewrite E. cbn [prefixb]. rewrite (Ascii.eqb_sym "]"%char c), Hb.
    cbn [andb].
    rewrite <- E, (read_items_written (read_value f) "]"%char (x :: l) rest f);
      [reflexivity | now left | discriminate | exact Hfin | | lia].
    apply Forall_forall. intros y Hy rest' Hr'.
    rewrite Forall_forall in IH. apply (IH y Hy); [| |exact Hr'].
    + rewrite forallb_forall in Hfin. now apply Hfin.
    + specialize (Hsz y Hy). lia.
  - cbn [size finite_floats] in *.
    destruct (size_items l) as [Hlen Hsz].
    destruct l as [|x [|y l]].
    + reflexivity.
    + cbn [py_repr]. cbn [app]. rewrite <- app_assoc.
      change (chars ",)" ++ rest) with (","%char :: ")"%char :: rest).
      cbn [read_value].
      change (Ascii.eqb "("%char "["%char) with false.
      change (Ascii.eqb "("%char "("%char) with true. cbn iota.
      cbn [forallb] in Hfin. apply andb_prop in Hfin as [Hfx _].
      destruct (repr_head x Hfx) as (c & t & E & H).
      destruct (head_ok_separates c H) as (_ & _ & Hb & _).
      rewrite E. cbn [app prefixb]. rewrite (Ascii.eqb_sym ")"%char c), Hb.
      cbn [andb].
      change (c :: t ++ ","%char :: ")"%char :: rest)
        with ((c :: t) ++ ","%char :: ")"%char :: rest).
      rewrite <- E.
      destruct f as [|f]; [cbn in Hf; pose proof (size_pos x); lia|].
      cbn [read_items].
      inversion IH as [|x' l' Hx _]; subst.
      rewrite (Hx (S f) (","%char :: ")"%char :: rest));
        [|exact Hfx|cbn in Hf; lia|repeat split].
      reflexivity.
    + cbn [py_repr]. cbn [app]. rewrite <- app_assoc. cbn [app read_value].
      change (Ascii.eqb "("%char "["%char) with false.
      change (Ascii.eqb "("%char "("%char) with true. cbn iota.
      destruct (join_head (x :: y :: l) (")"%char :: rest)) as (c & t & E & H);
        [discriminate|exact Hfin|].
      destruct (head_ok_separates c H) as (_ & _ & Hb & _).
      rewrite E. cbn [prefixb]. rewrite (Ascii.eqb_sym ")"%char c), Hb.
      cbn [andb].
      rewrite <- E,
        (read_items_written (read_value f) ")"%char (x :: y :: l) rest f);
        [reflexivity | now right | discriminate | exact Hfin | | lia].
      apply Forall_forall. intros w Hw rest' Hr'.
      rewrite Forall_forall in IH. apply (IH w Hw); [| |exact Hr'].
      * rewrite forallb_forall in Hfin. now apply Hfin.
      * specialize (Hsz w Hw). lia.
Qed.

Lemma join_repr_length (l : list pyval) :
  Forall (fun x => (size x <= List.length (py_repr x))%nat) l ->
  (fold_right (fun x n => size x + n) 0 l
   <= List.length (join (chars ", ") (map py_repr l)))%nat.
Proof.
  induction l as [|x l IH]; intros H; [cbn; lia|].
  inversion H as [|x' l' Hx Hl]; subst. specialize (IH Hl).
  destruct l as [|y l].
  - cbn [fold_right map join]. lia.
  - change (join (chars ", ") (map py_repr (x :: y :: l)))
      with (py_repr x ++ chars ", " ++ join (chars ", ") (map py_repr (y :: l))).
    rewrite !length_app. cbn [fold_right] in *. lia.
Qed.

Lemma Forall_finite (P : pyval -> Prop) (l : list pyval) :
  Forall (fun v => finite_floats v = true -> P v) l ->
  forallb finite_floats l = true -> Forall P l.
Proof.
  intros H Hfin. rewrite forallb_forall in Hfin.
  rewrite Forall_forall in *. intros x Hx. apply (H x Hx). now apply Hfin.
Qed.

Lemma size_le_repr (v : pyval) :
  finite_floats v = true -> (size v <= List.length (py_repr v))%nat.
Proof.
  induction v as [s|z|x|b| |l IH|l IH] using pyval_induction; intros Hfin.
  - cbn. lia.
  - cbn [size py_repr]. destruct (str_int_head z) as (c & t & -> & _).
    cbn. lia.
  - cbn [size py_repr]. destruct (repr_float_head x Hfin) as (c & t & -> & _).
    cbn. lia.
  - destruct b; cbn; lia.
  - cbn. lia.
  - cbn [size py_repr finite_floats] in *.
    pose proof (join_repr_length l (Forall_finite _ l IH Hfin)).
    cbn [List.length]. rewrite length_app. cbn [List.length]. lia.
  - cbn [size finite_floats] in *.
    pose proof (join_repr_length l (Forall_finite _ l IH Hfin)) as Hj.
    destruct l as [|x [|y l]].
    + cbn. lia.
    + cbn [py_repr]. cbn [map join fold_right] in Hj.
      cbn [List.length fold_right]. rewrite length_app. cbn. lia.
    + cbn [py_repr]. cbn [List.length]. rewrite length_app.
      cbn [List.length]. lia.
Qed.

Lemma break_colon_written (k rest : list ascii) :
  forallb (fun c => negb (Ascii.eqb c ":"%char)) k = true ->
  break_colon (k ++ ":"%char :: rest) = Some (k, rest).
Proof.
  induction k as [|c k IH]; cbn [forallb app break_colon]; intros H.
  - reflexivity.
  - apply andb_prop in H as [Hc Hk]. apply negb_true_iff in Hc.
    now rewrite Hc, (IH Hk).
Qed.

(** A line whose value token is read back as [v] is read back as the
    entry [(k, v)]. *)
Lemma read_entry_written (k : string) (token : list ascii) (v : pyval) :
  forallb (fun c => negb (Ascii.eqb c ":"%char)) (chars k) = true ->
  (forall fuel, (List.length token <= fuel)%nat ->
                read_value fuel token = Some (v, [])) ->
  read_entry (chars k ++ chars ": " ++ token) = Some (k, v).
Proof.
  intros Hk Hv. unfold read_entry.
  change (chars ": " ++ token) with (":"%char :: " "%char :: token).
  rewrite (break_colon_written _ _ Hk), Hv.
  - now rewrite string_of_chars.
  - rewrite length_app. cbn [List.length]. lia.
Qed.

Lemma read_repr_token (v : pyval) :
  finite_floats v = true ->
  forall fuel,
    (List.length (py_repr v) <= fuel)%nat ->
    read_value fuel (py_repr v) = Some (v, []).
Proof.
  intros Hfin fuel H. rewrite <- (app_nil_r (py_repr v)) at 1.
  apply read_value_written; [exact Hfin| |exact I].
  pose proof (size_le_repr v Hfin). lia.
Qed.

Lemma finite_floats_ints (l : list Z) :
  forallb finite_floats (map PInt l) = true.
Proof. induction l as [|z l IH]; [reflexivity | exact IH]. Qed.

Lemma finite_floats_floats (l : list pyfloat) :
  forallb finite_floats (map PFloat l) = forallb finite_float l.
Proof.
  induction l as [|x l IH]; [reflexivity|]. cbn [map forallb finite_floats].
  now rewrite IH.
Qed.

(** C5, as amended: for a key without colon and a value that is a string
    without double quote, backslash and line break, a non-empty list or
    tuple (of strings, integers, finite floats, booleans, [None], lists
    and tuples), an array of one axis of integers or of finite floats, or
    an integer, a finite float, a boolean or [None], the line
    [create_yaml_file] writes is read back as the same key and value,
    the tuple as the list of its items and the array as the list of its
    items. *)
Theorem config_line_round_trip (k : string) (v : param) :
  forallb (fun c => negb (Ascii.eqb c ":"%char)) (chars k) = true ->
  round_trips v ->
  exists line,
    config_line k v = Ok line /\ read_entry line = Some (k, read_back v).
Proof.
  intros Hk Hv. destruct v as [v|a|items].
  - destruct v as [s|z|x|b| |l|l]; cbn [round_trips] in Hv;
      cbn [config_line read_back].
    + eexists. split; [reflexivity|].
      apply read_entry_written; [exact Hk|].
      intros fuel Hf. destruct fuel as [|f]; [cbn in Hf; lia|].
      cbn [read_value].
      change (Ascii.eqb dquote "["%char) with false.
      change (Ascii.eqb dquote "("%char) with false.
      rewrite Ascii.eqb_refl, orb_true_r. cbn iota.
      rewrite (read_string_raw _ [] Hv). now rewrite string_of_chars.
    + eexists. split; [reflexivity|].
      apply read_entry_written; [exact Hk|].
      exact (read_repr_token (PInt z) eq_refl).
    + eexists. split; [reflexivity|].
      apply read_entry_written; [exact Hk|].
      exact (read_repr_token (PFloat x) Hv).
    + eexists. split; [reflexivity|].
      apply read_entry_written; [exact Hk|].
      exact (read_repr_token (PBool b) eq_refl).
    + eexists. split; [reflexivity|].
      apply read_entry_written; [exact Hk|].
      exact (read_repr_token PNone eq_refl).
    + destruct Hv as [Hne Hfin]. destruct l as [|x l]; [congruence|].
      eexists. split; [reflexivity|].
      apply read_entry_written; [exact Hk|].
      exact (read_repr_token (PList (x :: l)) Hfin).
    + destruct Hv as [Hne Hfin]. destruct l as [|x l]; [congruence|].
      eexists. split; [reflexivity|].
      apply read_entry_written; [exact Hk|].
      exact (read_repr_token (PList (x :: l)) Hfin).
  - destruct Hv as [n Hn]. cbn [config_line read_back].
    unfold list_of_array. rewrite Hn.
    eexists. split; [reflexivity|].
    apply read_entry_written; [exact Hk|].
    cbn [array_items]. rewrite flat_map_singleton.
    replace (map (fun i => str_int (item a [i])) (seq 0 n))
      with (map py_repr (map PInt (map (fun i => item a [i]) (seq 0 n))))
      by (now rewrite !map_map).
    exact (read_repr_token
             (PList (map PInt (map (fun i => item a [i]) (seq 0 n))))
             (finite_floats_ints _)).
  - cbn [round_trips] in Hv. cbn [config_line read_back].
    eexists. split; [reflexivity|].
    apply read_entry_written; [exact Hk|].
    replace (map repr_float items) with (map py_repr (map PFloat items))
      by (now rewrite map_map).
    apply (read_repr_token (PList (map PFloat items))).
    cbn [finite_floats]. now rewrite finite_floats_floats.
Qed.

Lemma config_line_round_trip_witness :
  exists line,
    config_line "roi_detector"
      (Val (PTuple [PInt 0; PFloat (FFinite true "25" 1); PStr "it's";
                    PList [PNone; PFloat (FFinite false "1" (-4))]]))
    = Ok line /\
    read_entry line
    = Some ("roi_detector",
            PList [PInt 0; PFloat (FFinite true "25" 1); PStr "it's";
                   PList [PNone; PFloat (FFinite false "1" (-4))]]).
Proof.
  apply (config_line_round_trip "roi_detector"
           (Val (PTuple [PInt 0; PFloat (FFinite true "25" 1); PStr "it's";
                         PList [PNone; PFloat (FFinite false "1" (-4))]]))).
  - reflexivity.
  - split; [discriminate | reflexivity].
Defined.

(** The lines of the witness and of three floats, evaluated: [-2.5] and
    [1e-05] in the list; [0.1], [1e+16] and [123.456] in an array. *)
Example config_line_floats :
  config_line "roi_detector"
    (Val (PTuple [PInt 0; PFloat (FFinite true "25" 1); PStr "it's";
                  PList [PNone; PFloat (FFinite false "1" (-4))]]))
  = Ok (chars "roi_detector: [0, -2.5, " ++ dquote :: chars "it's"
          ++ dquote :: chars ", [None, 1e-05]]") /\
  config_line "q"
    (ArrF [FFinite false "1" 0; FFinite false "1" 17;
           FFinite false "123456" 3])
  = Ok (chars "q: [0.1, 1e+16, 123.456]") /\
  read_entry (chars "q: [0.1, 1e+16, 123.456]")
  = Some ("q", PList [PFloat (FFinite false "1" 0);
                      PFloat (FFinite false "1" 17);
                      PFloat (FFinite false "123456" 3)]).
Proof. repeat split. Qed.

(** C5 fails as stated: the string [C:\new] is written between double
    quotes as it is, and the backslash with the [n] after it is read back
    as a line break. *)
Lemma config_line_backslash_not_read_back :
  supported (Val (PStr "C:\new")) /\
  config_line "data_dir" (Val (PStr "C:\new"))
  = Ok (chars "data_dir: " ++ dquote :: chars "C:\new" ++ [dquote]) /\
  read_entry (chars "data_dir: " ++ dquote :: chars "C:\new" ++ [dquote])
  = Some ("data_dir", PStr (String "C" (String ":" (String newline "ew")))) /\
  read_entry (chars "data_dir: " ++ dquote :: chars "C:\new" ++ [dquote])
  <> Some ("data_dir", read_back (Val (PStr "C:\new"))).
Proof.
  split; [exact I|]. split; [reflexivity|]. split; [reflexivity|].
  intros H. discriminate H.
Qed.

(** More values that are not read back: a string that holds a double
    quote, an array of two axes, and the floats [inf] and [nan], whose
    texts are names and no literals. *)
Example config_line_not_read_back :
  (exists line,
      config_line "comment" (Val (PStr (String dquote "quoted"))) = Ok line /\
      read_entry line = None) /\
  (exists line,
      supported (Arr example_2d) /\
      config_line "roi" (Arr example_2d) = Ok line /\ read_entry line = None) /\
  (config_line "energy" (Val (PFloat (FInf false))) = Ok (chars "energy: inf") /\
   read_entry (chars "energy: inf") = None) /\
  (config_line "energy" (Val (PFloat FNaN)) = Ok (chars "energy: nan") /\
   read_entry (chars "energy: nan") = None).
Proof.
  split; [|split; [|split]].
  - eexists. split; reflexivity.
  - eexists. split; [discriminate|]. split; reflexivity.
  - split; reflexivity.
  - split; reflexivity.
Qed.

(** Whatever the reader, the file does not determine its parameters: the
    one string parameter [a] that holds a double quote and a line break
    gives the same file as the two parameters [a] and [b]. *)
Example file_text_ambiguous :
  let tricky :=
    String "1" (String dquote (String newline
      (String "b" (String ":" (String " " (String dquote "2")))))) in
  match config_lines [("a", Val (PStr tricky))],
        config_lines [("a", Val (PStr "1")); ("b", Val (PStr "2"))] with
  | Ok one, Ok two => file_text one = file_text two
  | _, _ => False
  end.
Proof. reflexivity. Qed.

(* ================================================================== *)
(** * Part III: further properties of the embedded code *)
(* ================================================================== *)

(** ** More on the loader *)

Lemma endswith_cxi_not_npy (s : string) :
  endswith s ".cxi" = true -> endswith s ".npy" = false.
Proof.
  intros H. destruct (endswith s ".npy") eqn:E; [|reflexivity].
  destruct (endswith_last s ".cxi" "i"%char (rev (list_ascii_of_string ".cx"))
              eq_refl H) as [r1 H1].
  destruct (endswith_last s ".npy" "y"%char (rev (list_ascii_of_string ".np"))
              eq_refl E) as [r2 H2].
  rewrite H1 in H2. discriminate.
Qed.

Lemma dispatch_unbound {sample} (env : loader_env sample) (p : Plotter sample) :
  data_array p = None -> snd (dispatch env p) = Some AttributeError.
Proof.
  intros H. unfold dispatch, print_summary. rewrite H.
  destruct (plot_is (plot p) "2D"); [reflexivity|].
  destruct (plot_is (plot p) "slices"); [reflexivity|].
  destruct (plot_is (plot p) "3D"); reflexivity.
Qed.

(** X1: on a [Plotter] whose [data_array] is still unbound, as in the
    constructor, a failed read of a [.npy], [.cxi] or [.h5] file prints
    the load message and then [AttributeError] leaves [get_data_array],
    whatever the plot mode; [data_array] stays unbound. *)
Theorem get_data_array_unbound_after_failure {sample}
        (env : loader_env sample) (p : Plotter sample) (e : exn) :
  data_array p = None ->
  (endswith (filename p) ".npy" = true /\ np_load env (filename p) = Raise e) \/
  (endswith (filename p) ".npy" = false /\
   endswith (filename p) ".cxi" || endswith (filename p) ".h5" = true /\
   h5_read env (filename p) = Raise e) ->
  exists msg tr,
    (msg = msg_npy \/ msg = msg_hdf5) /\
    get_data_array env p = (p, Print msg :: tr, Some AttributeError).
Proof.
  intros Hd H. pose proof (dispatch_unbound env p Hd) as Hs.
  unfold get_data_array.
  destruct H as [[Hn Hr] | (Hn & Hc & Hr)].
  - rewrite Hn. cbn [orb]. unfold load_npy. rewrite Hr.
    destruct (dispatch env p) as [tr out] eqn:E. cbn in Hs. subst out.
    exists msg_npy, tr. split; [now left | reflexivity].
  - rewrite Hn. cbn [orb].
    destruct (endswith (filename p) ".cxi") eqn:Ec.
    + rewrite orb_true_r. unfold load_cxi. rewrite Hr.
      destruct (dispatch env p) as [tr out] eqn:E. cbn in Hs. subst out.
      exists msg_hdf5, tr. split; [now right | reflexivity].
    + cbn [orb] in Hc. rewrite Hc. cbn [orb]. unfold load_h5. rewrite Hr.
      destruct (dispatch env p) as [tr out] eqn:E. cbn in Hs. subst out.
      exists msg_hdf5, tr. split; [now right | reflexivity].
Qed.

Lemma get_data_array_unbound_after_failure_witness :
  exists msg tr,
    (msg = msg_npy \/ msg = msg_hdf5) /\
    get_data_array env_missing_files
      (mk_Plotter "scan.cxi" (PlotStr "3D") false None)
    = (mk_Plotter "scan.cxi" (PlotStr "3D") false None,
       Print msg :: tr, Some AttributeError).
Proof.
  apply (get_data_array_unbound_after_failure env_missing_files
           (mk_Plotter "scan.cxi" (PlotStr "3D") false None)
           FileNotFoundError).
  - reflexivity.
  - right. repeat split.
Defined.

Lemma get_data_array_h5_ok {sample} (env : loader_env sample)
      (p : Plotter sample) :
  endswith (filename p) ".h5" = true ->
  get_data_array env p
  = (fst (load_h5 env p),
     snd (load_h5 env p) ++ fst (dispatch env (fst (load_h5 env p))),
     snd (dispatch env (fst (load_h5 env p)))).
Proof.
  intros H. unfold get_data_array.
  rewrite (endswith_h5_not_npy _ H), (endswith_h5_not_cxi _ H), H. cbn [orb].
  destruct (load_h5 env p) as [p1 tr1]. cbn [fst snd].
  now destruct (dispatch env p1).
Qed.

(** X2: a 3-D array read from an [.h5] file is loaded with its axes 0 and
    2 exchanged, shape and items, and the loading itself prints nothing. *)
Theorem get_data_array_h5_3d {sample} (env : loader_env sample)
        (p : Plotter sample) (a : ndarray sample) (n0 n1 n2 : nat) :
  endswith (filename p) ".h5" = true ->
  h5_read env (filename p) = Ok a ->
  shape a = [n0; n1; n2] ->
  exists r,
    get_data_array env p
    = (set_data_array p r, fst (dispatch env (set_data_array p r)),
       snd (dispatch env (set_data_array p r))) /\
    shape r = [n2; n1; n0] /\
    forall i j k, item r [i; j; k] = item a [k; j; i].
Proof.
  intros Hs Hr Ha. rewrite (get_data_array_h5_ok env p Hs).
  unfold load_h5. rewrite Hr. unfold ndim. rewrite Ha.
  cbn [List.length Nat.eqb]. unfold swapaxes, ndim. rewrite Ha.
  cbn [List.length Nat.ltb Nat.leb andb fst snd app].
  eexists. split; [reflexivity|]. split; reflexivity.
Qed.

Lemma get_data_array_h5_3d_witness :
  exists r,
    get_data_array (env_h5 (index_array [2; 3; 4]%nat)) (fresh_plotter "modes.h5")
    = (set_data_array (fresh_plotter "modes.h5") r,
       fst (dispatch (env_h5 (index_array [2; 3; 4]%nat))
              (set_data_array (fresh_plotter "modes.h5") r)),
       snd (dispatch (env_h5 (index_array [2; 3; 4]%nat))
              (set_data_array (fresh_plotter "modes.h5") r))) /\
    shape r = [4; 3; 2]%nat /\
    forall i j k, item r [i; j; k] = item (index_array [2; 3; 4]%nat) [k; j; i].
Proof.
  apply (get_data_array_h5_3d (env_h5 (index_array [2; 3; 4]%nat))
           (fresh_plotter "modes.h5") (index_array [2; 3; 4]%nat) 2 3 4);
    reflexivity.
Defined.

(** X3: an array of fewer than three axes read from an [.h5] file cannot
    have its axes 0 and 2 exchanged: the "could not be loaded" message is
    printed, yet the array as read stays bound to [data_array] and the
    plot block goes on with it. *)
Theorem get_data_array_h5_few_axes {sample} (env : loader_env sample)
        (p : Plotter sample) (a : ndarray sample) :
  endswith (filename p) ".h5" = true ->
  h5_read env (filename p) = Ok a ->
  (ndim a < 3)%nat ->
  get_data_array env p
  = (set_data_array p a,
     Print msg_hdf5 :: fst (dispatch env (set_data_array p a)),
     snd (dispatch env (set_data_array p a))).
Proof.
  intros Hs Hr Hn. rewrite (get_data_array_h5_ok env p Hs).
  unfold load_h5. rewrite Hr.
  assert (H4 : (ndim a =? 4)%nat = false) by (apply Nat.eqb_neq; lia).
  rewrite H4. unfold swapaxes.
  assert (H2 : (2 <? ndim a)%nat = false) by (apply Nat.ltb_ge; lia).
  rewrite H2, andb_false_r. reflexivity.
Qed.

Lemma get_data_array_h5_few_axes_witness :
  get_data_array (env_h5 (index_array [5; 6]%nat)) (fresh_plotter "image.h5")
  = (set_data_array (fresh_plotter "image.h5") (index_array [5; 6]%nat),
     Print msg_hdf5
       :: fst (dispatch (env_h5 (index_array [5; 6]%nat))
                 (set_data_array (fresh_plotter "image.h5")
                    (index_array [5; 6]%nat))),
     snd (dispatch (env_h5 (index_array [5; 6]%nat))
            (set_data_array (fresh_plotter "image.h5")
               (index_array [5; 6]%nat)))).
Proof.
  apply (get_data_array_h5_few_axes (env_h5 (index_array [5; 6]%nat))
           (fresh_plotter "image.h5") (index_array [5; 6]%nat)).
  - reflexivity.
  - reflexivity.
  - cbn. lia.
Defined.

(** X4: an array read from a [.cxi] file is bound as it is stored,
    whatever its number of axes: a 4-D array is not collapsed and no axes
    are exchanged, unlike in the [.h5] branch. *)
Theorem get_data_array_cxi_as_stored {sample} (env : loader_env sample)
        (p : Plotter sample) (a : ndarray sample) :
  endswith (filename p) ".cxi" = true ->
  h5_read env (filename p) = Ok a ->
  get_data_array env p
  = (set_data_array p a, fst (dispatch env (set_data_array p a)),
     snd (dispatch env (set_data_array p a))).
Proof.
  intros Hs Hr. unfold get_data_array.
  rewrite (endswith_cxi_not_npy _ Hs), Hs, orb_true_r. cbn [orb].
  unfold load_cxi. rewrite Hr. cbn [app].
  now destruct (dispatch env (set_data_array p a)).
Qed.

Lemma get_data_array_cxi_as_stored_witness :
  get_data_array (env_h5 (index_array [1; 2; 3; 4]%nat)) (fresh_plotter "modes.cxi")
  = (set_data_array (fresh_plotter "modes.cxi") (index_array [1; 2; 3; 4]%nat),
     fst (dispatch (env_h5 (index_array [1; 2; 3; 4]%nat))
            (set_data_array (fresh_plotter "modes.cxi")
               (index_array [1; 2; 3; 4]%nat))),
     snd (dispatch (env_h5 (index_array [1; 2; 3; 4]%nat))
            (set_data_array (fresh_plotter "modes.cxi")
               (index_array [1; 2; 3; 4]%nat)))).
Proof.
  apply (get_data_array_cxi_as_stored (env_h5 (index_array [1; 2; 3; 4]%nat))
           (fresh_plotter "modes.cxi") (index_array [1; 2; 3; 4]%nat));
    reflexivity.
Defined.

(** ** More on the viewer *)

Section ViewerUpdates.

Variable np_sqrt : Q -> Q.
Variables surface trisurf : Type.
Variable extract_surface : volume -> Q -> result surface.
Variable paint : paint_mode -> volume -> surface -> result trisurf.

(** What [draw] leaves alone, and where it leaves the progress bar. *)
Lemma draw_keeps (w : ThreeDViewer trisurf) (masked : volume) :
  let w' := fst (fst (draw extract_surface paint w masked)) in
  d w' = d w /\ threshold w' = threshold w /\
  toggle_plane w' = toggle_plane w /\
  clipx w' = clipx w /\ clipy w' = clipy w /\ clipz w' = clipz w /\
  toggle_phase _ w' = toggle_phase _ w /\ colormap _ w' = colormap _ w /\
  colormap_range _ w' = colormap_range _ w /\
  clip_disabled _ w' = clip_disabled _ w /\
  progress w' = 10%Z.
Proof.
  unfold draw, recompute_mesh.
  destruct (marching_cubes extract_surface masked (threshold w)) as [srf|e];
    [|cbn; repeat split].
  destruct (String.eqb (toggle_phase trisurf w) "Phase").
  - destruct (paint PaintPhase (d w) srf); cbn; repeat split.
  - destruct (String.eqb (toggle_phase trisurf w) "Abs"
              || String.eqb (toggle_phase trisurf w) "log10(Abs)").
    + destruct (paint _ (d w) srf); cbn; repeat split.
    + cbn. repeat split.
Qed.

(** X5: [on_update_plot] never changes what it reads: the volume, the
    threshold, the clip toggle, the three components of the clip normal,
    the colouring mode, the colour map and its range are after the call
    what they were before, whether it returns or raises. *)
Theorem on_update_plot_keeps_inputs (w : ThreeDViewer trisurf)
        (v : option string) :
  let w' := fst (fst (on_update_plot np_sqrt extract_surface paint w v)) in
  d w' = d w /\ threshold w' = threshold w /\
  toggle_plane w' = toggle_plane w /\
  clipx w' = clipx w /\ clipy w' = clipy w /\ clipz w' = clipz w /\
  toggle_phase _ w' = toggle_phase _ w /\ colormap _ w' = colormap _ w /\
  colormap_range _ w' = colormap_range _ w.
Proof.
  unfold on_update_plot. destruct (ignored_change v); [cbn; repeat split|].
  cbn [toggle_plane with_clip_disabled with_progress].
  destruct (toggle_plane w) eqn:Hp.
  - destruct (array_min _) as [lo|e]; [|cbn; repeat split; exact Hp].
    destruct (array_max _) as [hi|e]; [|cbn; repeat split; exact Hp].
    cbn [clipdist with_clip_disabled with_progress].
    unfold fit_clipdist.
    destruct (Qgtb (hi + 1) (r_min (clipdist w))).
    + destruct (set_max (clipdist w) (hi + 1)) as [s1|e];
        [|cbn; repeat split; exact Hp].
      destruct (set_min s1 (lo - 1)) as [s2|e];
        [|cbn; repeat split; exact Hp].
      match goal with
      | |- context [draw _ _ ?w1 ?mm] =>
          destruct (draw_keeps w1 mm)
            as (H1 & H2 & H3 & H4 & H5 & H6 & H7 & H8 & H9 & _)
      end.
      cbn zeta. rewrite H1, H2, H3, H4, H5, H6, H7, H8, H9.
      cbn. repeat split. exact Hp.
    + destruct (set_min (clipdist w) (lo - 1)) as [s1|e];
        [|cbn; repeat split; exact Hp].
      destruct (set_max s1 (hi + 1)) as [s2|e];
        [|cbn; repeat split; exact Hp].
      match goal with
      | |- context [draw _ _ ?w1 ?mm] =>
          destruct (draw_keeps w1 mm)
            as (H1 & H2 & H3 & H4 & H5 & H6 & H7 & H8 & H9 & _)
      end.
      cbn zeta. rewrite H1, H2, H3, H4, H5, H6, H7, H8, H9.
      cbn. repeat split. exact Hp.
  - match goal with
    | |- context [draw _ _ ?w1 ?mm] =>
        destruct (draw_keeps w1 mm)
          as (H1 & H2 & H3 & H4 & H5 & H6 & H7 & H8 & H9 & _)
    end.
    cbn zeta. rewrite H1, H2, H3, H4, H5, H6, H7, H8, H9.
    cbn. repeat split. exact Hp.
Qed.

(** X6: when [on_update_plot] handles a change and returns, the progress
    bar is back at 10, and the four clip sliders are enabled exactly when
    the clip toggle is on; when an exception leaves it, the progress bar
    is left at 7. *)
Theorem on_update_plot_progress (w : ThreeDViewer trisurf)
        (v : option string) :
  ignored_change v = false ->
  let r := on_update_plot np_sqrt extract_surface paint w v in
  match snd r with
  | None => progress (fst (fst r)) = 10%Z /\
            clip_disabled _ (fst (fst r)) = negb (toggle_plane w)
  | Some _ => progress (fst (fst r)) = 7%Z
  end.
Proof.
  intros Hv. unfold on_update_plot. rewrite Hv.
  cbn [toggle_plane with_clip_disabled with_progress].
  destruct (toggle_plane w) eqn:Hp.
  - destruct (array_min _) as [lo|e]; [|reflexivity].
    destruct (array_max _) as [hi|e]; [|reflexivity].
    cbn [clipdist with_clip_disabled with_progress].
    unfold fit_clipdist.
    destruct (Qgtb (hi + 1) (r_min (clipdist w))).
    + destruct (set_max (clipdist w) (hi + 1)) as [s1|e]; [|reflexivity].
      destruct (set_min s1 (lo - 1)) as [s2|e]; [|reflexivity].
      match goal with
      | |- context [draw _ _ ?w1 ?mm] =>
          destruct (draw_keeps w1 mm) as (_ & _ & _ & _ & _ & _ & _ & _ & _ & Hc & Hg);
          destruct (draw_outcome _ _ extract_surface paint w1 mm) as (Ho & _)
      end.
      cbn zeta. rewrite Ho. split; [exact Hg | exact Hc].
    + destruct (set_min (clipdist w) (lo - 1)) as [s1|e]; [|reflexivity].
      destruct (set_max s1 (hi + 1)) as [s2|e]; [|reflexivity].
      match goal with
      | |- context [draw _ _ ?w1 ?mm] =>
          destruct (draw_keeps w1 mm) as (_ & _ & _ & _ & _ & _ & _ & _ & _ & Hc & Hg);
          destruct (draw_outcome _ _ extract_surface paint w1 mm) as (Ho & _)
      end.
      cbn zeta. rewrite Ho. split; [exact Hg | exact Hc].
  - match goal with
    | |- context [draw _ _ ?w1 ?mm] =>
        destruct (draw_keeps w1 mm) as (_ & _ & _ & _ & _ & _ & _ & _ & _ & Hc & Hg);
        destruct (draw_outcome _ _ extract_surface paint w1 mm) as (Ho & _)
    end.
    cbn zeta. rewrite Ho. split; [exact Hg | exact Hc].
Qed.

(** X7: with the clip planes on and the clip slider within its
    invariant, an exception leaves [on_update_plot] exactly when no voxel
    is at or above the threshold, and it is [ValueError]. *)
Theorem on_update_plot_clip_raises_iff (w : ThreeDViewer trisurf)
        (v : option string) :
  ignored_change v = false ->
  toggle_plane w = true ->
  slider_valid (clipdist w) ->
  (above_threshold w = [] <->
   snd (on_update_plot np_sqrt extract_surface paint w v) <> None) /\
  (forall e, snd (on_update_plot np_sqrt extract_surface paint w v) = Some e ->
             e = ValueError).
Proof.
  intros Hv Hp Hs.
  destruct (above_threshold w) as [|p l] eqn:Ha.
  - rewrite (on_update_plot_clip_empty np_sqrt _ _ extract_surface paint w v
               Hv Hp Ha).
    split; [split; [discriminate | reflexivity]|]. intros e [= <-]. reflexivity.
  - assert (Hne : clip_projections np_sqrt w <> []).
    { unfold clip_projections. rewrite Ha. discriminate. }
    destruct (array_min_spec _ Hne) as (lo & Emin & Hlo).
    destruct (array_max_spec _ Hne) as (hi & Emax & Hhi).
    assert (Hle : lo - 1 <= hi + 1).
    { destruct Hlo as [Hin Hlo]. specialize (Hlo hi (proj1 Hhi)). lra. }
    destruct (fit_clipdist_valid (clipdist w) (lo - 1) (hi + 1) Hs Hle)
      as (s1 & s2 & Efit & _).
    assert (Hr : snd (on_update_plot np_sqrt extract_surface paint w v) = None).
    { unfold on_update_plot. rewrite Hv.
      cbn [toggle_plane with_clip_disabled with_progress]. rewrite Hp.
      change (clip_projections np_sqrt
                (with_clip_disabled trisurf (with_progress trisurf w 7) false))
        with (clip_projections np_sqrt w).
      rewrite Emin, Emax.
      cbn [clipdist with_clip_disabled with_progress]. rewrite Efit.
      match goal with
      | |- context [draw _ _ ?w1 ?mm] =>
          destruct (draw_outcome _ _ extract_surface paint w1 mm) as (Ho & _)
      end.
      exact Ho. }
    rewrite Hr. split; [split; [discriminate | congruence] | discriminate].
Qed.

(** X8: when [np.sqrt] is exact on the squared norm of the clip normal
    and that norm is not numerically zero, the three coefficients that a
    completed update with the clip planes on shows in the plane equation
    are the components of a unit vector. *)
Theorem on_update_plot_unit_normal (w : ThreeDViewer trisurf)
        (v : option string) :
  ignored_change v = false ->
  toggle_plane w = true ->
  slider_valid (clipdist w) ->
  above_threshold w <> [] ->
  np_sqrt (clipx w * clipx w + clipy w * clipy w + clipz w * clipz w)
  * np_sqrt (clipx w * clipx w + clipy w * clipy w + clipz w * clipz w)
  == clipx w * clipx w + clipy w * clipy w + clipz w * clipz w ->
  isclose (np_sqrt (clipx w * clipx w + clipy w * clipy w + clipz w * clipz w))
          0 = false ->
  exists eq,
    plane_text (fst (fst (on_update_plot np_sqrt extract_surface paint w v)))
    = Some eq /\
    pl_x eq * pl_x eq + pl_y eq * pl_y eq + pl_z eq * pl_z eq == 1.
Proof.
  intros Hv Hp Hs Ha Hsq Hz.
  assert (Hne : clip_projections np_sqrt w <> []).
  { unfold clip_projections. destruct (above_threshold w); [congruence|].
    discriminate. }
  destruct (array_min_spec _ Hne) as (lo & Emin & Hlo).
  destruct (array_max_spec _ Hne) as (hi & Emax & Hhi).
  assert (Hle : lo - 1 <= hi + 1).
  { destruct Hlo as [Hin Hlo]. specialize (Hlo hi (proj1 Hhi)). lra. }
  destruct (fit_clipdist_valid (clipdist w) (lo - 1) (hi + 1) Hs Hle)
    as (s1 & s2 & Efit & _).
  pose proof (clip_normal_nonzero np_sqrt trisurf w) as Hnz.
  unfold on_update_plot. rewrite Hv.
  cbn [toggle_plane with_clip_disabled with_progress]. rewrite Hp.
  change (clip_projections np_sqrt
            (with_clip_disabled trisurf (with_progress trisurf w 7) false))
    with (clip_projections np_sqrt w).
  change (clip_normal np_sqrt
            (with_clip_disabled trisurf (with_progress trisurf w 7) false))
    with (clip_normal np_sqrt w).
  rewrite Emin, Emax.
  cbn [clipdist with_clip_disabled with_progress]. rewrite Efit.
  match goal with
  | |- context [draw _ _ ?w1 ?mm] =>
      destruct (draw_outcome _ _ extract_surface paint w1 mm) as (_ & _ & -> & _)
  end.
  cbn [plane_text with_plane_text].
  eexists. split; [reflexivity|]. cbn [pl_x pl_y pl_z].
  revert Hnz. unfold clip_normal. rewrite Hz. cbn [c_ux c_uy c_uz c_u].
  intros Hnz.
  set (u := np_sqrt _) in *.
  transitivity ((clipx w * clipx w + clipy w * clipy w + clipz w * clipz w)
                / (u * u)).
  - field. exact Hnz.
  - rewrite <- Hsq. field. exact Hnz.
Qed.

End ViewerUpdates.

Lemma on_update_plot_progress_witness :
  let r := on_update_plot rational_sqrt example_extract example_paint
             (example_viewer (1 # 2) true 1 0 0) None in
  match snd r with
  | None => progress (fst (fst r)) = 10%Z /\
            clip_disabled _ (fst (fst r))
            = negb (toggle_plane (example_viewer (1 # 2) true 1 0 0))
  | Some _ => progress (fst (fst r)) = 7%Z
  end.
Proof.
  apply (on_update_plot_progress rational_sqrt unit unit example_extract
           example_paint (example_viewer (1 # 2) true 1 0 0) None).
  reflexivity.
Defined.

Lemma on_update_plot_clip_raises_iff_witness :
  (above_threshold (example_viewer 5 true 1 0 0) = [] <->
   snd (on_update_plot rational_sqrt example_extract example_paint
          (example_viewer 5 true 1 0 0) None) <> None) /\
  (forall e,
      snd (on_update_plot rational_sqrt example_extract example_paint
             (example_viewer 5 true 1 0 0) None) = Some e ->
      e = ValueError).
Proof.
  apply (on_update_plot_clip_raises_iff rational_sqrt unit unit example_extract
           example_paint (example_viewer 5 true 1 0 0) None).
  - reflexivity.
  - reflexivity.
  - exact example_slider_valid.
Defined.

Lemma on_update_plot_unit_normal_witness :
  exists eq,
    plane_text (fst (fst (on_update_plot rational_sqrt example_extract
                            example_paint
                            (example_viewer (1 # 2) true 3 4 0) None)))
    = Some eq /\
    pl_x eq * pl_x eq + pl_y eq * pl_y eq + pl_z eq * pl_z eq == 1.
Proof.
  apply (on_update_plot_unit_normal rational_sqrt unit unit example_extract
           example_paint (example_viewer (1 # 2) true 3 4 0) None).
  - reflexivity.
  - reflexivity.
  - exact example_slider_valid.
  - discriminate.
  - reflexivity.
  - reflexivity.
Defined.

(** ** More on the metadata log *)

Lemma mirror_nodes_present (g : h5group) (names : list (string * string))
      (ds : Dataset) :
  (forall a n, In (a, n) names -> assoc n g <> None) ->
  snd (mirror_nodes g names ds) = true.
Proof.
  revert ds. induction names as [|[a n] r IH]; intros ds H; [reflexivity|].
  cbn [mirror_nodes]. destruct (assoc n g) eqn:E.
  - apply IH. intros a' n' Hin. apply (H a' n'). now right.
  - exfalso. apply (H a n); [now left | exact E].
Qed.

Lemma node_missing (g : h5group) (name : string) (e : exn) :
  node g name = Raise e -> assoc name g = None.
Proof. unfold node. destruct (assoc name g); [discriminate | reflexivity]. Qed.

(** When the first optional block ended on a missing node, one of the
    three nodes it reads is missing. *)
Lemma optional_columns_unbound {csv_text : Type} (w : meta_world csv_text)
      (g : h5group) (df df' : DataFrame) :
  optional_columns w g df = Ok (df', None) ->
  assoc "COM_rocking_curve" g = None \/ assoc "interp_fwhm" g = None \/
  assoc "tilt_values" g = None.
Proof.
  unfold optional_columns.
  destruct (node g "COM_rocking_curve") as [com|e] eqn:E1;
    [|intros _; left; exact (node_missing _ _ _ E1)].
  destruct (column_value com); [|discriminate].
  destruct (node g "interp_fwhm") as [fw|e] eqn:E2;
    [|intros _; right; left; exact (node_missing _ _ _ E2)].
  destruct (column_value fw); [|discriminate].
  destruct (node g "tilt_values") as [tv|e] eqn:E3;
    [|intros _; right; right; exact (node_missing _ _ _ E3)].
  destruct tv; discriminate.
Qed.

(** X9: the second optional block of [extract_metadata] reads the local
    [tilt_angle] last, after seven nodes of the result file; whenever all
    seven exist, the first optional block has bound [tilt_angle], so the
    name is never read unbound, and the data set receives the value that
    went into the frame. *)
Theorem save_in_dataset_tilt_angle_bound {csv_text : Type}
        (w : meta_world csv_text) (g : h5group)
        (df df' : DataFrame) (t : option h5value) (ds : Dataset) :
  optional_columns w g df = Ok (df', t) ->
  (forall name,
      In name ["tilt_values"; "rocking_curve"; "interp_tilt"; "interp_curve";
               "detector_data_COM"; "COM_rocking_curve"; "interp_fwhm"] ->
      assoc name g <> None) ->
  exists tilt_angle,
    t = Some tilt_angle /\
    assoc "tilt_angle"
          (attributes (fst (fst (save_in_dataset w g df' t ds))))
    = Some tilt_angle.
Proof.
  intros Ho Hall. destruct t as [ta|].
  - exists ta. split; [reflexivity|]. unfold save_in_dataset.
    destruct (mirror_nodes g _ ds) as [ds1 c1].
    match goal with
    | |- context [mirror_nodes g ?names ds1] =>
        pose proof (mirror_nodes_present g names ds1) as Hc;
        destruct (mirror_nodes g names ds1) as [ds2 c2]
    end.
    cbn [snd] in Hc. rewrite Hc.
    + destruct (py_is _ _).
      * destruct (assoc _ (nxs_files w)); [|reflexivity].
        destruct (sixs_columns _ df') as [df1 [[]|]]; reflexivity.
      * reflexivity.
    + intros a n Hin. apply Hall. cbn [In] in Hin |- *.
      repeat (destruct Hin as [[= <- <-]|Hin]; [tauto|]). destruct Hin.
  - exfalso. destruct (optional_columns_unbound w g df df' Ho) as [H|[H|H]];
      [apply (Hall "COM_rocking_curve") | apply (Hall "interp_fwhm")
       | apply (Hall "tilt_values")]; cbn; tauto.
Qed.

Lemma inject_S_nonzero (n : nat) : ~ inject_Z (Z.of_nat (S n)) == 0.
Proof. unfold Qeq. cbn [Qnum Qden inject_Z]. lia. Qed.

Lemma cell_at_set_cell_same (r : row) (c : string) (v : cell) :
  cell_at (set_cell r c v) c = v.
Proof.
  unfold cell_at. induction r as [|[k x] r IH]; cbn [set_cell assoc].
  - now rewrite String.eqb_refl.
  - destruct (String.eqb c k) eqn:E; cbn [assoc].
    + now rewrite String.eqb_refl.
    + rewrite E. exact IH.
Qed.

Lemma rows_set_column (df : DataFrame) (c : string) (v : cell) :
  rows (set_column df c v)
  = map (fun p => (fst p, set_cell (snd p) c v)) (rows df).
Proof. reflexivity. Qed.

Lemma last_map_seq {B} (f : nat -> B) (a n : nat) (d : B) :
  last (map f (seq a (S n))) d = f (a + n)%nat.
Proof. rewrite seq_S, map_app. cbn [map]. apply last_last. Qed.

(** X11: for a scan whose [mu] values are [n + 1] evenly spaced points of
    step [s], the [step_size] that [extract_metadata] writes is
    [(mu[-1] - mu[0]) / len(mu)], that is [s * n / (n + 1)], not [s]. *)
Theorem sixs_columns_step_size (data : nxs_data) (df : DataFrame) (i : nat)
        (r : row) (m0 s : Q) (n : nat) :
  (forall name,
      In name ["x"; "y"; "z"; "delta"; "omega"; "gamma"; "integration_time"] ->
      exists q, first_of data name = Ok q) ->
  assoc "mu" data
  = Some (map (fun k => m0 + inject_Z (Z.of_nat k) * s) (seq 0 (S n))) ->
  rows df = [(i, r)] ->
  exists r' q,
    snd (sixs_columns data df) = None /\
    rows (fst (sixs_columns data df)) = [(i, r')] /\
    cell_at r' "step_size" = CNum q /\
    q == s * inject_Z (Z.of_nat n) / inject_Z (Z.of_nat (S n)).
Proof.
  intros Hall Hmu Hrows.
  assert (Hx := Hall "x"). assert (Hy := Hall "y"). assert (Hz := Hall "z").
  assert (Hd := Hall "delta"). assert (Ho := Hall "omega").
  assert (Hg := Hall "gamma"). assert (Ht := Hall "integration_time").
  destruct Hx as [x0 Hx]; [cbn; tauto|]. destruct Hy as [y0 Hy]; [cbn; tauto|].
  destruct Hz as [z0 Hz]; [cbn; tauto|]. destruct Hd as [d0 Hd]; [cbn; tauto|].
  destruct Ho as [o0 Ho]; [cbn; tauto|]. destruct Hg as [g0 Hg]; [cbn; tauto|].
  destruct Ht as [t0 Ht]; [cbn; tauto|].
  assert (Hgm : getattr data "mu"
                = Ok (map (fun k => m0 + inject_Z (Z.of_nat k) * s)
                          (seq 0 (S n))))
    by (unfold getattr; now rewrite Hmu).
  assert (Hfm : first_of data "mu" = Ok (m0 + inject_Z (Z.of_nat 0) * s))
    by (unfold first_of; now rewrite Hgm).
  assert (Hgt : exists ts, getattr data "integration_time" = Ok ts).
  { unfold first_of in Ht.
    destruct (getattr data "integration_time") as [ts|]; [|discriminate].
    now exists ts. }
  destruct Hgt as [ts Hgt].
  unfold sixs_columns. rewrite Hx, Hy, Hz, Hfm, Hd, Ho, Hg, Hgm, Ht, Hgt.
  cbn [fst snd]. rewrite !rows_set_column, Hrows. cbn [map fst snd].
  eexists _, _. split; [reflexivity|]. split; [reflexivity|]. split.
  - rewrite !cell_at_set_cell_other by discriminate.
    apply cell_at_set_cell_same.
  - rewrite last_map_seq, length_map, length_seq. cbn [Nat.add Z.of_nat].
    field. apply inject_S_nonzero.
Qed.

Lemma sixs_columns_step_size_witness :
  exists r' q,
    snd (sixs_columns example_nxs (example_frame 1)) = None /\
    rows (fst (sixs_columns example_nxs (example_frame 1))) = [(0%nat, r')] /\
    cell_at r' "step_size" = CNum q /\
    q == 1 * inject_Z (Z.of_nat 2) / inject_Z (Z.of_nat 3).
Proof.
  apply (sixs_columns_step_size example_nxs (example_frame 1) 0
           (snd (hd (0%nat, []) (rows (example_frame 1)))) 10 1 2).
  - intros name H. cbn [In] in H.
    repeat (destruct H as [<-|H]; [eexists; reflexivity|]). destruct H.
  - reflexivity.
  - reflexivity.
Defined.

(** X12: every call of [extract_metadata] ends on an exception.  Unless
    it is [NameError] (the unbound [hash_print], evaluated once the log is
    written), nothing was written: every log is as it was. *)
Theorem extract_metadata_raises_keeps_logs {csv_text : Type}
        (w : meta_world csv_text) (n : Z) (file : string)
        (ds : option Dataset) (path : option string) :
  exists e,
    snd (extract_metadata w n file ds path) = Some e /\
    (e <> NameError ->
     fst (fst (fst (extract_metadata w n file ds path))) = w).
Proof.
  unfold extract_metadata.
  destruct (read_metadata w n file ds) as [[ds' out] [t|e']];
    [|exists e'; split; reflexivity].
  unfold save_in_csv.
  match goal with
  | |- context [match ?l with Ok _ => _ | Raise _ => _ end] =>
      destruct l as [[p df]|e']
  end.
  - destruct (mem "scan" (columns df)); cbn [fst snd].
    + exists NameError. split; [reflexivity | congruence].
    + exists KeyError. split; reflexivity.
  - destruct (caught e'); cbn [fst snd].
    + exists NameError. split; [reflexivity | congruence].
    + exists e'. split; reflexivity.
Qed.

Lemma save_in_dataset_tilt_angle_bound_witness :
  exists tilt_angle,
    Some (mean_step example_world [0; 1 # 2; 1]) = Some tilt_angle /\
    assoc "tilt_angle"
          (attributes
             (fst (fst (save_in_dataset example_world example_group_full
                          (set_column
                             (set_column
                                (set_column (example_frame 1)
                                   "COM_rocking_curve" (CNum (1 # 2)))
                                "interp_fwhm" (CNum (1 # 4)))
                             "tilt_angle"
                             (cell_of (mean_step example_world [0; 1 # 2; 1])))
                          (Some (mean_step example_world [0; 1 # 2; 1]))
                          dataset_equal_text))))
    = Some tilt_angle.
Proof.
  apply (save_in_dataset_tilt_angle_bound example_world example_group_full
           (example_frame 1)).
  - reflexivity.
  - intros name H. cbn [In] in H.
    repeat (destruct H as [<-|H]; [discriminate|]). destruct H.
Defined.

(** ** Where the row of a scan goes *)


Lemma assoc_write_csv_other {csv_text : Type} (w : meta_world csv_text)
      (path p : string) (f : csv_text) :
  p <> path -> assoc p (csv_files (write_csv w path f)) = assoc p (csv_files w).
Proof.
  intros Hne. cbn [write_csv csv_files assoc].
  destruct (String.eqb p path) eqn:E; [|reflexivity].
  apply String.eqb_eq in E. contradiction.
Qed.



(** X14: on a log that pandas reads with a [scan] column of 64-bit
    integers and distinct row labels, one call with a scan number of 64
    bits rewrites the log, and only the log, from the frame that keeps
    the columns read and appends the new columns of the row; it keeps, in
    their order and as they were read, the rows of the other scans, and
    puts the row of the scan last.  The call then ends on [NameError]. *)
Theorem extract_metadata_keeps_other_scans {csv_text : Type}
        (w : meta_world csv_text) (n : Z) (file : string)
        (ds : option Dataset) (path : string) (f : csv_text)
        (df t : DataFrame) :
  int64 n = true ->
  assoc path (csv_files w) = Some f ->
  pd_read_csv w f = Ok df ->
  scan_log df ->
  snd (read_metadata w n file ds) = Ok t ->
  exists w' ds' out log r,
    extract_metadata w n file ds (Some path) = (w', ds', out, Some NameError) /\
    assoc path (csv_files w') = Some (pd_to_csv w log) /\
    columns log
    = columns df ++ filter (fun c => negb (mem c (columns df))) (columns t) /\
    rows t = [(0%nat, r)] /\
    map snd (rows log)
    = filter (fun r0 => negb (scan_is n r0)) (map snd (rows df)) ++ [r] /\
    forall p, p <> path -> assoc p (csv_files w') = assoc p (csv_files w).
Proof.
  intros Hn Hf Hread Hlog Hr.
  destruct (read_metadata_scan_frame _ _ _ _ _ Hr) as (r & Hrows & Hscan).
  destruct (save_in_csv_upsert w n t path f df Hf Hread Hlog Hn)
    as (Esave & Hcols & Hbody).
  rewrite (extract_metadata_after_read w n file ds (Some path) t Hr), Esave.
  cbn [fst snd]. do 3 eexists.
  exists (concat (drop df (matching_index w df n)) t), r.
  split; [reflexivity|]. split; [|split; [|split; [|split]]].
  - cbn [write_csv csv_files assoc]. now rewrite String.eqb_refl.
  - exact Hcols.
  - exact Hrows.
  - rewrite Hbody, Hrows. reflexivity.
  - intros p Hne. now apply assoc_write_csv_other.
Qed.

Lemma extract_metadata_keeps_other_scans_witness :
  exists w' ds' out log r,
    extract_metadata example_world 12 "first.h5" None (Some "log.csv")
    = (w', ds', out, Some NameError) /\
    assoc "log.csv" (csv_files w') = Some (to_table log) /\
    columns log
    = columns (frame_of (read_table example_log))
      ++ filter (fun c => negb (mem c (columns (frame_of (read_table example_log)))))
                (columns (example_frame 1)) /\
    rows (example_frame 1) = [(0%nat, r)] /\
    map snd (rows log)
    = filter (fun r0 => negb (scan_is 12 r0))
             (map snd (rows (frame_of (read_table example_log)))) ++ [r] /\
    forall p, p <> "log.csv" ->
              assoc p (csv_files w') = assoc p (csv_files example_world).
Proof.
  apply (extract_metadata_keeps_other_scans example_world 12 "first.h5" None
           "log.csv" example_log (frame_of (read_table example_log))
           (example_frame 1)).
  - reflexivity.
  - reflexivity.
  - reflexivity.
  - exact example_log_read.
  - reflexivity.
Defined.

(** X15: a log that has no [scan] column is read, and the selection
    [df['scan']] then raises [KeyError], which the handler of the block
    does not catch: the call fails after the result file was read, and no
    log is written, neither at the path given nor in the working
    directory. *)
Theorem extract_metadata_log_without_scan {csv_text : Type}
        (w : meta_world csv_text) (n : Z) (file : string)
        (ds : option Dataset) (path : string) (f : csv_text)
        (df t : DataFrame) :
  assoc path (csv_files w) = Some f ->
  pd_read_csv w f = Ok df ->
  mem "scan" (columns df) = false ->
  snd (read_metadata w n file ds) = Ok t ->
  exists ds' out,
    extract_metadata w n file ds (Some path) = (w, ds', out, Some KeyError).
Proof.
  intros Hf Hread Hs Hr.
  rewrite (extract_metadata_after_read w n file ds (Some path) t Hr).
  unfold save_in_csv. rewrite Hf, Hread, Hs. cbn [fst snd].
  rewrite app_nil_r. do 2 eexists. reflexivity.
Qed.

Lemma extract_metadata_log_without_scan_witness :
  exists ds' out,
    extract_metadata
      (write_csv example_world "notes.csv"
         (CsvTable ["sample"] [[("sample", CTxt "Pt")]]))
      12 "first.h5" None (Some "notes.csv")
    = (write_csv example_world "notes.csv"
         (CsvTable ["sample"] [[("sample", CTxt "Pt")]]),
       ds', out, Some KeyError).
Proof.
  apply (extract_metadata_log_without_scan
           (write_csv example_world "notes.csv"
              (CsvTable ["sample"] [[("sample", CTxt "Pt")]]))
           12 "first.h5" None "notes.csv"
           (CsvTable ["sample"] [[("sample", CTxt "Pt")]])
           (frame_of (read_table (CsvTable ["sample"] [[("sample", CTxt "Pt")]])))
           (example_frame 1)).
  - reflexivity.
  - reflexivity.
  - reflexivity.
  - reflexivity.
Defined.

(** ** The data set and the beamline block *)

Lemma mirror_nodes_other (g : h5group) (names : list (string * string))
      (ds : Dataset) (a : string) :
  ~ In a (map fst names) ->
  assoc a (attributes (fst (mirror_nodes g names ds))) = assoc a (attributes ds).
Proof.
  revert ds. induction names as [|[a0 n0] r IH]; intros ds Hn; [reflexivity|].
  cbn [mirror_nodes]. destruct (assoc n0 g) as [v|]; [|reflexivity].
  rewrite IH by (intros H; apply Hn; now right).
  cbn [setattr attributes assoc].
  destruct (String.eqb a a0) eqn:E; [|reflexivity].
  apply String.eqb_eq in E. exfalso. apply Hn. now left.
Qed.

Lemma mirror_nodes_assoc (g : h5group) (names : list (string * string))
      (ds : Dataset) :
  NoDup (map fst names) ->
  (forall a n, In (a, n) names -> assoc n g <> None) ->
  forall a n, In (a, n) names ->
    assoc a (attributes (fst (mirror_nodes g names ds))) = assoc n g.
Proof.
  revert ds. induction names as [|[a0 n0] r IH]; intros ds Hnd Hall a n Hin;
    [destruct Hin|].
  cbn [map fst] in Hnd. inversion Hnd as [|x xs Hnin Hnd']; subst.
  cbn [mirror_nodes]. destruct (assoc n0 g) as [v|] eqn:E.
  - destruct Hin as [[= <- <-]|Hin].
    + rewrite mirror_nodes_other by exact Hnin.
      cbn [setattr attributes assoc]. rewrite String.eqb_refl. now rewrite E.
    + apply IH; [exact Hnd' | | exact Hin].
      intros a' n' H. apply (Hall a' n'). now right.
  - exfalso. apply (Hall a0 n0); [now left | exact E].
Qed.

Lemma node_present (g : h5group) (name : string) (v : h5value) :
  node g name = Ok v -> assoc name g = Some v.
Proof.
  unfold node. destruct (assoc name g); [|discriminate].
  intros H. now injection H as <-.
Qed.

(** The row can be built only from a file that has the six nodes. *)
Lemma required_frame_nodes (n : Z) (g : h5group) (df : DataFrame) :
  required_frame n g = Ok df ->
  forall name,
    In name ["bragg_peak"; "q"; "qnorm"; "dist_plane"; "bragg_inplane";
             "bragg_outofplane"] ->
    assoc name g <> None.
Proof.
  unfold required_frame. intros H.
  destruct (node g "q") eqn:E1; [|discriminate].
  destruct (h5_getitem _ 0); [|discriminate].
  destruct (h5_getitem _ 1); [|discriminate].
  destruct (h5_getitem _ 2); [|discriminate].
  destruct (node g "qnorm") eqn:E2; [|discriminate].
  destruct (node g "dist_plane") eqn:E3; [|discriminate].
  destruct (node g "bragg_inplane") eqn:E4; [|discriminate].
  destruct (node g "bragg_outofplane") eqn:E5; [|discriminate].
  destruct (node g "bragg_peak") eqn:E6; [|discriminate].
  apply node_present in E1, E2, E3, E4, E5, E6.
  intros name Hin. cbn [In] in Hin.
  repeat (destruct Hin as [<-|Hin]; [congruence|]). destruct Hin.
Qed.

(** The data set that [save_in_dataset] leaves, whatever the outcome of
    the beamline block. *)
Lemma save_in_dataset_attributes {csv_text : Type} (w : meta_world csv_text)
      (g : h5group) (df : DataFrame) (t : option h5value) (ds : Dataset)
      (name : string) :
  In name ["bragg_peak"; "q"; "qnorm"; "dist_plane"; "bragg_inplane";
           "bragg_outofplane"] ->
  assoc name (attributes (fst (fst (save_in_dataset w g df t ds))))
  = assoc name
      (attributes
         (fst (mirror_nodes g
                 [("bragg_peak", "bragg_peak"); ("q", "q"); ("qnorm", "qnorm");
                  ("dist_plane", "dist_plane");
                  ("bragg_inplane", "bragg_inplane");
                  ("bragg_outofplane", "bragg_outofplane")] ds))).
Proof.
  intros Hin. unfold save_in_dataset.
  destruct (mirror_nodes g _ ds) as [ds1 c1]. cbn [fst].
  match goal with
  | |- context [mirror_nodes g ?names ds1] =>
      pose proof (mirror_nodes_other g names ds1 name) as Ho;
      destruct (mirror_nodes g names ds1) as [ds2 c2]
  end.
  cbn [fst] in Ho. rewrite <- Ho.
  - assert (Ht : forall v, assoc name (attributes (setattr ds2 "tilt_angle" v))
                           = assoc name (attributes ds2)).
    { intros v. cbn [setattr attributes assoc].
      destruct (String.eqb name "tilt_angle") eqn:E; [|reflexivity].
      apply String.eqb_eq in E. subst name. cbn [In] in Hin.
      repeat (destruct Hin as [Hin|Hin]; [discriminate Hin|]). destruct Hin. }
    set (ds3 := match c2, t with
                | true, Some t0 => setattr ds2 "tilt_angle" t0
                | _, _ => ds2
                end).
    assert (H3 : assoc name (attributes ds3) = assoc name (attributes ds2))
      by (subst ds3; destruct c2, t; try reflexivity; apply Ht).
    rewrite <- H3.
    destruct (py_is _ _); [|reflexivity].
    destruct (assoc _ (nxs_files w)); [|reflexivity].
    destruct (sixs_columns _ df) as [df1 [[]|]]; reflexivity.
  - cbn [In] in Hin. cbn [map fst In].
    repeat (destruct Hin as [<-|Hin];
            [intros H; repeat (destruct H as [H|H]; [discriminate H|]);
             destruct H|]).
    destruct Hin.
Qed.

(** X16: once the row has been read from the result file, the [Dataset]
    passed to [extract_metadata] carries the six required nodes under
    their names, with the values of the file; this holds also when the
    beamline block then raises and no log is written, since the data set
    is updated in place. *)
Theorem extract_metadata_mirrors_required {csv_text : Type}
        (w : meta_world csv_text) (n : Z)
        (file : string) (ds : Dataset) (path : option string) (g : h5group)
        (df df' : DataFrame) (t : option h5value) :
  assoc file (h5_files w) = Some g ->
  required_frame n g = Ok df ->
  optional_columns w g df = Ok (df', t) ->
  exists ds',
    snd (fst (fst (extract_metadata w n file (Some ds) path))) = Some ds' /\
    forall name,
      In name ["bragg_peak"; "q"; "qnorm"; "dist_plane"; "bragg_inplane";
               "bragg_outofplane"] ->
      exists v, assoc name g = Some v /\ assoc name (attributes ds') = Some v.
Proof.
  intros Hg Hr Ho.
  exists (fst (fst (save_in_dataset w g df' t ds))). split.
  - unfold extract_metadata, read_metadata. rewrite Hg, Hr, Ho.
    destruct (save_in_dataset w g df' t ds) as [[ds1 out] [t1|e]];
      cbn [fst snd]; [|reflexivity].
    now destruct (save_in_csv w n t1 path) as [[w' o2] e].
  - intros name Hin.
    pose proof (required_frame_nodes n g df Hr name Hin) as Hp.
    destruct (assoc name g) as [v|] eqn:E; [|contradiction].
    exists v. split; [reflexivity|].
    rewrite save_in_dataset_attributes by exact Hin.
    rewrite (mirror_nodes_assoc g _ ds) with (n := name).
    + exact E.
    + repeat constructor; cbn [In]; intros H;
        repeat (destruct H as [H|H]; [discriminate H|]); destruct H.
    + intros a n' H. cbn [In] in H.
      repeat (destruct H as [[= <- <-]|H];
              [apply (required_frame_nodes n g df Hr); cbn; tauto|]).
      destruct H.
    + cbn [In] in Hin |- *.
      repeat (destruct Hin as [<-|Hin]; [tauto|]). destruct Hin.
Qed.

Lemma extract_metadata_mirrors_required_witness :
  snd (extract_metadata example_world 12 "first.h5"
         (Some (mk_Dataset SIXS_2019_literal "absent.nxs" [])) None)
  = Some FileNotFoundError /\
  exists ds',
    snd (fst (fst (extract_metadata example_world 12 "first.h5"
                     (Some (mk_Dataset SIXS_2019_literal "absent.nxs" []))
                     None)))
    = Some ds' /\
    forall name,
      In name ["bragg_peak"; "q"; "qnorm"; "dist_plane"; "bragg_inplane";
               "bragg_outofplane"] ->
      exists v, assoc name (example_group 1) = Some v /\
                assoc name (attributes ds') = Some v.
Proof.
  split; [reflexivity|].
  apply (extract_metadata_mirrors_required example_world 12 "first.h5"
           (mk_Dataset SIXS_2019_literal "absent.nxs" []) None
           (example_group 1) (example_frame 1) (example_frame 1) None);
    reflexivity.
Defined.








(** ** More on the config writer *)

Lemma config_lines_0d_array (kwargs : list (string * param)) (k : string)
      (a : ndarray Z) :
  In (k, Arr a) kwargs -> shape a = [] -> config_lines kwargs = Raise TypeError.
Proof.
  intros Hin Hs. induction kwargs as [|[k' v] r IH]; [destruct Hin|].
  cbn [config_lines].
  pose proof (config_line_formatted k' v) as Hl.
  destruct (config_line k' v) as [line|e] eqn:El.
  - destruct Hin as [[= -> ->]|Hin].
    + cbn [config_line] in El. unfold list_of_array in El. rewrite Hs in El.
      discriminate El.
    + now rewrite (IH Hin).
  - destruct Hl as [-> _]. reflexivity.
Qed.

(** X18: the parameters are formatted before anything else is done: with
    an array without axes among them, [create_yaml_file] raises
    [TypeError] and leaves the file system as it was, with no directory
    created and no file written, whatever the destination. *)
Theorem create_yaml_file_0d_array_first (fs : filesystem) (fname : string)
        (kwargs : list (string * param)) (k : string) (a : ndarray Z) :
  In (k, Arr a) kwargs ->
  shape a = [] ->
  create_yaml_file fs fname kwargs = (fs, Raise TypeError).
Proof.
  intros Hin Hs. unfold create_yaml_file.
  now rewrite (config_lines_0d_array kwargs k a Hin Hs).
Qed.

Lemma create_yaml_file_0d_array_first_witness :
  create_yaml_file example_fs "out/config.yml"
    [("scan", Val (PInt 1)); ("energy", Arr (mk_ndarray [] (fun _ => 9000%Z)))]
  = (example_fs, Raise TypeError).
Proof.
  apply (create_yaml_file_0d_array_first example_fs "out/config.yml"
           [("scan", Val (PInt 1));
            ("energy", Arr (mk_ndarray [] (fun _ => 9000%Z)))]
           "energy" (mk_ndarray [] (fun _ => 9000%Z))).
  - right. left. reflexivity.
  - reflexivity.
Defined.

(** *** Texts of paths *)

Lemma chars_append (a b : string) : chars (a ++ b) = chars a ++ chars b.
Proof.
  unfold chars. induction a as [|c a IH]; [reflexivity|].
  cbn. now rewrite IH.
Qed.

Lemma chars_string_of_list (l : list ascii) : chars (string_of_list_ascii l) = l.
Proof. apply list_ascii_of_string_of_list_ascii. Qed.

Lemma chars_relative_path (dirs : list string) (file : string) :
  chars (relative_path dirs file) = directory_text dirs ++ chars file.
Proof.
  induction dirs as [|d r IH]; [reflexivity|].
  cbn [relative_path fold_right directory_text flat_map].
  fold (relative_path r file). fold (directory_text r).
  rewrite !chars_append, IH. cbn [chars list_ascii_of_string app].
  now rewrite <- !app_assoc.
Qed.

Lemma plain_name_spec (s : string) :
  plain_name s = true ->
  chars s <> [] /\
  existsb (fun c => Ascii.eqb c "/"%char) (chars s) = false /\
  is_dot s = false.
Proof.
  unfold plain_name. rewrite !andb_true_iff, !negb_true_iff.
  intros [[H1 H2] H3]. repeat split; try assumption.
  intros E. now rewrite E in H1.
Qed.

Lemma split_on_app (sep : ascii) (x rest : list ascii) :
  existsb (fun c => Ascii.eqb c sep) x = false ->
  split_on sep (x ++ sep :: rest) = x :: split_on sep rest.
Proof.
  induction x as [|c x IH]; cbn [existsb app split_on]; intros H.
  - now rewrite Ascii.eqb_refl.
  - apply orb_false_iff in H as [Hc Hx]. rewrite Hc, (IH Hx). reflexivity.
Qed.

Lemma split_on_none (sep : ascii) (x : list ascii) :
  existsb (fun c => Ascii.eqb c sep) x = false -> split_on sep x = [x].
Proof.
  induction x as [|c x IH]; cbn [existsb split_on]; intros H; [reflexivity|].
  apply orb_false_iff in H as [Hc Hx]. now rewrite Hc, (IH Hx).
Qed.

Lemma split_on_directory_text (dirs : list string) (x : list ascii) :
  forallb plain_name dirs = true ->
  split_on "/" (directory_text dirs ++ x)
  = map chars dirs ++ split_on "/" x.
Proof.
  induction dirs as [|d r IH]; [reflexivity|].
  cbn [forallb directory_text flat_map map]. fold (directory_text r).
  intros H. apply andb_true_iff in H as [Hd Hr].
  destruct (plain_name_spec d Hd) as (_ & Hs & _).
  rewrite <- !app_assoc. cbn [app].
  rewrite (split_on_app "/" (chars d) _ Hs), (IH Hr). reflexivity.
Qed.

Lemma basename_relative_path (dirs : list string) (file : string) :
  forallb plain_name (dirs ++ [file]) = true ->
  basename (chars (relative_path dirs file)) = chars file.
Proof.
  rewrite forallb_app. intros H. apply andb_true_iff in H as [Hd Hf].
  cbn [forallb] in Hf. rewrite andb_true_r in Hf.
  destruct (plain_name_spec file Hf) as (_ & Hs & _).
  unfold basename.
  rewrite chars_relative_path, (split_on_directory_text dirs _ Hd).
  rewrite (split_on_none "/" _ Hs). apply last_last.
Qed.

Lemma lstrip_all (set s t : list ascii) :
  forallb (fun c => existsb (Ascii.eqb c) set) s = true ->
  lstrip set (s ++ t) = lstrip set t.
Proof.
  induction s as [|c s IH]; cbn [forallb app lstrip]; intros H; [reflexivity|].
  apply andb_true_iff in H as [Hc Hs]. now rewrite Hc, (IH Hs).
Qed.

Lemma lstrip_stop (set : list ascii) (c : ascii) (s : list ascii) :
  existsb (Ascii.eqb c) set = false -> lstrip set (c :: s) = c :: s.
Proof. intros H. cbn [lstrip]. now rewrite H. Qed.

Lemma existsb_self (s : list ascii) :
  forallb (fun c => existsb (Ascii.eqb c) s) s = true.
Proof.
  apply forallb_forall. intros c Hc. apply existsb_exists.
  exists c. split; [exact Hc | apply Ascii.eqb_refl].
Qed.

Lemma forallb_rev {B} (f : B -> bool) (l : list B) :
  forallb f (rev l) = forallb f l.
Proof.
  induction l as [|a l IH]; [reflexivity|].
  cbn [rev forallb]. rewrite forallb_app, IH. cbn [forallb].
  rewrite andb_true_r. apply andb_comm.
Qed.

Lemma slash_not_in (s : list ascii) :
  existsb (fun c => Ascii.eqb c "/"%char) s = false ->
  existsb (Ascii.eqb "/"%char) s = false.
Proof.
  induction s as [|c s IH]; [reflexivity|]. cbn [existsb]. intros H.
  apply orb_false_iff in H as [Hc Hs].
  rewrite (Ascii.eqb_sym "/"%char c), Hc. now apply IH.
Qed.

(** Stripping the characters of the file name from a text that ends with
    a slash and the file name removes the file name at the right end. *)
Lemma rstrip_file (x f : list ascii) :
  existsb (fun c => Ascii.eqb c "/"%char) f = false ->
  rev (lstrip f (rev ((x ++ ["/"%char]) ++ f))) = x ++ ["/"%char].
Proof.
  intros Hs. rewrite !rev_app_distr. cbn [rev app].
  rewrite lstrip_all by (rewrite forallb_rev; apply existsb_self).
  rewrite lstrip_stop by now apply slash_not_in.
  cbn [rev]. now rewrite rev_involutive.
Qed.

Lemma directory_text_app (a b : list string) :
  directory_text (a ++ b) = directory_text a ++ directory_text b.
Proof. unfold directory_text. apply flat_map_app. Qed.

Lemma directory_text_last (dirs : list string) :
  dirs <> [] -> exists x, directory_text dirs = x ++ ["/"%char].
Proof.
  intros H. destruct (exists_last H) as (r & d & ->).
  rewrite directory_text_app. cbn [directory_text flat_map].
  rewrite app_nil_r. exists (directory_text r ++ chars d).
  now rewrite app_assoc.
Qed.

Lemma forallb_plain_app (a b : list string) :
  forallb plain_name (a ++ b) = true ->
  forallb plain_name a = true /\ forallb plain_name b = true.
Proof. rewrite forallb_app. apply andb_true_iff. Qed.

Lemma forallb_plain_single (f : string) :
  forallb plain_name [f] = true -> plain_name f = true.
Proof. cbn [forallb]. now rewrite andb_true_r. Qed.

(** Where [strip] leaves the left end alone, the directory is the path
    without the file name. *)
Lemma directory_of_relative_path (dirs : list string) (file : string) :
  forallb plain_name (dirs ++ [file]) = true ->
  first_char_kept dirs file = true ->
  directory_of (relative_path dirs file) = directory_text dirs.
Proof.
  intros Hp Hk. unfold directory_of.
  rewrite (basename_relative_path dirs file Hp), chars_relative_path.
  destruct (forallb_plain_app _ _ Hp) as [Hd Hf].
  apply forallb_plain_single in Hf.
  destruct (plain_name_spec file Hf) as (_ & Hs & _).
  unfold strip. destruct dirs as [|d r].
  - cbn [directory_text flat_map app].
    pose proof (lstrip_all (chars file) (chars file) [] (existsb_self _)) as E.
    rewrite app_nil_r in E. rewrite E. reflexivity.
  - cbn [forallb] in Hd. apply andb_true_iff in Hd as [Hd _].
    destruct (plain_name_spec d Hd) as (Hne & _ & _).
    cbn [first_char_kept] in Hk.
    assert (Hl : lstrip (chars file) (directory_text (d :: r) ++ chars file)
                 = directory_text (d :: r) ++ chars file).
    { cbn [directory_text flat_map]. destruct (chars d) as [|c s];
        [contradiction|]. cbn [app]. apply lstrip_stop.
      now apply negb_true_iff. }
    rewrite Hl.
    destruct (directory_text_last (d :: r)) as [x Hx]; [discriminate|].
    rewrite Hx. now apply rstrip_file.
Qed.

(** *** Components, and the walk down plain names *)

Lemma components_directory_text (dirs : list string) (x : list ascii) :
  forallb plain_name dirs = true ->
  components (directory_text dirs ++ x) = dirs ++ components x.
Proof.
  intros Hd. unfold components.
  rewrite (split_on_directory_text dirs x Hd), filter_app, map_app. f_equal.
  induction dirs as [|d r IH]; [reflexivity|].
  cbn [forallb] in Hd. apply andb_true_iff in Hd as [Hd Hr].
  destruct (plain_name_spec d Hd) as (Hne & _ & _).
  cbn [map filter]. destruct (chars d) as [|c s] eqn:E; [contradiction|].
  cbn [is_empty negb map]. rewrite <- E, string_of_chars. f_equal.
  now apply IH.
Qed.

Lemma components_plain (f : string) :
  plain_name f = true -> components (chars f) = [f].
Proof.
  intros Hf. destruct (plain_name_spec f Hf) as (Hne & Hs & _).
  unfold components. rewrite (split_on_none "/" _ Hs). cbn [filter].
  destruct (chars f) as [|c s] eqn:E; [contradiction|].
  cbn [is_empty negb map]. now rewrite <- E, string_of_chars.
Qed.

Lemma start_of_cons (fs : filesystem) (c : ascii) (s : list ascii) :
  start_of fs (c :: s) = if Ascii.eqb c "/"%char then [] else fs_cwd fs.
Proof.
  destruct c as [[] [] [] [] [] [] [] []]; reflexivity.
Qed.

Lemma start_of_plain (fs : filesystem) (d : string) (x : list ascii) :
  plain_name d = true -> start_of fs (chars d ++ x) = fs_cwd fs.
Proof.
  intros Hd. destruct (plain_name_spec d Hd) as (Hne & Hs & _).
  destruct (chars d) as [|c s]; [contradiction|].
  cbn [app]. rewrite start_of_cons. cbn [existsb] in Hs.
  apply orb_false_iff in Hs as [-> _]. reflexivity.
Qed.

Lemma is_dot_false (c : string) :
  is_dot c = false -> String.eqb c "." = false /\ String.eqb c ".." = false.
Proof. unfold is_dot. apply orb_false_iff. Qed.

Lemma walk_app (fs : filesystem) (a b : list string) (cur : fs_path) :
  walk fs cur (a ++ b)
  = match walk fs cur a with
    | Ok p => walk fs p b
    | Raise e => Raise e
    end.
Proof.
  revert cur. induction a as [|c a IH]; intros cur; [reflexivity|].
  cbn [app walk].
  destruct (String.eqb c "."); [apply IH|].
  destruct (String.eqb c ".."); [apply IH|].
  destruct (fs_lookup fs (cur ++ [c])) as [[|content]|]; [apply IH| |];
    reflexivity.
Qed.

Lemma walk_single (fs : filesystem) (cur : fs_path) (c : string) :
  is_dot c = false ->
  walk fs cur [c]
  = match fs_lookup fs (cur ++ [c]) with
    | Some FsDir => Ok (cur ++ [c])
    | Some (FsFile _) => Raise NotADirectoryError
    | None => Raise FileNotFoundError
    end.
Proof.
  intros H. destruct (is_dot_false c H) as [H1 H2].
  cbn [walk]. rewrite H1, H2. reflexivity.
Qed.

Lemma walk_plain_result (fs : filesystem) (names : list string)
      (cur p : fs_path) :
  forallb plain_name names = true ->
  walk fs cur names = Ok p -> p = cur ++ names.
Proof.
  revert cur. induction names as [|c r IH]; intros cur Hp.
  - cbn [walk]. intros H. injection H as <-. now rewrite app_nil_r.
  - cbn [forallb] in Hp. apply andb_true_iff in Hp as [Hc Hr].
    destruct (plain_name_spec c Hc) as (_ & _ & Hdot).
    destruct (is_dot_false c Hdot) as [H1 H2].
    cbn [walk]. rewrite H1, H2.
    destruct (fs_lookup fs (cur ++ [c])) as [[|content]|]; try discriminate.
    intros H. rewrite (IH _ Hr H). now rewrite <- app_assoc.
Qed.

(** The directories passed on a successful walk down plain names. *)
Lemma walk_plain_lookup (fs : filesystem) (pre post : list string)
      (cur p : fs_path) :
  forallb plain_name (pre ++ post) = true ->
  walk fs cur (pre ++ post) = Ok p ->
  pre <> [] ->
  fs_lookup fs (cur ++ pre) = Some FsDir.
Proof.
  revert cur. induction pre as [|c r IH]; intros cur Hp Hw Hne;
    [contradiction|].
  cbn [app forallb] in Hp. apply andb_true_iff in Hp as [Hc Hr].
  destruct (plain_name_spec c Hc) as (_ & _ & Hdot).
  destruct (is_dot_false c Hdot) as [H1 H2].
  cbn [app walk] in Hw. rewrite H1, H2 in Hw.
  destruct (fs_lookup fs (cur ++ [c])) as [[|content]|] eqn:El;
    try discriminate Hw.
  destruct r as [|c' r'].
  - exact El.
  - replace (cur ++ c :: c' :: r') with ((cur ++ [c]) ++ c' :: r')
      by now rewrite <- app_assoc.
    apply IH; [exact Hr | exact Hw | discriminate].
Qed.

(** A node added where there was none leaves every successful walk as
    it was. *)
Lemma walk_add (fs : filesystem) (p : fs_path) (n : fs_node)
      (names : list string) (cur q : fs_path) :
  p <> [] -> fs_lookup fs p = None ->
  walk fs cur names = Ok q -> walk (fs_add fs p n) cur names = Ok q.
Proof.
  intros Hp Hn. revert cur. induction names as [|c r IH]; intros cur;
    [trivial|].
  cbn [walk].
  destruct (String.eqb c "."); [apply IH|].
  destruct (String.eqb c ".."); [apply IH|].
  rewrite (fs_lookup_add fs p (cur ++ [c]) n Hp).
  destruct (fs_lookup fs (cur ++ [c])) as [[|content]|] eqn:El;
    try discriminate.
  destruct (path_eqb (cur ++ [c]) p) eqn:E.
  - apply path_eqb_eq in E. rewrite E in El. congruence.
  - apply IH.
Qed.

(** *** The directory loop on plain names *)

Lemma start_of_directory_text (fs : filesystem) (names : list string)
      (x : list ascii) :
  forallb plain_name names = true -> names <> [] ->
  start_of fs (directory_text names ++ x) = fs_cwd fs.
Proof.
  intros Hp Hne. destruct names as [|d r]; [contradiction|].
  cbn [forallb] in Hp. apply andb_true_iff in Hp as [Hd _].
  cbn [directory_text flat_map]. rewrite <- !app_assoc.
  now apply start_of_plain.
Qed.

Lemma directory_text_not_nil (names : list string) (x : list ascii) :
  names <> [] -> directory_text names ++ x <> [].
Proof.
  intros Hne. destruct (directory_text_last names Hne) as [y ->].
  rewrite <- app_assoc. intros E. now apply app_eq_nil in E as [_ E].
Qed.

(** [os.mkdir] of the text [d1/.../dn/d/] (possibly with one more slash),
    where the directories [d1 ... dn] exist. *)
Lemma os_mkdir_plain (fs : filesystem) (done : list string) (d : string)
      (x : list ascii) (cur : fs_path) :
  forallb plain_name (done ++ [d]) = true ->
  components x = [] ->
  walk fs (fs_cwd fs) done = Ok cur ->
  os_mkdir fs (directory_text (done ++ [d]) ++ x)
  = match fs_lookup fs (cur ++ [d]) with
    | Some _ => Raise FileExistsError
    | None =>
        if existsb (path_eqb cur) (fs_read_only fs) then Raise PermissionError
        else Ok (fs_add fs (cur ++ [d]) FsDir)
    end.
Proof.
  intros Hp Hx Hw.
  assert (Hne : done ++ [d] <> []) by apply app_single_not_nil.
  pose proof (directory_text_not_nil (done ++ [d]) x Hne) as Hnil.
  pose proof (components_directory_text (done ++ [d]) x Hp) as Hc.
  pose proof (start_of_directory_text fs (done ++ [d]) x Hp Hne) as Hs.
  destruct (forallb_plain_app _ _ Hp) as [_ Hd].
  apply forallb_plain_single in Hd.
  destruct (plain_name_spec d Hd) as (_ & _ & Hdot).
  unfold os_mkdir.
  destruct (directory_text (done ++ [d]) ++ x) as [|c s]; [contradiction|].
  rewrite Hc, Hx, app_nil_r, rev_app_distr, Hs. cbn [rev app].
  rewrite rev_involutive, Hw, Hdot. reflexivity.
Qed.

Lemma list_last_cases {B} (l : list B) :
  l = [] \/ exists l' a, l = l' ++ [a].
Proof.
  destruct l as [|b l]; [now left|]. right.
  destruct (@exists_last _ (b :: l)) as (l' & a & E); [discriminate|].
  now exists l', a.
Qed.

Lemma file_at_lookup (fs : filesystem) (q : fs_path) (content : list ascii) :
  fs_lookup fs q = Some (FsFile content) -> file_at fs q = Some content.
Proof. unfold file_at. now intros ->. Qed.

(** The loop over the split directory text creates what is missing of
    [d1], [d1/d2], ... below the working directory, and lets no exception
    out, when no name on the way is a regular file or lies in a directory
    that may not be written. *)
Lemma mkdir_loop_plain (rest done : list string) (fs : filesystem)
      (cur : fs_path) :
  forallb plain_name (done ++ rest) = true ->
  walk fs (fs_cwd fs) done = Ok cur ->
  (forall pre post, rest = pre ++ post ->
     file_at fs (cur ++ pre) = None /\
     existsb (path_eqb (cur ++ pre)) (fs_read_only fs) = false) ->
  exists fs',
    mkdir_loop fs (directory_text done) (map chars rest ++ [[]]) = (fs', None) /\
    fs_cwd fs' = fs_cwd fs /\ fs_read_only fs' = fs_read_only fs /\
    walk fs' (fs_cwd fs) (done ++ rest) = Ok (cur ++ rest) /\
    (forall q, (forall pre post, rest = pre ++ post -> q <> cur ++ pre) ->
               fs_lookup fs' q = fs_lookup fs q).
Proof.
  revert done fs cur. induction rest as [|d rest IH]; intros done fs cur Hp Hw Hok.
  - exists fs. rewrite !app_nil_r. cbn [map app mkdir_loop].
    split; [|repeat split; trivial].
    destruct (list_last_cases done) as [->|(done' & d & ->)].
    + reflexivity.
    + rewrite app_nil_r in Hp. rewrite walk_app in Hw.
      destruct (walk fs (fs_cwd fs) done') as [p'|] eqn:Ew; [|discriminate].
      destruct (forallb_plain_app _ _ Hp) as [_ Hd].
      apply forallb_plain_single in Hd.
      destruct (plain_name_spec d Hd) as (_ & _ & Hdot).
      rewrite (walk_single fs p' d Hdot) in Hw.
      rewrite (os_mkdir_plain fs done' d ["/"%char] p' Hp eq_refl Ew).
      destruct (fs_lookup fs (p' ++ [d])) as [[|content]|]; try discriminate.
      reflexivity.
  - assert (Hp' : forallb plain_name ((done ++ [d]) ++ rest) = true)
      by now rewrite <- app_assoc.
    destruct (forallb_plain_app _ _ Hp') as [Hpd _].
    destruct (forallb_plain_app _ _ Hpd) as [_ Hd].
    apply forallb_plain_single in Hd.
    destruct (plain_name_spec d Hd) as (_ & _ & Hdot).
    assert (Hfp : directory_text done ++ chars d ++ ["/"%char]
                  = directory_text (done ++ [d]) ++ []).
    { rewrite directory_text_app. cbn [directory_text flat_map].
      now rewrite !app_nil_r. }
    cbn [map app mkdir_loop]. rewrite Hfp.
    rewrite (os_mkdir_plain fs done d [] cur Hpd eq_refl Hw).
    rewrite app_nil_r.
    destruct (Hok [d] rest eq_refl) as [Hfile _].
    destruct (Hok [] (d :: rest) eq_refl) as [_ Hro].
    rewrite app_nil_r in Hro.
    destruct (fs_lookup fs (cur ++ [d])) as [[|content]|] eqn:El.
    + (* the directory exists *)
      destruct (IH (done ++ [d]) fs (cur ++ [d]) Hp') as (fs' & H1 & H2 & H3 & H4 & H5).
      * rewrite walk_app, Hw, (walk_single fs cur d Hdot), El. reflexivity.
      * intros pre post E. rewrite <- app_assoc. apply (Hok (d :: pre) post).
        now rewrite E.
      * exists fs'. split; [exact H1|]. split; [exact H2|]. split; [exact H3|].
        split; [now rewrite <- !app_assoc in H4|].
        intros q Hq. apply H5. intros pre post E. rewrite <- app_assoc.
        apply (Hq (d :: pre) post). now rewrite E.
    + rewrite (file_at_lookup _ _ _ El) in Hfile. discriminate Hfile.
    + (* the directory is created *)
      rewrite Hro.
      set (fs1 := fs_add fs (cur ++ [d]) FsDir).
      destruct (IH (done ++ [d]) fs1 (cur ++ [d]) Hp') as (fs' & H1 & H2 & H3 & H4 & H5).
      * rewrite walk_app. change (fs_cwd fs1) with (fs_cwd fs).
        rewrite (walk_add fs (cur ++ [d]) FsDir done (fs_cwd fs) cur
                   (app_single_not_nil _ _) El Hw
                 : walk fs1 (fs_cwd fs) done = Ok cur).
        rewrite (walk_single fs1 cur d Hdot). subst fs1.
        rewrite fs_lookup_add by apply app_single_not_nil.
        now rewrite path_eqb_refl.
      * intros pre post E. rewrite <- app_assoc.
        destruct (Hok (d :: pre) post) as [Hf Hr]; [now rewrite E|].
        split; [|exact Hr]. unfold file_at. subst fs1.
        rewrite fs_lookup_add by apply app_single_not_nil.
        destruct (path_eqb _ _); [reflexivity | exact Hf].
      * exists fs'. split; [exact H1|]. split; [exact H2|]. split; [exact H3|].
        split; [now rewrite <- !app_assoc in H4|].
        intros q Hq. rewrite H5.
        -- subst fs1. rewrite fs_lookup_add by apply app_single_not_nil.
           destruct (path_eqb q (cur ++ [d])) eqn:E; [|reflexivity].
           apply path_eqb_eq in E. exfalso. now apply (Hq [d] rest).
        -- intros pre post E. rewrite <- app_assoc.
           apply (Hq (d :: pre) post). now rewrite E.
Qed.

Lemma last_app_nonempty {B} (x s : list B) (d : B) :
  s <> [] -> last (x ++ s) d = last s d.
Proof.
  intros Hs. induction x as [|a x IH]; [reflexivity|].
  cbn [app]. destruct (x ++ s) eqn:E.
  - now apply app_eq_nil in E as [_ E].
  - cbn [last]. exact IH.
Qed.

Lemma last_not_slash (s : list ascii) :
  existsb (fun c => Ascii.eqb c "/"%char) s = false -> s <> [] ->
  Ascii.eqb (last s " "%char) "/"%char = false.
Proof.
  induction s as [|c s IH]; [contradiction|]. cbn [existsb]. intros H _.
  apply orb_false_iff in H as [Hc Hs]. destruct s as [|c' s'].
  - exact Hc.
  - apply IH; [exact Hs | discriminate].
Qed.

(** [open(fname, "w")] on the path [d1/.../dn/file] of plain names. *)
Lemma open_write_plain (fs : filesystem) (dirs : list string) (file : string)
      (content : list ascii) :
  forallb plain_name (dirs ++ [file]) = true ->
  open_write fs (chars (relative_path dirs file)) content
  = match walk fs (fs_cwd fs) dirs with
    | Raise e => Raise e
    | Ok parent =>
        match fs_lookup fs (parent ++ [file]) with
        | Some FsDir => Raise IsADirectoryError
        | Some (FsFile _) =>
            if existsb (path_eqb (parent ++ [file])) (fs_read_only fs)
            then Raise PermissionError
            else Ok (fs_add fs (parent ++ [file]) (FsFile content))
        | None =>
            if existsb (path_eqb parent) (fs_read_only fs)
            then Raise PermissionError
            else Ok (fs_add fs (parent ++ [file]) (FsFile content))
        end
    end.
Proof.
  intros Hp. destruct (forallb_plain_app _ _ Hp) as [Hd Hf].
  apply forallb_plain_single in Hf.
  destruct (plain_name_spec file Hf) as (Hne & Hs & Hdot).
  rewrite chars_relative_path.
  assert (Hc : components (directory_text dirs ++ chars file) = dirs ++ [file])
    by now rewrite (components_directory_text dirs _ Hd), (components_plain file Hf).
  assert (Hst : start_of fs (directory_text dirs ++ chars file) = fs_cwd fs).
  { destruct dirs as [|d r].
    - cbn [directory_text flat_map app].
      rewrite <- (app_nil_r (chars file)). now apply start_of_plain.
    - apply start_of_directory_text; [exact Hd | discriminate]. }
  assert (Hl : Ascii.eqb (last (directory_text dirs ++ chars file) " "%char)
                         "/"%char = false)
    by (rewrite (last_app_nonempty _ _ _ Hne); now apply last_not_slash).
  unfold open_write.
  destruct (directory_text dirs ++ chars file) as [|c s] eqn:E.
  - now apply app_eq_nil in E as [_ E].
  - rewrite Hc, rev_app_distr, Hst, Hl. cbn [rev app].
    rewrite Hdot, rev_involutive. reflexivity.
Qed.

Lemma longer_than_prefix {B} (cur pre post : list B) (x : B) :
  cur ++ (pre ++ post) ++ [x] <> cur ++ pre.
Proof.
  intros H. apply app_inv_head in H. apply (f_equal (@List.length B)) in H.
  rewrite !length_app in H. cbn in H. lia.
Qed.

(** The block "Create directory" on the directories of a path of plain
    names: afterwards they all exist. *)
Lemma make_directories_plain (fs : filesystem) (dirs : list string) :
  forallb plain_name dirs = true ->
  (forall pre post, dirs = pre ++ post ->
     file_at fs (fs_cwd fs ++ pre) = None /\
     existsb (path_eqb (fs_cwd fs ++ pre)) (fs_read_only fs) = false) ->
  exists fs1,
    make_directories fs (directory_text dirs) = (fs1, None) /\
    fs_cwd fs1 = fs_cwd fs /\ fs_read_only fs1 = fs_read_only fs /\
    walk fs1 (fs_cwd fs) dirs = Ok (fs_cwd fs ++ dirs) /\
    (forall q, (forall pre post, dirs = pre ++ post -> q <> fs_cwd fs ++ pre) ->
               fs_lookup fs1 q = fs_lookup fs q).
Proof.
  intros Hp Hok. unfold make_directories.
  destruct (os_path_isdir fs (directory_text dirs)) eqn:Ei.
  - exists fs. repeat split; trivial.
    unfold os_path_isdir in Ei.
    destruct dirs as [|d r]; [discriminate Ei|].
    pose proof (directory_text_not_nil (d :: r) [] (ltac:(discriminate))) as Hn.
    pose proof (components_directory_text (d :: r) [] Hp) as Hc.
    pose proof (start_of_directory_text fs (d :: r) [] Hp (ltac:(discriminate)))
      as Hs.
    rewrite app_nil_r in Hn, Hc, Hs.
    destruct (directory_text (d :: r)) as [|c s]; [contradiction|].
    rewrite Hc, Hs in Ei. change (components []) with (@nil string) in Ei.
    rewrite app_nil_r in Ei.
    destruct (walk fs (fs_cwd fs) (d :: r)) as [q|] eqn:Ew; [|discriminate Ei].
    now rewrite (walk_plain_result fs (d :: r) (fs_cwd fs) q Hp Ew).
  - pose proof (split_on_directory_text dirs [] Hp) as Hsp.
    rewrite app_nil_r in Hsp. rewrite Hsp.
    change (split_on "/" []) with [@nil ascii].
    apply (mkdir_loop_plain dirs [] fs (fs_cwd fs)); [exact Hp | reflexivity|].
    exact Hok.
Qed.

(** X19: for a relative path [d1/.../dn/file.yml] of plain names whose
    first character does not occur in the file name, [create_yaml_file]
    works like [makedirs] followed by a write: it returns, every
    directory [d1], [d1/d2], ... exists afterwards below the working
    directory, the file at [d1/.../dn/file.yml] holds the formatted
    lines, and every other regular file is as it was.  No name on the way
    may be a regular file or lie in a directory that may not be
    written. *)
Theorem create_yaml_file_creates_directories (fs : filesystem)
        (dirs : list string) (file : string) (kwargs : list (string * param))
        (lines : list (list ascii)) :
  forallb plain_name (dirs ++ [file]) = true ->
  first_char_kept dirs file = true ->
  endswith (relative_path dirs file) ".yaml"
  || endswith (relative_path dirs file) ".yml" = true ->
  config_lines kwargs = Ok lines ->
  (forall pre post, dirs = pre ++ post ->
     file_at fs (fs_cwd fs ++ pre) = None /\
     existsb (path_eqb (fs_cwd fs ++ pre)) (fs_read_only fs) = false) ->
  fs_lookup fs (fs_cwd fs ++ dirs ++ [file]) <> Some FsDir ->
  existsb (path_eqb (fs_cwd fs ++ dirs ++ [file])) (fs_read_only fs) = false ->
  exists fs',
    create_yaml_file fs (relative_path dirs file) kwargs = (fs', Ok tt) /\
    file_at fs' (fs_cwd fs ++ dirs ++ [file]) = Some (file_text lines) /\
    (forall pre post, dirs = pre ++ post -> pre <> [] ->
       fs_lookup fs' (fs_cwd fs ++ pre) = Some FsDir) /\
    (forall q, q <> fs_cwd fs ++ dirs ++ [file] -> file_at fs' q = file_at fs q).
Proof.
  intros Hp Hk Hend Hlines Hok Hnd Hro.
  destruct (forallb_plain_app _ _ Hp) as [Hd Hf].
  destruct (make_directories_plain fs dirs Hd Hok)
    as (fs1 & Hmk & Hcwd & Hro1 & Hw & Hsame).
  pose proof (make_directories_spec fs (directory_text dirs)) as [Hfiles _].
  rewrite Hmk in Hfiles. cbn [fst] in Hfiles.
  assert (Ht : fs_lookup fs1 ((fs_cwd fs ++ dirs) ++ [file])
               = fs_lookup fs (fs_cwd fs ++ dirs ++ [file])).
  { rewrite <- app_assoc. apply Hsame. intros pre post ->.
    apply longer_than_prefix. }
  destruct (Hok dirs [] (eq_sym (app_nil_r dirs))) as [_ Hrod].
  unfold create_yaml_file.
  rewrite Hlines, (directory_of_relative_path dirs file Hp Hk), Hmk, Hend.
  rewrite (open_write_plain fs1 dirs file _ Hp), Hcwd, Hw, Ht, Hro1.
  rewrite <- (app_assoc (fs_cwd fs) dirs [file]), Hro, Hrod.
  set (target := fs_cwd fs ++ dirs ++ [file]) in *.
  assert (Htn : target <> [])
    by (subst target; rewrite app_assoc; apply app_single_not_nil).
  exists (fs_add fs1 target (FsFile (file_text lines))).
  split; [|split; [|split]].
  - destruct (fs_lookup fs target) as [[|old]|]; [contradiction| |]; reflexivity.
  - unfold file_at. rewrite (fs_lookup_add fs1 target target _ Htn).
    now rewrite path_eqb_refl.
  - intros pre post E Hne. rewrite (fs_lookup_add fs1 target _ _ Htn).
    destruct (path_eqb (fs_cwd fs ++ pre) target) eqn:Eq.
    + apply path_eqb_eq in Eq. subst target dirs. symmetry in Eq.
      now apply longer_than_prefix in Eq.
    + subst dirs. apply (walk_plain_lookup fs1 pre post _ _ Hd Hw Hne).
  - intros q Hq. unfold file_at. rewrite (fs_lookup_add fs1 target q _ Htn).
    destruct (path_eqb q target) eqn:Eq.
    + apply path_eqb_eq in Eq. contradiction.
    + apply Hfiles.
Qed.

Lemma create_yaml_file_creates_directories_witness :
  exists fs',
    create_yaml_file example_fs (relative_path ["results"; "run1"] "config.yml")
      [("scan", Val (PInt 1))]
    = (fs', Ok tt) /\
    file_at fs' (fs_cwd example_fs ++ ["results"; "run1"] ++ ["config.yml"])
    = Some (file_text [chars "scan: 1"]) /\
    (forall pre post, ["results"; "run1"] = pre ++ post -> pre <> [] ->
       fs_lookup fs' (fs_cwd example_fs ++ pre) = Some FsDir) /\
    (forall q, q <> fs_cwd example_fs ++ ["results"; "run1"] ++ ["config.yml"] ->
               file_at fs' q = file_at example_fs q).
Proof.
  apply (create_yaml_file_creates_directories example_fs ["results"; "run1"]
           "config.yml" [("scan", Val (PInt 1))] [chars "scan: 1"]).
  - reflexivity.
  - reflexivity.
  - reflexivity.
  - reflexivity.
  - intros pre post E.
    destruct pre as [|a [|b [|c pre]]]; cbn [app] in E.
    + split; reflexivity.
    + injection E as <- _. split; reflexivity.
    + injection E as <- <- _. split; reflexivity.
    + discriminate E.
  - discriminate.
  - reflexivity.
Defined.

(** X20: [fname.strip(file)] removes characters, not a suffix.  For a
    path [d/file.yml] where every character of the directory name [d]
    occurs in the file name (as in [data/data.yml]), the directory
    computed is ["/"]: nothing is created, and where [d] does not exist
    the call fails with [FileNotFoundError] and leaves the file system as
    it was. *)
Theorem create_yaml_file_strip_drops_directory (fs : filesystem)
        (d file : string) (kwargs : list (string * param))
        (lines : list (list ascii)) :
  plain_name d = true ->
  plain_name file = true ->
  forallb (fun c => existsb (Ascii.eqb c) (chars file)) (chars d) = true ->
  endswith (relative_path [d] file) ".yaml"
  || endswith (relative_path [d] file) ".yml" = true ->
  config_lines kwargs = Ok lines ->
  fs_lookup fs (fs_cwd fs ++ [d]) = None ->
  directory_of (relative_path [d] file) = ["/"%char] /\
  create_yaml_file fs (relative_path [d] file) kwargs
  = (fs, Raise FileNotFoundError).
Proof.
  intros Hd Hf Hin Hend Hlines Hnone.
  assert (Hp : forallb plain_name ([d] ++ [file]) = true)
    by (cbn [app forallb]; now rewrite Hd, Hf).
  destruct (plain_name_spec file Hf) as (_ & Hs & _).
  destruct (plain_name_spec d Hd) as (_ & _ & Hdot).
  assert (Hdir : directory_of (relative_path [d] file) = ["/"%char]).
  { unfold directory_of.
    rewrite (basename_relative_path [d] file Hp), chars_relative_path.
    cbn [directory_text flat_map]. rewrite app_nil_r, <- app_assoc.
    unfold strip. rewrite (lstrip_all _ _ _ Hin). cbn [app].
    rewrite lstrip_stop by now apply slash_not_in.
    cbn [rev]. rewrite lstrip_all by (rewrite forallb_rev; apply existsb_self).
    rewrite lstrip_stop by now apply slash_not_in. reflexivity. }
  split; [exact Hdir|].
  unfold create_yaml_file. rewrite Hlines, Hdir.
  change (make_directories fs ["/"%char]) with (fs, @None exn).
  rewrite Hend, (open_write_plain fs [d] file _ Hp).
  rewrite (walk_single fs (fs_cwd fs) d Hdot), Hnone. reflexivity.
Qed.

Lemma create_yaml_file_strip_drops_directory_witness :
  directory_of (relative_path ["data"] "data.yml") = ["/"%char] /\
  create_yaml_file example_fs (relative_path ["data"] "data.yml")
    [("scan", Val (PInt 1))]
  = (example_fs, Raise FileNotFoundError).
Proof.
  apply (create_yaml_file_strip_drops_directory example_fs "data" "data.yml"
           [("scan", Val (PInt 1))] [chars "scan: 1"]); reflexivity.
Defined.

(** ** The plotting functions *)

Section PlottingFacts.

Variable sample : Type.
Variable subplots : nat -> option exn.
Variable imshow : nat -> ndarray sample -> bool -> option exn.
Variables np_real np_imag np_abs np_angle : ndarray sample -> ndarray sample.

Lemma plot_bind_ok {A B} (tr : list (plot_event sample)) (x : A)
      (k : A -> plotting sample B) :
  plot_bind sample (tr, Ok x) k = (tr ++ fst (k x), snd (k x)).
Proof. unfold plot_bind. now destruct (k x). Qed.

Lemma draw_image_shows (k : nat) (a : ndarray sample) (log : bool) :
  fst (draw_image sample imshow np_abs k a log) <> [].
Proof.
  unfold draw_image. destruct (imshow k a log) as [e|]; [|cbn; discriminate].
  destruct e; cbn; try discriminate; try (destruct log; cbn; discriminate).
  destruct (imshow k (np_abs a) log); cbn; discriminate.
Qed.

Lemma draw_image_cases (k : nat) (a : ndarray sample) (log : bool) :
  draw_image sample imshow np_abs k a log
  = match imshow k a log with
    | None => ([Image k a log], Ok tt)
    | Some e =>
        if match e with TypeError => true | _ => false end then
          match imshow k (np_abs a) log with
          | None => ([Say msg_complex; Image k (np_abs a) log], Ok tt)
          | Some e' => ([Say msg_complex], Raise e')
          end
        else if is_ValueError e then
          (CloseFigure :: (if log then [Say msg_log] else []), Ok tt)
        else ([CloseFigure], Raise e)
    end.
Proof.
  unfold draw_image. destruct (imshow k a log) as [e|]; [|reflexivity].
  destruct e; cbn; try reflexivity; try (destruct log; reflexivity).
  destruct (imshow k (np_abs a) log); reflexivity.
Qed.

(** X21: what leaves [plot_2d_image] called with a figure.  An exception
    of the first drawing leaves unless it is a [TypeError] or a
    [ValueError]; after a [TypeError] the drawing is tried again on
    [np.abs] of the array, and whatever this second drawing raises
    leaves, [TypeError] and [ValueError] included.  The figure is closed
    exactly when the first drawing raised something other than a
    [TypeError]. *)
Theorem plot_2d_image_outcome (a : ndarray sample) (k : nat) (log : bool)
        (e : exn) :
  (snd (plot_2d_image sample subplots imshow np_abs a (Some k) log) = Raise e
   <->
   (imshow k a log = Some e /\ e <> TypeError /\ is_ValueError e = false) \/
   (imshow k a log = Some TypeError /\ imshow k (np_abs a) log = Some e)) /\
  (In CloseFigure
      (fst (plot_2d_image sample subplots imshow np_abs a (Some k) log))
   <->
   exists e', imshow k a log = Some e' /\ e' <> TypeError).
Proof.
  cbn [plot_2d_image]. rewrite draw_image_cases.
  destruct (imshow k a log) as [e1|] eqn:E1.
  2:{ cbn. split; split.
      - discriminate.
      - intros [(H & _)|(H & _)]; discriminate H.
      - intros [H|[]]; discriminate H.
      - intros (e' & H & _); discriminate H. }
  destruct (match e1 with TypeError => true | _ => false end) eqn:Et.
  - assert (e1 = TypeError)
      by (destruct e1; try discriminate Et; reflexivity).
    subst e1.
    destruct (imshow k (np_abs a) log) as [e2|] eqn:E2; cbn [fst snd];
      split; split.
    + intros H. injection H as H'. subst e2. right. split; reflexivity.
    + intros [(H & Hn & _)|(_ & H)].
      * injection H as H'. subst e. contradiction.
      * injection H as H'. subst e. reflexivity.
    + cbn. intros [H|[]]. discriminate H.
    + intros (e' & H & Hn). injection H as H'. subst e'. contradiction.
    + discriminate.
    + intros [(H & Hn & _)|(_ & H)].
      * injection H as H'. subst e. contradiction.
      * discriminate H.
    + cbn. intros [H|[H|[]]]; discriminate H.
    + intros (e' & H & Hn). injection H as H'. subst e'. contradiction.
  - assert (Hne : e1 <> TypeError) by (intros ->; discriminate Et).
    destruct (is_ValueError e1) eqn:Ev; cbn [fst snd]; split; split.
    + discriminate.
    + intros [(H & _ & Hv)|(H & _)].
      * injection H as H'. subst e. congruence.
      * injection H as H'. contradiction.
    + intros _. exists e1. split; [reflexivity | exact Hne].
    + intros _. now left.
    + intros H. injection H as H'. subst e. left. repeat split; assumption.
    + intros [(H & _)|(H & _)].
      * injection H as H'. now subst e.
      * injection H as H'. contradiction.
    + intros _. exists e1. split; [reflexivity | exact Hne].
    + intros _. now left.
Qed.

Lemma subscript_shape_nil (sh : list nat) : subscript_shape sh [] = Ok sh.
Proof. destruct sh; reflexivity. Qed.

Lemma middle_lt (n : nat) : (0 < n)%nat -> (n / 2 <? n)%nat = true.
Proof. intros H. apply Nat.ltb_lt. apply Nat.div_lt; lia. Qed.

Lemma plot_slices_figsize (a : ndarray sample) (figsize : option (nat * nat))
      (log : bool) :
  plot_slices sample subplots imshow np_abs a figsize log
  = (match figsize with
     | None => [SayFigsize (ndim a * 5) 7]
     | Some _ => []
     end
     ++ fst (plot_slices sample subplots imshow np_abs a (Some (0, 0)%nat) log),
     snd (plot_slices sample subplots imshow np_abs a (Some (0, 0)%nat) log)).
Proof.
  unfold plot_slices, emit. destruct figsize as [fz|];
    rewrite !(plot_bind_ok _ tt); reflexivity.
Qed.

(** X22: [plot_3d_slices] draws nothing and raises [IndexError], in
    either scale, exactly for the arrays of fewer than three axes and
    those whose first axis is empty: the first slice
    [data_array[shape[0]//2, :, :]] cannot be taken. *)
Theorem plot_3d_slices_no_plane (a : ndarray sample)
        (figsize : option (nat * nat)) (log : bool) :
  subplots (ndim a) = None ->
  ((ndim a < 3)%nat \/ hd 0%nat (shape a) = 0%nat
   <->
   plot_3d_slices sample subplots imshow np_abs a figsize log
   = (match figsize with
      | None => [SayFigsize (ndim a * 5) 7]
      | Some _ => []
      end ++ [Subplots (ndim a)], Raise IndexError)).
Proof.
  intros Hsub. unfold plot_3d_slices. rewrite plot_slices_figsize.
  set (tr0 := match figsize with
              | None => [SayFigsize (ndim a * 5) 7]
              | Some _ => []
              end).
  assert (Hr : (ndim a < 3)%nat \/ hd 0%nat (shape a) = 0%nat
               <-> plot_slices sample subplots imshow np_abs a (Some (0, 0)%nat) log
                   = ([Subplots (ndim a)], Raise IndexError)).
  { unfold plot_slices, emit, call, lift. rewrite Hsub.
    rewrite !plot_bind_ok. cbn [fst snd app].
    unfold middle, getitem, ndim.
    destruct (shape a) as [|n0 [|n1 [|n2 rest]]] eqn:Es;
      cbn [nth_error hd List.length].
    - cbn. split; [reflexivity | intros _; left; lia].
    - rewrite plot_bind_ok. cbn [subscript_shape].
      destruct (n0 / 2 <? n0)%nat; cbn;
        (split; [reflexivity | intros _; left; lia]).
    - rewrite plot_bind_ok. cbn [subscript_shape].
      destruct (n0 / 2 <? n0)%nat; cbn;
        (split; [reflexivity | intros _; left; lia]).
    - rewrite plot_bind_ok. cbn [subscript_shape].
      destruct n0 as [|n0'].
      + cbn. split; [reflexivity | intros _; now right].
      + rewrite (middle_lt (S n0')) by lia.
        rewrite subscript_shape_nil, plot_bind_ok. cbv beta.
        cbn [plot_2d_image].
        match goal with
        | |- context [draw_image sample imshow np_abs 0 ?s log] =>
            pose proof (draw_image_shows 0 s log) as Hd;
            destruct (draw_image sample imshow np_abs 0 s log) as [t0 r0]
        end.
        cbn [fst] in Hd.
        split; [intros [H|H]; [cbn in H; lia | discriminate H]|].
        intros H. exfalso. apply (f_equal fst) in H.
        destruct r0 as [[]|e0].
        * rewrite plot_bind_ok in H. cbn [fst snd app] in H.
          injection H as H. apply app_eq_nil in H as [H _]. contradiction.
        * cbn in H. injection H as H. contradiction. }
  rewrite Hr. destruct (plot_slices sample subplots imshow np_abs a _ log)
    as [t r]. cbn [fst snd]. split.
  - intros H. injection H as -> ->. reflexivity.
  - intros H. injection H as H1 H2. apply app_inv_head in H1.
    now subst.
Qed.

(** X23: for an array of three non-empty axes, when no call into
    matplotlib raises, [plot_3d_slices] shows three images in one figure
    and returns: on the axes 0, 1 and 2, the planes through the middle
    index [n // 2] of the axes 0, 1 and 2 of the array. *)
Theorem plot_3d_slices_middle_planes (a : ndarray sample)
        (figsize : option (nat * nat)) (log : bool) (n0 n1 n2 : nat) :
  shape a = [n0; n1; n2] ->
  (0 < n0)%nat -> (0 < n1)%nat -> (0 < n2)%nat ->
  subplots 3 = None ->
  (forall k b, imshow k b log = None) ->
  exists s0 s1 s2,
    plot_3d_slices sample subplots imshow np_abs a figsize log
    = (match figsize with
       | None => [SayFigsize 15 7]
       | Some _ => []
       end
       ++ [Subplots 3; Image 0 s0 log; Image 1 s1 log; Image 2 s2 log;
           ShowFigure], Ok tt) /\
    shape s0 = [n1; n2] /\ shape s1 = [n0; n2] /\ shape s2 = [n0; n1] /\
    forall i j,
      item s0 [i; j] = item a [(n0 / 2)%nat; i; j] /\
      item s1 [i; j] = item a [i; (n1 / 2)%nat; j] /\
      item s2 [i; j] = item a [i; j; (n2 / 2)%nat].
Proof.
  intros Hs H0 H1 H2 Hsub Him.
  unfold plot_3d_slices. rewrite plot_slices_figsize.
  unfold plot_slices, emit, call, lift, middle, getitem, ndim.
  rewrite Hs. cbn [List.length nth_error Nat.mul Nat.add]. rewrite Hsub.
  repeat first [ rewrite plot_bind_ok
               | rewrite (middle_lt n0 H0) | rewrite (middle_lt n1 H1)
               | rewrite (middle_lt n2 H2) | rewrite Him
               | progress cbv beta
               | progress cbn [fst snd app nth_error subscript_shape
                               plot_2d_image]
               | progress unfold draw_image, emit ].
  do 3 eexists. split; [reflexivity|]. repeat split.
Qed.

(** The four parts keep the shape of the array. *)
Hypothesis np_real_shape : forall a, shape (np_real a) = shape a.
Hypothesis np_imag_shape : forall a, shape (np_imag a) = shape a.
Hypothesis np_abs_shape : forall a, shape (np_abs a) = shape a.
Hypothesis np_angle_shape : forall a, shape (np_angle a) = shape a.

Lemma component_shape (c : complex_part) (a : ndarray sample) :
  shape (component sample np_real np_imag np_abs np_angle c a) = shape a.
Proof. destruct c; cbn [component]; auto. Qed.

(** X24: in the 3-D branch of [plot_data], for an array of three
    non-empty axes and every choice of the two widgets, [plot_3d] prints
    the shape of the projection and makes a slider that is not empty;
    at every position of the slider the image that [PickLastAxis] takes
    exists and has the shape printed, so the callback draws it and
    returns when no call into matplotlib raises. *)
Theorem plot_data_slider_in_range (a : ndarray sample) (p : axplot)
        (c : complex_part) (n0 n1 n2 : nat) :
  shape a = [n0; n1; n2] ->
  (0 < n0)%nat -> (0 < n1)%nat -> (0 < n2)%nat ->
  subplots 1 = None ->
  (forall k b log, imshow k b log = None) ->
  exists proj r,
    plot_3d sample np_real np_imag np_abs np_angle a p c
    = ([SayShape proj; SayRange r], Ok r) /\
    (0 < r)%nat /\
    forall i scale,
      (i <= r - 1)%nat ->
      exists dt,
        getitem (component sample np_real np_imag np_abs np_angle c a)
                (image_subscripts p i) = Ok dt /\
        shape dt = proj /\
        PickLastAxis sample subplots imshow np_real np_imag np_abs np_angle
                     a p c i scale
        = ([CloseFigure; Subplots 1;
            Image 0 dt (String.eqb scale "logarithmic"); ShowFigure], Ok tt).
Proof.
  intros Hs H0 H1 H2 Hsub Him.
  pose proof (component_shape c a) as Hc. rewrite Hs in Hc.
  assert (L0 : (0 <? n0)%nat = true) by now apply Nat.ltb_lt.
  assert (L1 : (0 <? n1)%nat = true) by now apply Nat.ltb_lt.
  assert (L2 : (0 <? n2)%nat = true) by now apply Nat.ltb_lt.
  unfold plot_3d, PickLastAxis, emit, call, lift, getitem.
  rewrite Hc, Hsub.
  destruct p; cbn [projection_subscripts range_subscripts image_subscripts
                   subscript_shape]; rewrite ?L0, ?L1, ?L2;
    repeat first [ rewrite plot_bind_ok | progress cbv beta
                 | progress cbn [fst snd app shape] ].
  - exists [n0; n1], n2. split; [reflexivity|]. split; [exact H2|].
    intros i scale Hi.
    assert (Li : (i <? n2)%nat = true) by (apply Nat.ltb_lt; lia).
    rewrite Li.
    repeat first [ rewrite plot_bind_ok | rewrite Him | progress cbv beta
                 | progress cbn [fst snd app shape plot_2d_image]
                 | progress unfold draw_image, emit ].
    eexists. repeat split.
  - exists [n1; n2], n0. split; [reflexivity|]. split; [exact H0|].
    intros i scale Hi.
    assert (Li : (i <? n0)%nat = true) by (apply Nat.ltb_lt; lia).
    rewrite Li.
    repeat first [ rewrite plot_bind_ok | rewrite Him | progress cbv beta
                 | progress cbn [fst snd app shape plot_2d_image]
                 | progress unfold draw_image, emit ].
    eexists. repeat split.
  - exists [n0; n2], n1. split; [reflexivity|]. split; [exact H1|].
    intros i scale Hi.
    assert (Li : (i <? n1)%nat = true) by (apply Nat.ltb_lt; lia).
    rewrite Li.
    repeat first [ rewrite plot_bind_ok | rewrite Him | progress cbv beta
                 | progress cbn [fst snd app shape plot_2d_image]
                 | progress unfold draw_image, emit ].
    eexists. repeat split.
Qed.

(** X25: on a 3-D array, [plot_3d] raises [IndexError] exactly when one
    of the three axes is empty, whatever the two widgets select; it
    raises nothing else. *)
Theorem plot_3d_empty_axis (a : ndarray sample) (p : axplot)
        (c : complex_part) (n0 n1 n2 : nat) :
  shape a = [n0; n1; n2] ->
  (n0 = 0%nat \/ n1 = 0%nat \/ n2 = 0%nat
   <-> snd (plot_3d sample np_real np_imag np_abs np_angle a p c)
       = Raise IndexError) /\
  forall e, snd (plot_3d sample np_real np_imag np_abs np_angle a p c) = Raise e ->
            e = IndexError.
Proof.
  intros Hs. pose proof (component_shape c a) as Hc. rewrite Hs in Hc.
  unfold plot_3d, emit, call, lift, getitem. rewrite Hc.
  destruct p; cbn [projection_subscripts range_subscripts subscript_shape];
    destruct n0 as [|m0], n1 as [|m1], n2 as [|m2]; cbn;
    (split; [split; [intros H; first [reflexivity | exfalso; lia]
                    | intros H; first [discriminate H | lia]]
            | intros e H; first [discriminate H | now injection H as <-]]).
Qed.

End PlottingFacts.

Lemma plot_3d_slices_no_plane_witness :
  (ndim (index_array [5; 6]%nat) < 3)%nat \/
  hd 0%nat (shape (index_array [5; 6]%nat)) = 0%nat
  <->
  plot_3d_slices Z (fun _ => None) (fun _ _ _ => None) (fun a => a)
    (index_array [5; 6]%nat) None false
  = ([SayFigsize (ndim (index_array [5; 6]%nat) * 5) 7]
       ++ [Subplots (ndim (index_array [5; 6]%nat))], Raise IndexError).
Proof.
  apply (plot_3d_slices_no_plane Z (fun _ => None) (fun _ _ _ => None)
           (fun a => a) (index_array [5; 6]%nat) None false).
  reflexivity.
Defined.

Lemma plot_3d_slices_middle_planes_witness :
  exists s0 s1 s2,
    plot_3d_slices Z (fun _ => None) (fun _ _ _ => None) (fun a => a)
      (index_array [2; 3; 4]%nat) None true
    = ([SayFigsize 15 7]
         ++ [Subplots 3; Image 0 s0 true; Image 1 s1 true; Image 2 s2 true;
             ShowFigure], Ok tt) /\
    shape s0 = [3; 4]%nat /\ shape s1 = [2; 4]%nat /\ shape s2 = [2; 3]%nat /\
    forall i j,
      item s0 [i; j] = item (index_array [2; 3; 4]%nat) [(2 / 2)%nat; i; j] /\
      item s1 [i; j] = item (index_array [2; 3; 4]%nat) [i; (3 / 2)%nat; j] /\
      item s2 [i; j] = item (index_array [2; 3; 4]%nat) [i; j; (4 / 2)%nat].
Proof.
  apply (plot_3d_slices_middle_planes Z (fun _ => None) (fun _ _ _ => None)
           (fun a => a) (index_array [2; 3; 4]%nat) None true 2 3 4);
    try reflexivity; lia.
Defined.

Lemma plot_data_slider_in_range_witness :
  exists proj r,
    plot_3d Z (fun a => a) (fun a => a) (fun a => a) (fun a => a)
      (index_array [2; 3; 4]%nat) XZ PartModule
    = ([SayShape proj; SayRange r], Ok r) /\
    (0 < r)%nat /\
    forall i scale,
      (i <= r - 1)%nat ->
      exists dt,
        getitem (component Z (fun a => a) (fun a => a) (fun a => a)
                   (fun a => a) PartModule (index_array [2; 3; 4]%nat))
                (image_subscripts XZ i) = Ok dt /\
        shape dt = proj /\
        PickLastAxis Z (fun _ => None) (fun _ _ _ => None)
          (fun a => a) (fun a => a) (fun a => a) (fun a => a)
          (index_array [2; 3; 4]%nat) XZ PartModule i scale
        = ([CloseFigure; Subplots 1;
            Image 0 dt (String.eqb scale "logarithmic"); ShowFigure], Ok tt).
Proof.
  apply (plot_data_slider_in_range Z (fun _ => None) (fun _ _ _ => None)
           (fun a => a) (fun a => a) (fun a => a) (fun a => a)
           (fun _ => eq_refl) (fun _ => eq_refl) (fun _ => eq_refl)
           (fun _ => eq_refl)
           (index_array [2; 3; 4]%nat) XZ PartModule 2 3 4);
    try reflexivity; lia.
Defined.

Lemma plot_3d_empty_axis_witness :
  (0%nat = 0%nat \/ 3%nat = 0%nat \/ 4%nat = 0%nat
   <-> snd (plot_3d Z (fun a => a) (fun a => a) (fun a => a) (fun a => a)
              (index_array [0; 3; 4]%nat) XY PartReal)
       = Raise IndexError) /\
  forall e,
    snd (plot_3d Z (fun a => a) (fun a => a) (fun a => a) (fun a => a)
           (index_array [0; 3; 4]%nat) XY PartReal) = Raise e ->
    e = IndexError.
Proof.
  apply (plot_3d_empty_axis Z (fun a => a) (fun a => a) (fun a => a)
           (fun a => a) (fun _ => eq_refl) (fun _ => eq_refl)
           (fun _ => eq_refl) (fun _ => eq_refl)
           (index_array [0; 3; 4]%nat) XY PartReal 0 3 4).
  reflexivity.
Defined.
